(** * AgentChatV2 frontend: the streaming session synchronizer

    A shallow embedding of
    - [core/services/chat.service.ts]          (wire decoder, [streamChat]),
    - [core/services/session-state.service.ts] (pending/real session ids),
    - [features/chat/chat.component.ts]        (one chat turn of the view),
    followed by the properties the specification states about them.

    JavaScript strings are modelled as [string]; [undefined] as [None];
    [Map<string, _>] as [gmap string _]; [Set<string>] as [gset string];
    numbers that the code only stores or prints ([Date.now()], durations,
    token counts) as [Z]. *)

From stdpp Require Import gmap strings list pretty.
From Stdlib Require Import Ascii String ZArith Strings.Byte.
Import ListNotations.
Set Warnings "-clear-no-such-hyp".
Local Open Scope string_scope.
Local Open Scope list_scope.

(** ** JavaScript primitives used by the sources *)

Module JS.

(** Truthiness of a [string | undefined]: [undefined] and [''] are falsy. *)
Definition truthy (o : option string) : bool :=
  match o with
  | Some (String _ _) => true
  | _ => false
  end.

(** [o || d] on a [string | undefined]. *)
Definition or_else (o : option string) (d : string) : string :=
  match o with
  | Some (String c s) => String c s
  | _ => d
  end.

(** [s.startsWith(p)]. *)
Definition startsWith (s p : string) : bool := String.prefix p s.

(** [s.slice(n)]: [s] without its first [n] code units. *)
Fixpoint slice (n : nat) (s : string) : string :=
  match n, s with
  | O, _ => s
  | S n', String _ s' => slice n' s'
  | S _, EmptyString => EmptyString
  end.

(** White space removed by [trim] among the code units below 256. *)
Definition is_space (c : ascii) : bool :=
  let n := nat_of_ascii c in
  ((9 <=? n)%nat && (n <=? 13)%nat) || (n =? 32)%nat || (n =? 160)%nat.

(** [!s.trim()]: trimming leaves nothing exactly when every code unit of
    [s] is white space. *)
Fixpoint blank (s : string) : bool :=
  match s with
  | EmptyString => true
  | String c s' => is_space c && blank s'
  end.

Definition LF : ascii := "010"%char.

Definition unshift (c : ascii) (parts : list string) : list string :=
  match parts with
  | [] => [String c ""]
  | p :: ps => String c p :: ps
  end.

(** [s.split('\n\n')]: the pieces of [s] between the occurrences of two
    line feeds, found from the left and not overlapping; never empty. *)
Fixpoint split_nn (s : string) : list string :=
  match s with
  | EmptyString => [""]
  | String c s' =>
      match s' with
      | EmptyString => [String c ""]
      | String c2 s'' =>
          if Ascii.eqb c LF && Ascii.eqb c2 LF
          then "" :: split_nn s''
          else unshift c (split_nn s')
      end
  end.

(** [l.pop()]: the last element ([undefined] on an empty array) and the
    array that is left. *)
Fixpoint pop {A} (l : list A) : option A * list A :=
  match l with
  | [] => (None, [])
  | x :: l' =>
      match l' with
      | [] => (Some x, [])
      | _ :: _ => let '(o, r) := pop l' in (o, x :: r)
      end
  end.

(** Opaque JSON values ([Record<string, unknown>]). *)
#[warnings="-register-all"] Inductive Json :=
| JNull
| JBool (b : bool)
| JNum (z : Z)
| JStr (s : string)
| JArr (l : list Json)
| JObj (l : list (string * Json)).

End JS.

(** ** chat.service.ts: data model *)

Inductive ChunkType :=
| ty_content | ty_agent_start | ty_agent_end | ty_error | ty_done | ty_chatter.

Inductive ChatterType :=
| thinking | tool_call | tool_result | delegation | chatter_content.

Inductive Role := user | assistant | system.

Record Session := {
  s_id : string;
  s_title : string;
  s_orchestrationType : string;
  s_selectedAgents : list string;
  s_createdAt : string;
  s_lastMessageAt : string;
  s_messageCount : Z
}.

Record StreamChunk := {
  type : ChunkType;
  agentId : option string;
  agentName : option string;
  content : option string;
  session_id : option string;
  metadata : option JS.Json;
  chatter_type : option ChatterType;
  agent_name : option string;
  tool_name : option string;
  tool_args : option JS.Json;
  duration_ms : option Z;
  tokens_input : option Z;
  tokens_output : option Z;
  friendly_message : option string
}.

Record ChatRequest := {
  rq_message : string;
  rq_sessionId : option string;
  rq_orchestrationType : option string;
  rq_agentIds : option (list string);
  rq_includeDocuments : option bool;
  rq_pendingSessionId : option string
}.

(** ** chat.component.ts: data model *)

Record ChatterEvent := {
  ce_type : ChatterType;
  ce_agentName : string;
  ce_content : string;
  ce_toolName : option string;
  ce_toolArgs : option JS.Json;
  ce_timestamp : Z;
  ce_durationMs : option Z;
  ce_tokensInput : option Z;
  ce_tokensOutput : option Z;
  ce_friendlyMessage : option string
}.

Record AgentResponse := {
  ar_agentName : string;
  ar_content : string
}.

(** [DisplayMessage extends Message]; the session service stores the same
    objects under the type [Message]. *)
Record DisplayMessage := {
  m_id : string;
  m_sessionId : string;
  m_role : Role;
  m_content : string;
  m_timestamp : string;
  m_isStreaming : option bool;
  m_agentResponses : option (list AgentResponse);
  m_chatterEvents : option (list ChatterEvent)
}.

(** ** chat.service.ts: [ChatService.streamChat] *)

(** The platform's [TextDecoder] used with [{ stream: true }]: it keeps the
    bytes of an unfinished code point in its state, so that decoding a
    chunk in two parts gives the two parts of its text. *)
Class TextDecoder := {
  td_state : Type;
  td_new : td_state;
  td_decode : td_state -> list byte -> td_state * string;
  td_decode_nil : forall st, td_decode st [] = (st, "");
  td_decode_app : forall st a b,
    td_decode st (a ++ b) =
    (fst (td_decode (fst (td_decode st a)) b),
     snd (td_decode st a) +:+ snd (td_decode (fst (td_decode st a)) b))
}.

(** What [fetch] and the body reader hand to [streamChat]. *)
Inductive Response :=
| FetchRejected
| NotOk (status : Z)
| NoBody
| Body (chunks : list (list byte)) (read_rejects : bool).

Module ChatService.
Section StreamChat.

Context {decoder : TextDecoder}.

(** [JSON.parse(_) as StreamChunk]; [None] when the call, or the first use
    of its result, throws. *)
Variable JSON_parse : string -> option StreamChunk.

(** The observers of the service, acting on a state [W] of the rest of the
    application: the subscriber of [subject], the callbacks registered by
    [onNewSessionComplete], and [console.error]. *)
Variable W : Type.
Variable subject_next : StreamChunk -> W -> W.
Variable subject_complete : W -> W.
Variable subject_error : W -> W.
Variable newSessionCompleteCallbacks : list (string -> string -> W -> W).
Variable console_error : W -> W.

Variable request : ChatRequest.

Definition is_done (t : ChunkType) : bool :=
  match t with ty_done => true | _ => false end.

(** The body of the [try] block once [JSON.parse] has returned [data]. *)
Definition emit (data : StreamChunk) (w : W) : W :=
  let w := subject_next data w in
  if is_done (type data)
     && JS.truthy (rq_pendingSessionId request)
     && JS.truthy (session_id data)
  then
    fold_left
      (fun w cb =>
         cb (JS.or_else (rq_pendingSessionId request) "")
            (JS.or_else (session_id data) "") w)
      newSessionCompleteCallbacks w
  else w.

(** One iteration of [for (const line of lines)]. *)
Definition process_line (w : W) (line : string) : W :=
  if JS.startsWith line "data: " then
    match JSON_parse (JS.slice 6 line) with
    | Some data => emit data w
    | None => console_error w
    end
  else w.

(** The local variables of the read loop. *)
Record Reader := {
  rd_decoder : td_state;
  buffer : string
}.

Definition new_reader : Reader :=
  {| rd_decoder := td_new; buffer := "" |}.

(** One iteration of [while (true)] for a chunk [value] that was read. *)
Definition read_chunk (rw : Reader * W) (value : list byte) : Reader * W :=
  let '(r, w) := rw in
  let '(st, text) := td_decode (rd_decoder r) value in
  let buffer := buffer r +:+ text in
  let '(last, lines) := JS.pop (JS.split_nn buffer) in
  let buffer := JS.or_else last "" in
  ({| rd_decoder := st; buffer := buffer |}, fold_left process_line lines w).

Definition read_all (chunks : list (list byte)) (w : W) : Reader * W :=
  fold_left read_chunk chunks (new_reader, w).

Definition streamChat (response : Response) (w : W) : W :=
  match response with
  | FetchRejected | NotOk _ | NoBody => subject_error w
  | Body chunks read_rejects =>
      let w := snd (read_all chunks w) in
      if read_rejects then subject_error w else subject_complete w
  end.

End StreamChat.
End ChatService.

(** ** session-state.service.ts: [SessionStateService] *)

Module SessionStateService.

(** The fields of the service.  [sessionsRefresh] counts the emissions of
    the payload-free subject [sessionsRefresh$]. *)
Record t := {
  activeSessionId : option string;
  sessionsRefresh : nat;
  pendingSession : option Session;
  pendingToRealMap : gmap string string;
  cachedMessages : gmap string (list DisplayMessage);
  activeNewSessionStreams : gset string
}.

Definition new : t :=
  {| activeSessionId := None;
     sessionsRefresh := 0;
     pendingSession := None;
     pendingToRealMap := ∅;
     cachedMessages := ∅;
     activeNewSessionStreams := ∅ |}.

Definition setActiveSession (sessionId : option string) (s : t) : t :=
  {| activeSessionId := sessionId;
     sessionsRefresh := sessionsRefresh s;
     pendingSession := pendingSession s;
     pendingToRealMap := pendingToRealMap s;
     cachedMessages := cachedMessages s;
     activeNewSessionStreams := activeNewSessionStreams s |}.

Definition refreshSessions (s : t) : t :=
  {| activeSessionId := activeSessionId s;
     sessionsRefresh := S (sessionsRefresh s);
     pendingSession := pendingSession s;
     pendingToRealMap := pendingToRealMap s;
     cachedMessages := cachedMessages s;
     activeNewSessionStreams := activeNewSessionStreams s |}.

Definition setPendingSession (session : option Session) (s : t) : t :=
  {| activeSessionId := activeSessionId s;
     sessionsRefresh := sessionsRefresh s;
     pendingSession := session;
     pendingToRealMap := pendingToRealMap s;
     cachedMessages := cachedMessages s;
     activeNewSessionStreams := activeNewSessionStreams s |}.

Definition clearPendingSession (s : t) : t :=
  {| activeSessionId := activeSessionId s;
     sessionsRefresh := sessionsRefresh s;
     pendingSession := None;
     pendingToRealMap := pendingToRealMap s;
     cachedMessages := cachedMessages s;
     activeNewSessionStreams := activeNewSessionStreams s |}.

Definition mapPendingToReal (pendingId realId : string) (s : t) : t :=
  {| activeSessionId := activeSessionId s;
     sessionsRefresh := sessionsRefresh s;
     pendingSession := pendingSession s;
     pendingToRealMap := <[pendingId := realId]> (pendingToRealMap s);
     cachedMessages := cachedMessages s;
     activeNewSessionStreams := activeNewSessionStreams s |}.

Definition getRealSessionId (pendingId : string) (s : t) : option string :=
  pendingToRealMap s !! pendingId.

Definition clearPendingMapping (pendingId : string) (s : t) : t :=
  {| activeSessionId := activeSessionId s;
     sessionsRefresh := sessionsRefresh s;
     pendingSession := pendingSession s;
     pendingToRealMap := delete pendingId (pendingToRealMap s);
     cachedMessages := cachedMessages s;
     activeNewSessionStreams := activeNewSessionStreams s |}.

Definition cacheMessages (sessionId : string) (messages : list DisplayMessage)
    (s : t) : t :=
  {| activeSessionId := activeSessionId s;
     sessionsRefresh := sessionsRefresh s;
     pendingSession := pendingSession s;
     pendingToRealMap := pendingToRealMap s;
     cachedMessages := <[sessionId := messages]> (cachedMessages s);
     activeNewSessionStreams := activeNewSessionStreams s |}.

(** An array is truthy even when it is empty, so every entry that is found
    is deleted. *)
Definition popCachedMessages (sessionId : string) (s : t)
    : option (list DisplayMessage) * t :=
  match cachedMessages s !! sessionId with
  | Some messages =>
      (Some messages,
       {| activeSessionId := activeSessionId s;
          sessionsRefresh := sessionsRefresh s;
          pendingSession := pendingSession s;
          pendingToRealMap := pendingToRealMap s;
          cachedMessages := delete sessionId (cachedMessages s);
          activeNewSessionStreams := activeNewSessionStreams s |})
  | None => (None, s)
  end.

Definition hasActiveStream (pendingId : string) (s : t) : bool :=
  bool_decide (pendingId ∈ activeNewSessionStreams s).

Definition registerActiveStream (pendingId : string) (s : t) : t :=
  {| activeSessionId := activeSessionId s;
     sessionsRefresh := sessionsRefresh s;
     pendingSession := pendingSession s;
     pendingToRealMap := pendingToRealMap s;
     cachedMessages := cachedMessages s;
     activeNewSessionStreams := {[pendingId]} ∪ activeNewSessionStreams s |}.

(** [activeNewSessionStreams.delete(pendingId)]. *)
Definition untrack (pendingId : string) (s : t) : t :=
  {| activeSessionId := activeSessionId s;
     sessionsRefresh := sessionsRefresh s;
     pendingSession := pendingSession s;
     pendingToRealMap := pendingToRealMap s;
     cachedMessages := cachedMessages s;
     activeNewSessionStreams := activeNewSessionStreams s ∖ {[pendingId]} |}.

(** The callback that the constructor registers with
    [ChatService.onNewSessionComplete]. *)
Definition handleNewSessionComplete (pendingId realSessionId : string)
    (s : t) : t :=
  if negb (hasActiveStream pendingId s) then s
  else
    let s := untrack pendingId s in
    let s := mapPendingToReal pendingId realSessionId s in
    let s := clearPendingSession s in
    refreshSessions s.

Definition completeNewSession (pendingId realSessionId : string)
    (messages : list DisplayMessage) (s : t) : t :=
  if negb (hasActiveStream pendingId s) then s
  else
    let s := untrack pendingId s in
    let s := mapPendingToReal pendingId realSessionId s in
    let s := if (0 <? List.length messages)%nat
             then cacheMessages realSessionId messages s else s in
    let s := clearPendingSession s in
    refreshSessions s.

(** The public methods, and the callback, as calls made on the service one
    after the other since it was constructed. *)
Inductive Call :=
| SetActiveSession (sessionId : option string)
| RefreshSessions
| SetPendingSession (session : option Session)
| ClearPendingSession
| MapPendingToReal (pendingId realId : string)
| ClearPendingMapping (pendingId : string)
| CacheMessages (sessionId : string) (messages : list DisplayMessage)
| PopCachedMessages (sessionId : string)
| RegisterActiveStream (pendingId : string)
| CompleteNewSession (pendingId realSessionId : string)
    (messages : list DisplayMessage)
| HandleNewSessionComplete (pendingId realSessionId : string).

Definition call (s : t) (c : Call) : t :=
  match c with
  | SetActiveSession sessionId => setActiveSession sessionId s
  | RefreshSessions => refreshSessions s
  | SetPendingSession session => setPendingSession session s
  | ClearPendingSession => clearPendingSession s
  | MapPendingToReal pendingId realId => mapPendingToReal pendingId realId s
  | ClearPendingMapping pendingId => clearPendingMapping pendingId s
  | CacheMessages sessionId messages => cacheMessages sessionId messages s
  | PopCachedMessages sessionId => snd (popCachedMessages sessionId s)
  | RegisterActiveStream pendingId => registerActiveStream pendingId s
  | CompleteNewSession pendingId realSessionId messages =>
      completeNewSession pendingId realSessionId messages s
  | HandleNewSessionComplete pendingId realSessionId =>
      handleNewSessionComplete pendingId realSessionId s
  end.

Definition history (calls : list Call) : t := fold_left call calls new.

(** [c] registers [pendingId] in the Active Stream Registry. *)
Definition registers (pendingId : string) (c : Call) : bool :=
  match c with
  | RegisterActiveStream p => String.eqb p pendingId
  | _ => false
  end.

End SessionStateService.

(** ** chat.component.ts: [ChatComponent] *)

Module ChatComponent.

(** Lines written with [console.error]. *)
Inductive LogEntry :=
| StreamErrorLog (content : option string)
| ChatErrorLog
| ParseErrorLog.

(** Requests started through [ChatService]; their answers arrive later and
    are not part of a turn. *)
Inductive HttpRequest :=
| GetSession (sessionId : string)
| GetMessages (sessionId : string).

(** The fields of the component that a turn reads or writes ([destroyed]
    records that [destroy$] has emitted). *)
Record View := {
  sessionId : option string;
  session : option Session;
  messages : list DisplayMessage;
  selectedAgentIds : list string;
  orchestrationType : string;
  isLoading : bool;
  isSending : bool;
  streamingMessage : option DisplayMessage;
  shouldScroll : bool;
  currentPendingId : option string;
  destroyed : bool
}.

(** The component with its collaborators: the wall clock, the injected
    [SessionStateService], its subscription to the stream of the turn in
    flight ([Some isNewSession] while it is open), and the calls made to
    [router.navigate], [ChatService] and [console.error]. *)
Record World := {
  now : Z;
  now_iso : string;
  service : SessionStateService.t;
  view : View;
  subscription : option bool;
  navigations : list string;
  requests : list HttpRequest;
  console : list LogEntry
}.

Definition set_sessionId (x : option string) (v : View) : View :=
  {| sessionId := x; session := session v; messages := messages v;
     selectedAgentIds := selectedAgentIds v;
     orchestrationType := orchestrationType v; isLoading := isLoading v;
     isSending := isSending v; streamingMessage := streamingMessage v;
     shouldScroll := shouldScroll v; currentPendingId := currentPendingId v;
     destroyed := destroyed v |}.

Definition set_session (x : option Session) (v : View) : View :=
  {| sessionId := sessionId v; session := x; messages := messages v;
     selectedAgentIds := selectedAgentIds v;
     orchestrationType := orchestrationType v; isLoading := isLoading v;
     isSending := isSending v; streamingMessage := streamingMessage v;
     shouldScroll := shouldScroll v; currentPendingId := currentPendingId v;
     destroyed := destroyed v |}.

Definition set_messages (x : list DisplayMessage) (v : View) : View :=
  {| sessionId := sessionId v; session := session v; messages := x;
     selectedAgentIds := selectedAgentIds v;
     orchestrationType := orchestrationType v; isLoading := isLoading v;
     isSending := isSending v; streamingMessage := streamingMessage v;
     shouldScroll := shouldScroll v; currentPendingId := currentPendingId v;
     destroyed := destroyed v |}.

Definition set_isLoading (x : bool) (v : View) : View :=
  {| sessionId := sessionId v; session := session v; messages := messages v;
     selectedAgentIds := selectedAgentIds v;
     orchestrationType := orchestrationType v; isLoading := x;
     isSending := isSending v; streamingMessage := streamingMessage v;
     shouldScroll := shouldScroll v; currentPendingId := currentPendingId v;
     destroyed := destroyed v |}.

Definition set_isSending (x : bool) (v : View) : View :=
  {| sessionId := sessionId v; session := session v; messages := messages v;
     selectedAgentIds := selectedAgentIds v;
     orchestrationType := orchestrationType v; isLoading := isLoading v;
     isSending := x; streamingMessage := streamingMessage v;
     shouldScroll := shouldScroll v; currentPendingId := currentPendingId v;
     destroyed := destroyed v |}.

Definition set_streamingMessage (x : option DisplayMessage) (v : View) : View :=
  {| sessionId := sessionId v; session := session v; messages := messages v;
     selectedAgentIds := selectedAgentIds v;
     orchestrationType := orchestrationType v; isLoading := isLoading v;
     isSending := isSending v; streamingMessage := x;
     shouldScroll := shouldScroll v; currentPendingId := currentPendingId v;
     destroyed := destroyed v |}.

Definition set_shouldScroll (x : bool) (v : View) : View :=
  {| sessionId := sessionId v; session := session v; messages := messages v;
     selectedAgentIds := selectedAgentIds v;
     orchestrationType := orchestrationType v; isLoading := isLoading v;
     isSending := isSending v; streamingMessage := streamingMessage v;
     shouldScroll := x; currentPendingId := currentPendingId v;
     destroyed := destroyed v |}.

Definition set_currentPendingId (x : option string) (v : View) : View :=
  {| sessionId := sessionId v; session := session v; messages := messages v;
     selectedAgentIds := selectedAgentIds v;
     orchestrationType := orchestrationType v; isLoading := isLoading v;
     isSending := isSending v; streamingMessage := streamingMessage v;
     shouldScroll := shouldScroll v; currentPendingId := x;
     destroyed := destroyed v |}.

Definition set_destroyed (x : bool) (v : View) : View :=
  {| sessionId := sessionId v; session := session v; messages := messages v;
     selectedAgentIds := selectedAgentIds v;
     orchestrationType := orchestrationType v; isLoading := isLoading v;
     isSending := isSending v; streamingMessage := streamingMessage v;
     shouldScroll := shouldScroll v; currentPendingId := currentPendingId v;
     destroyed := x |}.

Definition on_view (f : View -> View) (w : World) : World :=
  {| now := now w; now_iso := now_iso w; service := service w;
     view := f (view w); subscription := subscription w;
     navigations := navigations w; requests := requests w;
     console := console w |}.

Definition on_service (f : SessionStateService.t -> SessionStateService.t)
    (w : World) : World :=
  {| now := now w; now_iso := now_iso w; service := f (service w);
     view := view w; subscription := subscription w;
     navigations := navigations w; requests := requests w;
     console := console w |}.

Definition set_subscription (x : option bool) (w : World) : World :=
  {| now := now w; now_iso := now_iso w; service := service w;
     view := view w; subscription := x;
     navigations := navigations w; requests := requests w;
     console := console w |}.

Definition set_clock (t : Z) (iso : string) (w : World) : World :=
  {| now := t; now_iso := iso; service := service w;
     view := view w; subscription := subscription w;
     navigations := navigations w; requests := requests w;
     console := console w |}.

(** [this.router.navigate(['/chat', id], { replaceUrl: true })]. *)
Definition navigate (id : string) (w : World) : World :=
  {| now := now w; now_iso := now_iso w; service := service w;
     view := view w; subscription := subscription w;
     navigations := navigations w ++ [id]; requests := requests w;
     console := console w |}.

Definition http (r : HttpRequest) (w : World) : World :=
  {| now := now w; now_iso := now_iso w; service := service w;
     view := view w; subscription := subscription w;
     navigations := navigations w; requests := requests w ++ [r];
     console := console w |}.

Definition console_error (e : LogEntry) (w : World) : World :=
  {| now := now w; now_iso := now_iso w; service := service w;
     view := view w; subscription := subscription w;
     navigations := navigations w; requests := requests w;
     console := console w ++ [e] |}.

Definition set_isStreaming (x : option bool) (m : DisplayMessage)
    : DisplayMessage :=
  {| m_id := m_id m; m_sessionId := m_sessionId m; m_role := m_role m;
     m_content := m_content m; m_timestamp := m_timestamp m;
     m_isStreaming := x; m_agentResponses := m_agentResponses m;
     m_chatterEvents := m_chatterEvents m |}.

Definition set_content (x : string) (m : DisplayMessage) : DisplayMessage :=
  {| m_id := m_id m; m_sessionId := m_sessionId m; m_role := m_role m;
     m_content := x; m_timestamp := m_timestamp m;
     m_isStreaming := m_isStreaming m;
     m_agentResponses := m_agentResponses m;
     m_chatterEvents := m_chatterEvents m |}.

Definition set_agentResponses (x : option (list AgentResponse))
    (m : DisplayMessage) : DisplayMessage :=
  {| m_id := m_id m; m_sessionId := m_sessionId m; m_role := m_role m;
     m_content := m_content m; m_timestamp := m_timestamp m;
     m_isStreaming := m_isStreaming m; m_agentResponses := x;
     m_chatterEvents := m_chatterEvents m |}.

Definition set_chatterEvents (x : option (list ChatterEvent))
    (m : DisplayMessage) : DisplayMessage :=
  {| m_id := m_id m; m_sessionId := m_sessionId m; m_role := m_role m;
     m_content := m_content m; m_timestamp := m_timestamp m;
     m_isStreaming := m_isStreaming m;
     m_agentResponses := m_agentResponses m; m_chatterEvents := x |}.

Definition unwrap_or {A} (o : option A) (d : A) : A :=
  match o with Some x => x | None => d end.

(** [lastResponse.content += delta] on the last element of the array. *)
Fixpoint append_to_last (delta : string) (l : list AgentResponse)
    : list AgentResponse :=
  match l with
  | [] => []
  | r :: l' =>
      match l' with
      | [] => [{| ar_agentName := ar_agentName r;
                  ar_content := ar_content r +:+ delta |}]
      | _ :: _ => r :: append_to_last delta l'
      end
  end.

Definition loadSession (w : World) : World :=
  if negb (JS.truthy (sessionId (view w))) then w
  else
    let sid := JS.or_else (sessionId (view w)) "" in
    if JS.startsWith sid "pending-" then
      let realId := SessionStateService.getRealSessionId sid (service w) in
      if JS.truthy realId then
        let w := on_service (SessionStateService.clearPendingMapping sid) w in
        navigate (JS.or_else realId "") w
      else w
    else
      let '(cachedMessages, s) :=
        SessionStateService.popCachedMessages sid (service w) in
      let w := on_service (fun _ => s) w in
      match cachedMessages with
      | Some (m :: ms) =>
          let w := on_view (set_messages (m :: ms)) w in
          let w := on_view (set_isLoading false) w in
          let w := on_view (set_shouldScroll true) w in
          http (GetSession sid) w
      | _ =>
          let w := on_view (set_isLoading true) w in
          let w := on_view (set_messages []) w in
          let w := http (GetSession sid) w in
          http (GetMessages sid) w
      end.

(** The subscriber of [route.params] in [ngOnInit], which is held until
    [destroy$] emits. *)
Definition onRouteParams (newSessionId : option string) (w : World) : World :=
  if destroyed (view w) then w
  else
    let w :=
      if bool_decide (sessionId (view w) ≠ newSessionId) then
        let w := on_view (set_messages []) w in
        let w := on_view (set_session None) w in
        let w := on_view (set_streamingMessage None) w in
        on_view (set_isSending false) w
      else w in
    let w := on_view (set_sessionId newSessionId) w in
    if JS.truthy newSessionId then loadSession w else w.

Definition handleStreamChunk (chunk : StreamChunk) (isNewSession : bool)
    (w : World) : World :=
  if ChatService.is_done (type chunk) && isNewSession
     && JS.truthy (session_id chunk)
  then
    let newSessionId := JS.or_else (session_id chunk) "" in
    let w :=
      if JS.truthy (currentPendingId (view w)) then
        let messagesToCache :=
          messages (view w) ++
          match streamingMessage (view w) with
          | Some sm => [set_isStreaming (Some false) sm]
          | None => []
          end in
        let w :=
          on_service
            (SessionStateService.completeNewSession
               (JS.or_else (currentPendingId (view w)) "")
               newSessionId messagesToCache) w in
        on_view (set_currentPendingId None) w
      else w in
    if negb (JS.truthy (sessionId (view w)))
       || JS.startsWith (JS.or_else (sessionId (view w)) "") "pending-"
    then
      let w := on_view (set_sessionId (Some newSessionId)) w in
      navigate newSessionId w
    else w
  else
    match streamingMessage (view w) with
    | None => w
    | Some sm =>
        let w :=
          match type chunk with
          | ty_chatter =>
              let chatterEvent :=
                {| ce_type := unwrap_or (chatter_type chunk) thinking;
                   ce_agentName := JS.or_else (agent_name chunk) "Agent";
                   ce_content := JS.or_else (content chunk) "";
                   ce_toolName := tool_name chunk;
                   ce_toolArgs := tool_args chunk;
                   ce_timestamp := now w;
                   ce_durationMs := duration_ms chunk;
                   ce_tokensInput := tokens_input chunk;
                   ce_tokensOutput := tokens_output chunk;
                   ce_friendlyMessage := friendly_message chunk |} in
              let sm :=
                set_chatterEvents
                  (Some (unwrap_or (m_chatterEvents sm) [] ++ [chatterEvent]))
                  sm in
              on_view (set_streamingMessage (Some sm)) w
          | ty_agent_start =>
              let sm :=
                set_agentResponses
                  (Some (unwrap_or (m_agentResponses sm) [] ++
                         [{| ar_agentName :=
                               JS.or_else (agentName chunk) "Agent";
                             ar_content := "" |}]))
                  sm in
              on_view (set_streamingMessage (Some sm)) w
          | ty_content =>
              let delta := JS.or_else (content chunk) "" in
              let sm :=
                match m_agentResponses sm with
                | Some (r :: rs) =>
                    set_agentResponses
                      (Some (append_to_last delta (r :: rs))) sm
                | _ => sm
                end in
              let sm := set_content (m_content sm +:+ delta) sm in
              on_view (set_streamingMessage (Some sm)) w
          | ty_done =>
              match session (view w) with
              | Some s =>
                  if JS.startsWith (s_title s) "Document:"
                  then on_service SessionStateService.refreshSessions w
                  else w
              | None => w
              end
          | ty_error => console_error (StreamErrorLog (content chunk)) w
          | ty_agent_end => w
          end in
        on_view (set_shouldScroll true) w
    end.

(** The [error] and [complete] handlers passed to [subscribe]. *)
Definition on_stream_error (isNewSession : bool) (w : World) : World :=
  let w := console_error ChatErrorLog w in
  let w := on_view (set_isSending false) w in
  let w := on_view (set_streamingMessage None) w in
  if isNewSession
  then on_service SessionStateService.clearPendingSession w
  else w.

Definition on_stream_complete (w : World) : World :=
  let w := on_view (set_isSending false) w in
  match streamingMessage (view w) with
  | Some sm =>
      let w :=
        on_view (set_messages
                   (messages (view w) ++ [set_isStreaming (Some false) sm])) w in
      on_view (set_streamingMessage None) w
  | None => w
  end.

(** [ngOnDestroy]: [destroy$] emits; a stream subscribed through
    [takeUntil(this.destroy$)], which is the case for an existing session
    only, is completed and closed. *)
Definition ngOnDestroy (w : World) : World :=
  let w := on_view (set_destroyed true) w in
  match subscription w with
  | Some false => set_subscription None (on_stream_complete w)
  | _ => w
  end.

(** [sendMessage]: the new state and, unless the call returns at once, the
    request passed to [ChatService.sendMessage]. *)
Definition sendMessage (content : string) (w : World)
    : World * option ChatRequest :=
  if JS.blank content || isSending (view w) then (w, None)
  else
    let w := on_view (set_isSending true) w in
    let isNewSession := negb (JS.truthy (sessionId (view w))) in
    let w :=
      if isNewSession then
        let pendingId := "pending-" +:+ pretty (now w) in
        let w := on_view (set_currentPendingId (Some pendingId)) w in
        let title :=
          if (30 <? String.length content)%nat
          then String.substring 0 30 content +:+ "..."
          else content in
        let w :=
          on_service (SessionStateService.registerActiveStream pendingId) w in
        on_service
          (SessionStateService.setPendingSession
             (Some {| s_id := pendingId;
                      s_title := title;
                      s_orchestrationType := orchestrationType (view w);
                      s_selectedAgents := selectedAgentIds (view w);
                      s_createdAt := now_iso w;
                      s_lastMessageAt := now_iso w;
                      s_messageCount := 1 |})) w
      else w in
    let userMessage :=
      {| m_id := "temp-" +:+ pretty (now w);
         m_sessionId := JS.or_else (sessionId (view w)) "";
         m_role := user;
         m_content := content;
         m_timestamp := now_iso w;
         m_isStreaming := None;
         m_agentResponses := None;
         m_chatterEvents := None |} in
    let w := on_view (set_messages (messages (view w) ++ [userMessage])) w in
    let w := on_view (set_shouldScroll true) w in
    let w :=
      on_view
        (set_streamingMessage
           (Some {| m_id := "streaming";
                    m_sessionId := JS.or_else (sessionId (view w)) "";
                    m_role := assistant;
                    m_content := "";
                    m_timestamp := now_iso w;
                    m_isStreaming := Some true;
                    m_agentResponses := Some [];
                    m_chatterEvents := Some [] |})) w in
    let request :=
      {| rq_message := content;
         rq_sessionId := sessionId (view w);
         rq_orchestrationType := Some (orchestrationType (view w));
         rq_agentIds :=
           match selectedAgentIds (view w) with
           | [] => None
           | ids => Some ids
           end;
         rq_includeDocuments := None;
         rq_pendingSessionId := currentPendingId (view w) |} in
    (set_subscription (Some isNewSession) w, Some request).

End ChatComponent.

(** ** A turn: the service and the component wired together *)

Module Turn.
Import ChatComponent.

(** The subscriber that [ChatComponent.sendMessage] attaches to the stream;
    it is gone once the subscription is closed. *)
Definition subscriber_next (chunk : StreamChunk) (w : World) : World :=
  match subscription w with
  | Some isNewSession => handleStreamChunk chunk isNewSession w
  | None => w
  end.

Definition subscriber_error (w : World) : World :=
  match subscription w with
  | Some isNewSession => set_subscription None (on_stream_error isNewSession w)
  | None => w
  end.

Definition subscriber_complete (w : World) : World :=
  match subscription w with
  | Some _ => set_subscription None (on_stream_complete w)
  | None => w
  end.

(** The callbacks of [ChatService]: the constructor of the root-provided
    [SessionStateService] registers one, and nothing else registers any. *)
Definition sessionStateCallback (pendingId realSessionId : string)
    (w : World) : World :=
  on_service
    (SessionStateService.handleNewSessionComplete pendingId realSessionId) w.

Definition newSessionCompleteCallbacks : list (string -> string -> World -> World) :=
  [sessionStateCallback].

(** What [streamChat] does with one decoded record. *)
Definition emit (request : ChatRequest) (data : StreamChunk) (w : World)
    : World :=
  ChatService.emit World subscriber_next newSessionCompleteCallbacks
    request data w.

Definition streamChat {decoder : TextDecoder}
    (JSON_parse : string -> option StreamChunk)
    (request : ChatRequest) (response : Response) (w : World) : World :=
  ChatService.streamChat JSON_parse World subscriber_next subscriber_complete
    subscriber_error newSessionCompleteCallbacks
    (console_error ParseErrorLog) request response w.

(** What can happen, one after the other, while a turn is in flight: the
    stream yields a record, ends or fails; the view is destroyed; the clock
    advances; the router delivers route parameters. *)
Inductive Occurrence :=
| Yield (data : StreamChunk)
| StreamEnds
| StreamFails
| ViewDestroyed
| Clock (t : Z) (iso : string)
| Route (sessionId : option string).

Definition occur (request : ChatRequest) (w : World) (o : Occurrence) : World :=
  match o with
  | Yield data => emit request data w
  | StreamEnds => subscriber_complete w
  | StreamFails => subscriber_error w
  | ViewDestroyed => ngOnDestroy w
  | Clock t iso => set_clock t iso w
  | Route sid => onRouteParams sid w
  end.

Definition run (request : ChatRequest) (os : list Occurrence) (w : World)
    : World :=
  fold_left (occur request) os w.

(** What may happen before the done record of a turn arrives: records that
    are not done records, the destruction of the view, the clock, the
    router; not the end or the failure of the stream. *)
Definition quiet (o : Occurrence) : bool :=
  match o with
  | Yield data => negb (ChatService.is_done (type data))
  | ViewDestroyed | Clock _ _ | Route _ => true
  | StreamEnds | StreamFails => false
  end.

(** A turn for a new session is in flight: its subscription is open, the
    view remembers its pending id, the pending id is registered, and the
    Refresh Bus has been published [n] times. *)
Definition in_flight (p : string) (n : nat) (w : World) : Prop :=
  subscription w = Some true /\
  currentPendingId (view w) = Some p /\
  SessionStateService.hasActiveStream p (service w) = true /\
  SessionStateService.sessionsRefresh (service w) = n.

(** A submission followed by what happens to its stream. *)
Definition turn (content : string) (os : list Occurrence) (w : World) : World :=
  match sendMessage content w with
  | (w, Some request) => run request os w
  | (w, None) => w
  end.

(** A submission goes through when the text is not blank and no turn is
    being sent. *)
Definition submitted (content : string) (w : World) : Prop :=
  JS.blank content = false /\ isSending (view w) = false.

(** The pending id that [sendMessage] makes up for a new session. *)
Definition pending_id (w : World) : string := "pending-" +:+ pretty (now w).

(** The transcript that [sendMessage] starts a turn with. *)
Definition fresh_transcript (w : World) : DisplayMessage :=
  {| m_id := "streaming";
     m_sessionId := JS.or_else (sessionId (view w)) "";
     m_role := assistant;
     m_content := "";
     m_timestamp := now_iso w;
     m_isStreaming := Some true;
     m_agentResponses := Some [];
     m_chatterEvents := Some [] |}.

(** Records as the backend writes them. *)
Definition chunk (t : ChunkType) : StreamChunk :=
  {| type := t; agentId := None; agentName := None; content := None;
     session_id := None; metadata := None; chatter_type := None;
     agent_name := None; tool_name := None; tool_args := None;
     duration_ms := None; tokens_input := None; tokens_output := None;
     friendly_message := None |}.

Definition content_chunk (text : string) : StreamChunk :=
  {| type := ty_content; agentId := None; agentName := None;
     content := Some text;
     session_id := None; metadata := None; chatter_type := None;
     agent_name := None; tool_name := None; tool_args := None;
     duration_ms := None; tokens_input := None; tokens_output := None;
     friendly_message := None |}.

Definition agent_start_chunk (name : string) : StreamChunk :=
  {| type := ty_agent_start; agentId := None; agentName := Some name;
     content := None;
     session_id := None; metadata := None; chatter_type := None;
     agent_name := None; tool_name := None; tool_args := None;
     duration_ms := None; tokens_input := None; tokens_output := None;
     friendly_message := None |}.

Definition error_chunk (text : string) : StreamChunk :=
  {| type := ty_error; agentId := None; agentName := None;
     content := Some text;
     session_id := None; metadata := None; chatter_type := None;
     agent_name := None; tool_name := None; tool_args := None;
     duration_ms := None; tokens_input := None; tokens_output := None;
     friendly_message := None |}.

Definition done_chunk (sid : option string) : StreamChunk :=
  {| type := ty_done; agentId := None; agentName := None; content := None;
     session_id := sid; metadata := None; chatter_type := None;
     agent_name := None; tool_name := None; tool_args := None;
     duration_ms := None; tokens_input := None; tokens_output := None;
     friendly_message := None |}.

(** A descriptor of an optimistic session, as [sendMessage] builds it. *)
Definition descriptor (id title iso : string) : Session :=
  {| s_id := id; s_title := title; s_orchestrationType := "sequential";
     s_selectedAgents := []; s_createdAt := iso; s_lastMessageAt := iso;
     s_messageCount := 1 |}.

(** The application when it starts: both services constructed, a chat view
    created on the new-chat route. *)
Definition new_view : View :=
  {| sessionId := None; session := None; messages := [];
     selectedAgentIds := []; orchestrationType := "sequential";
     isLoading := false; isSending := false; streamingMessage := None;
     shouldScroll := false; currentPendingId := None; destroyed := false |}.

Definition start (t : Z) (iso : string) : World :=
  {| now := t; now_iso := iso; service := SessionStateService.new;
     view := new_view; subscription := None; navigations := [];
     requests := []; console := [] |}.

End Turn.

(** ** The wire format, and what the read loop computes *)

Module Wire.

(** The complete lines of a text and the unterminated remainder, in one
    pass: what [split] followed by [pop] returns (see [pop_split_scan]). *)
Fixpoint scan (s : string) : list string * string :=
  match s with
  | EmptyString => ([], "")
  | String c s' =>
      match s' with
      | EmptyString => ([], String c "")
      | String c2 s'' =>
          if Ascii.eqb c JS.LF && Ascii.eqb c2 JS.LF
          then let '(ls, r) := scan s'' in ("" :: ls, r)
          else let '(ls, r) := scan s' in
               match ls with
               | [] => ([], String c r)
               | l :: ls' => (String c l :: ls', r)
               end
      end
  end.

Fixpoint no_LF (s : string) : bool :=
  match s with
  | EmptyString => true
  | String c s' => negb (Ascii.eqb c JS.LF) && no_LF s'
  end.

(** One record, [data: <json>] and a blank line, and a sequence of them. *)
Definition record (payload : string) : string :=
  "data: " +:+ payload +:+ String JS.LF (String JS.LF "").

Fixpoint wire (payloads : list string) : string :=
  match payloads with
  | [] => ""
  | p :: ps => record p +:+ wire ps
  end.

(** A well-formed record carries, on one line, a JSON text that parses to
    the given event. *)
Definition well_formed (JSON_parse : string -> option StreamChunk)
    (payload : string) (event : StreamChunk) : Prop :=
  no_LF payload = true /\ JSON_parse payload = Some event.

(** A malformed record: one line on which [JSON.parse] throws. *)
Definition malformed (JSON_parse : string -> option StreamChunk)
    (payload : string) : Prop :=
  no_LF payload = true /\ JSON_parse payload = None.

(** The bytes [bytes] carry the text [text] when the decoder, started
    afresh, turns them into it. *)
Definition carries {decoder : TextDecoder} (bytes : list byte) (text : string)
    : Prop :=
  snd (td_decode td_new bytes) = text.

(** What an observer of the decoder sees, in order. *)
Inductive Signal :=
| Event (data : StreamChunk)
| ParseFailure.

(** The signals of a stream read in the given chunks: the calls of
    [subject.next] and of [console.error], as they happen. *)
Definition signals {decoder : TextDecoder}
    (JSON_parse : string -> option StreamChunk)
    (request : ChatRequest) (chunks : list (list byte)) : list Signal :=
  snd (ChatService.read_all JSON_parse (list Signal)
         (fun data t => t ++ [Event data]) []
         (fun t => t ++ [ParseFailure]) request chunks []).

(** A decoder for streams of one-byte code points, to run the model on. *)
#[export] Instance latin1 : TextDecoder.
Proof.
  refine {| td_state := unit; td_new := tt;
            td_decode := fun st bytes => (st, string_of_list_byte bytes) |}.
  - intros. reflexivity.
  - intros st a b. cbn [fst snd]. f_equal.
    unfold string_of_list_byte. induction a as [|x a IH].
    + reflexivity.
    + simpl. rewrite IH. reflexivity.
Defined.

Definition quote : string := String "034"%char "".

(** The texts [{"type":"content","content":"Hi"}], [{"type":"done"}] and
    [{"type":"done","session_id":"S9"}]. *)
Definition json_content_hi : string :=
  "{" +:+ quote +:+ "type" +:+ quote +:+ ":" +:+ quote +:+ "content"
  +:+ quote +:+ "," +:+ quote +:+ "content" +:+ quote +:+ ":" +:+ quote
  +:+ "Hi" +:+ quote +:+ "}".

Definition json_done : string :=
  "{" +:+ quote +:+ "type" +:+ quote +:+ ":" +:+ quote +:+ "done"
  +:+ quote +:+ "}".

Definition json_done_s9 : string :=
  "{" +:+ quote +:+ "type" +:+ quote +:+ ":" +:+ quote +:+ "done"
  +:+ quote +:+ "," +:+ quote +:+ "session_id" +:+ quote +:+ ":"
  +:+ quote +:+ "S9" +:+ quote +:+ "}".

(** A stand-in for [JSON.parse] that knows these three texts and throws on
    every other one. *)
Definition sample_parse (s : string) : option StreamChunk :=
  if String.eqb s json_content_hi then Some (Turn.content_chunk "Hi")
  else if String.eqb s json_done then Some (Turn.done_chunk None)
  else if String.eqb s json_done_s9 then Some (Turn.done_chunk (Some "S9"))
  else None.

(** A request for a new session, and the bytes of two streams: a content
    record and a done record; the same after a record that does not
    parse. *)
Definition sample_request : ChatRequest :=
  {| rq_message := "Hello"; rq_sessionId := None;
     rq_orchestrationType := Some "sequential"; rq_agentIds := None;
     rq_includeDocuments := None; rq_pendingSessionId := Some "pending-1" |}.

Definition sample_bytes : list byte :=
  list_byte_of_string (wire [json_content_hi; json_done_s9]).

Definition sample_bytes_bad : list byte :=
  list_byte_of_string (record "{oops" +:+ wire [json_content_hi; json_done_s9]).

(** [bytes] cut after [n] and after [n + m] bytes. *)
Definition cut3 (n m : nat) (bytes : list byte) : list (list byte) :=
  [firstn n bytes; firstn m (skipn n bytes); skipn m (skipn n bytes)].

End Wire.

(** ** More of the wire format: any lines, and an unterminated end *)

Module Frames.

(** What the read loop does with one complete line, as signals. *)
Definition classify (JSON_parse : string -> option StreamChunk)
    (line : string) : list Wire.Signal :=
  if JS.startsWith line "data: " then
    match JSON_parse (JS.slice 6 line) with
    | Some data => [Wire.Event data]
    | None => [Wire.ParseFailure]
    end
  else [].

(** Lines, each closed by a blank line. *)
Fixpoint frames (lines : list string) : string :=
  match lines with
  | [] => ""
  | l :: ls => l +:+ String JS.LF (String JS.LF (frames ls))
  end.

(** A text without two line feeds in a row. *)
Fixpoint no_blank_line (s : string) : bool :=
  match s with
  | EmptyString => true
  | String c s' =>
      match s' with
      | EmptyString => true
      | String c2 _ =>
          negb (Ascii.eqb c JS.LF && Ascii.eqb c2 JS.LF) && no_blank_line s'
      end
  end.

(** A keep-alive comment, a content record, a record that does not parse,
    and the beginning of a done record cut off by the end of the stream. *)
Definition sample_lines : list string :=
  [": ping"; "data: " +:+ Wire.json_content_hi; "data: {oops"].

Definition sample_tail : string := "data: " +:+ Wire.json_done.

Definition sample_bytes : list byte :=
  list_byte_of_string (frames sample_lines +:+ sample_tail).

End Frames.

(** ** Calls that resolve a pending id *)

Module Registry.
Import SessionStateService.

(** [c] is a resolution of [pendingId], by either path. *)
Definition resolves (pendingId : string) (c : Call) : bool :=
  match c with
  | CompleteNewSession p _ _ => String.eqb p pendingId
  | HandleNewSessionComplete p _ => String.eqb p pendingId
  | _ => false
  end.

End Registry.

(** ** What the records of a stream contribute to the transcript *)

Module Transcript.
Import ChatComponent.

(** The text that a record adds to the aggregate buffer. *)
Definition delta (c : StreamChunk) : string :=
  match type c with
  | ty_content => JS.or_else (content c) ""
  | _ => ""
  end.

Definition is_chatter (c : StreamChunk) : bool :=
  match type c with ty_chatter => true | _ => false end.

Definition is_agent_start (c : StreamChunk) : bool :=
  match type c with ty_agent_start => true | _ => false end.

(** The entry that [handleStreamChunk] builds from a chatter record read
    at the time [t]. *)
Definition chatter_entry (t : Z) (c : StreamChunk) : ChatterEvent :=
  {| ce_type := unwrap_or (chatter_type c) thinking;
     ce_agentName := JS.or_else (agent_name c) "Agent";
     ce_content := JS.or_else (content c) "";
     ce_toolName := tool_name c;
     ce_toolArgs := tool_args c;
     ce_timestamp := t;
     ce_durationMs := duration_ms c;
     ce_tokensInput := tokens_input c;
     ce_tokensOutput := tokens_output c;
     ce_friendlyMessage := friendly_message c |}.

(** The name under which an agent_start record opens a buffer. *)
Definition started_name (c : StreamChunk) : string :=
  JS.or_else (agentName c) "Agent".

(** The user message that [sendMessage] puts on display. *)
Definition user_message (content : string) (w : World) : DisplayMessage :=
  {| m_id := "temp-" +:+ pretty (now w);
     m_sessionId := JS.or_else (sessionId (view w)) "";
     m_role := user;
     m_content := content;
     m_timestamp := now_iso w;
     m_isStreaming := None;
     m_agentResponses := None;
     m_chatterEvents := None |}.

(** The title that [sendMessage] gives to the optimistic session. *)
Definition title_of (content : string) : string :=
  if (30 <? String.length content)%nat
  then String.substring 0 30 content +:+ "..."
  else content.

(** The buffers of a transcript, and their texts put end to end. *)
Definition buffers (m : DisplayMessage) : list AgentResponse :=
  unwrap_or (m_agentResponses m) [].

Definition join (texts : list string) : string :=
  fold_right String.append "" texts.

Definition joined (rs : list AgentResponse) : string :=
  join (List.map ar_content rs).

(** A chatter record and a content record of the agent Researcher. *)
Definition sample_chatter : StreamChunk :=
  {| type := ty_chatter; agentId := None; agentName := None;
     content := Some "looking up"; session_id := None; metadata := None;
     chatter_type := Some tool_call; agent_name := Some "Researcher";
     tool_name := Some "web_search"; tool_args := None;
     duration_ms := None; tokens_input := None; tokens_output := None;
     friendly_message := None |}.

(** A world in which a turn has just been submitted on the new-chat route,
    and the records of a stream in which two agents answer. *)
Definition sample_world : World :=
  fst (sendMessage "Write a report"
         (Turn.start 1767225600000 "2026-01-01T00:00:00.000Z")).

(** The request of that turn. *)
Definition sample_turn_request : ChatRequest :=
  match
    snd (sendMessage "Write a report"
           (Turn.start 1767225600000 "2026-01-01T00:00:00.000Z"))
  with
  | Some request => request
  | None => Wire.sample_request
  end.

(** The application with a view on the route of the session S1. *)
Definition sample_existing : World :=
  on_view (set_sessionId (Some "S1"))
    (Turn.start 1767225600000 "2026-01-01T00:00:00.000Z").

Definition sample_records : list StreamChunk :=
  [Turn.content_chunk "On it. "; Turn.agent_start_chunk "Researcher";
   sample_chatter; Turn.content_chunk "foo";
   Turn.agent_start_chunk "Writer"; Turn.content_chunk "bar";
   Turn.done_chunk None].

(** The same turn once the agent Researcher has started, and its
    transcript then. *)
Definition sample_started : World :=
  Turn.run sample_turn_request
    [Turn.Yield (Turn.agent_start_chunk "Researcher")] sample_world.

Definition sample_started_transcript : DisplayMessage :=
  match streamingMessage (view sample_started) with
  | Some m => m
  | None =>
      Turn.fresh_transcript
        (Turn.start 1767225600000 "2026-01-01T00:00:00.000Z")
  end.

End Transcript.

(** ** chat.component.ts: the selection of agents *)

Module AgentSelection.

(** [AgentConfig], with the fields that the chat view reads. *)
Record AgentConfig := {
  a_id : option string;
  a_name : string;
  a_is_orchestrator : option bool
}.

(** Truthiness of a [boolean | undefined]. *)
Definition flag (o : option bool) : bool :=
  match o with Some true => true | _ => false end.

(** [ids.includes(id)]. *)
Definition includes (ids : list string) (id : string) : bool :=
  existsb (String.eqb id) ids.

(** [this.agents.find(a => a.is_orchestrator)]. *)
Definition orchestrator (agents : list AgentConfig) : option AgentConfig :=
  List.find (fun a => flag (a_is_orchestrator a)) agents.

(** [this.agents.find(a => a.id === agentId)]. *)
Definition by_id (agents : list AgentConfig) (agentId : string)
    : option AgentConfig :=
  List.find
    (fun a => match a_id a with
              | Some i => String.eqb i agentId
              | None => false
              end) agents.

(** [ensureOrchestratorSelected], on the fields [agents] and
    [selectedAgentIds]; the result is the new [selectedAgentIds]. *)
Definition ensureOrchestratorSelected (agents : list AgentConfig)
    (selectedAgentIds : list string) : list string :=
  match orchestrator agents with
  | Some o =>
      if JS.truthy (a_id o)
         && negb (includes selectedAgentIds (JS.or_else (a_id o) ""))
      then JS.or_else (a_id o) "" :: selectedAgentIds
      else selectedAgentIds
  | None => selectedAgentIds
  end.

(** [toggleAgent], likewise. *)
Definition toggleAgent (agents : list AgentConfig) (agentId : string)
    (selectedAgentIds : list string) : list string :=
  let agent := by_id agents agentId in
  if match agent with
     | Some a => flag (a_is_orchestrator a)
     | None => false
     end
  then selectedAgentIds
  else if includes selectedAgentIds agentId
  then List.filter (fun id => negb (String.eqb id agentId)) selectedAgentIds
  else selectedAgentIds ++ [agentId].

(** The agent found under [agentId] is an orchestrator. *)
Definition is_orchestrator_id (agents : list AgentConfig) (agentId : string)
    : bool :=
  match by_id agents agentId with
  | Some a => flag (a_is_orchestrator a)
  | None => false
  end.

(** An orchestrator and two specialists. *)
Definition sample_agents : list AgentConfig :=
  [{| a_id := Some "writer"; a_name := "Writer";
      a_is_orchestrator := None |};
   {| a_id := Some "orch"; a_name := "Orchestrator";
      a_is_orchestrator := Some true |};
   {| a_id := Some "researcher"; a_name := "Researcher";
      a_is_orchestrator := Some false |}].

End AgentSelection.

(** ** chat-input.component.ts: [ChatInputComponent] *)

Module ChatInput.

(** [s.trim()]: white space is taken off at both ends. *)
Fixpoint trim_left (s : string) : string :=
  match s with
  | EmptyString => EmptyString
  | String c s' => if JS.is_space c then trim_left s' else s
  end.

Fixpoint trim_right (s : string) : string :=
  match s with
  | EmptyString => EmptyString
  | String c s' =>
      match trim_right s' with
      | EmptyString => if JS.is_space c then EmptyString else String c ""
      | t => String c t
      end
  end.

Definition trim (s : string) : string := trim_right (trim_left s).

Record t := {
  disabled : bool;
  message : string
}.

(** [sendMessage]: what is emitted on [send], if anything, and the new
    state. *)
Definition sendMessage (i : t) : option string * t :=
  if JS.truthy (Some (trim (message i))) && negb (disabled i)
  then (Some (trim (message i)), {| disabled := disabled i; message := "" |})
  else (None, i).

End ChatInput.

(** ** The message component: the activity feed *)

Module MessageView.

(** [s.toLowerCase()] on the code units below 256. *)
Definition lower_char (c : ascii) : ascii :=
  let n := nat_of_ascii c in
  if ((65 <=? n)%nat && (n <=? 90)%nat)
     || ((192 <=? n)%nat && (n <=? 222)%nat && negb (n =? 215)%nat)
  then ascii_of_nat (n + 32)
  else c.

Fixpoint toLowerCase (s : string) : string :=
  match s with
  | EmptyString => EmptyString
  | String c s' => String (lower_char c) (toLowerCase s')
  end.

(** The classes [[a-z]] and [[A-Z]] of a regular expression. *)
Definition is_az (c : ascii) : bool :=
  let n := nat_of_ascii c in (97 <=? n)%nat && (n <=? 122)%nat.

Definition is_AZ (c : ascii) : bool :=
  let n := nat_of_ascii c in (65 <=? n)%nat && (n <=? 90)%nat.

Definition underscore : ascii := "_"%char.
Definition space : ascii := " "%char.

(** [s.replace(/_/g, ' ')]. *)
Fixpoint spaces_for_underscores (s : string) : string :=
  match s with
  | EmptyString => EmptyString
  | String c s' =>
      String (if Ascii.eqb c underscore then space else c)
        (spaces_for_underscores s')
  end.

(** [s.replace(/([a-z])([A-Z])/g, '$1 $2')]: the matches are found from
    the left and do not overlap. *)
Fixpoint split_camel (s : string) : string :=
  match s with
  | EmptyString => EmptyString
  | String c s' =>
      match s' with
      | EmptyString => String c ""
      | String c2 s'' =>
          if is_az c && is_AZ c2
          then String c (String space (String c2 (split_camel s'')))
          else String c (split_camel s')
      end
  end.

Definition humanizeToolName (toolName : string) : string :=
  toLowerCase (split_camel (spaces_for_underscores toolName)).

Definition truncateContent (content : string) (maxLength : nat) : string :=
  if (String.length content <=? maxLength)%nat then content
  else String.substring 0 maxLength content +:+ "...".

Definition getActivityMessage (event : ChatterEvent) : string :=
  if JS.truthy (ce_friendlyMessage event)
  then JS.or_else (ce_friendlyMessage event) ""
  else
    match ce_type event with
    | tool_call =>
        if JS.truthy (ce_toolName event)
        then "Using "
             +:+ humanizeToolName (JS.or_else (ce_toolName event) "")
             +:+ "..."
        else "Calling a tool..."
    | tool_result => "Got results"
    | delegation =>
        if JS.truthy (Some (ce_content event))
        then "Asking: " +:+ Wire.quote
             +:+ truncateContent (ce_content event) 60 +:+ Wire.quote
        else "Delegating task..."
    | thinking => "Processing..."
    | chatter_content => JS.or_else (Some (ce_content event)) "Completed"
    end.

(** No code unit of [s] is an underscore. *)
Fixpoint no_underscore (s : string) : bool :=
  match s with
  | EmptyString => true
  | String c s' => negb (Ascii.eqb c underscore) && no_underscore s'
  end.

(** No code unit of [s] is an underscore or a letter from A to Z. *)
Fixpoint plain (s : string) : bool :=
  match s with
  | EmptyString => true
  | String c s' => negb (Ascii.eqb c underscore) && negb (is_AZ c) && plain s'
  end.

End MessageView.

(** ** chat.component.ts: [handleFileUpload] *)

Module Upload.

(** A [File], as far as [handleFileUpload] looks at it. *)
Record File := {
  f_name : string;
  f_size : Z
}.

Definition dot : ascii := "."%char.

(** [s.split('.')]. *)
Fixpoint split_dot (s : string) : list string :=
  match s with
  | EmptyString => [""]
  | String c s' =>
      if Ascii.eqb c dot then "" :: split_dot s'
      else JS.unshift c (split_dot s')
  end.

(** [file.name.split('.').pop()?.toLowerCase() || '']. *)
Definition extension (name : string) : string :=
  JS.or_else
    (option_map MessageView.toLowerCase (fst (JS.pop (split_dot name)))) "".

Definition allowedTypes : list string := ["txt"; "md"; "pdf"; "json"; "csv"].

Definition maxSize : Z := 10 * 1024 * 1024.

(** [allowedTypes.join(', ')]. *)
Fixpoint join_comma (l : list string) : string :=
  match l with
  | [] => ""
  | x :: l' =>
      match l' with
      | [] => x
      | _ :: _ => x +:+ ", " +:+ join_comma l'
      end
  end.

(** The upload fields of the component that the call itself writes;
    [uploadedFiles] is written when the backend answers. *)
Record t := {
  uploadingFile : option string;
  uploadError : option string
}.

(** The requests that the call starts. *)
Inductive Call :=
| CreateSession (title orchestrationType : string)
    (selectedAgents : list string)
| UploadDocument (name : string) (sessionId : string).

(** [handleFileUpload], on the fields [sessionId], [orchestrationType] and
    [selectedAgentIds] of the component: the new upload fields and the
    requests started. *)
Definition handleFileUpload (file : File) (sessionId : option string)
    (orchestrationType : string) (selectedAgentIds : list string) (u : t)
    : t * list Call :=
  if (maxSize <? f_size file)%Z then
    ({| uploadingFile := uploadingFile u;
        uploadError := Some "File too large. Maximum size is 10MB." |}, [])
  else
    let extension := extension (f_name file) in
    if negb (AgentSelection.includes allowedTypes extension) then
      ({| uploadingFile := uploadingFile u;
          uploadError :=
            Some ("File type ." +:+ extension +:+ " not supported. Allowed: "
                  +:+ join_comma allowedTypes) |}, [])
    else if negb (JS.truthy sessionId)
            || JS.startsWith (JS.or_else sessionId "") "pending-"
    then
      ({| uploadingFile := Some (f_name file); uploadError := None |},
       [CreateSession ("Document: " +:+ f_name file) orchestrationType
          selectedAgentIds])
    else
      ({| uploadingFile := Some (f_name file); uploadError := None |},
       [UploadDocument (f_name file) (JS.or_else sessionId "")]).

(** The name has no dot. *)
Fixpoint no_dot (s : string) : bool :=
  match s with
  | EmptyString => true
  | String c s' => negb (Ascii.eqb c dot) && no_dot s'
  end.

End Upload.

(** * Properties *)

(** ** The read loop of [streamChat] *)

Section Splitting.
Import JS Wire.

Lemma string_ind2 (P : string -> Prop) :
  P "" -> (forall c, P (String c "")) ->
  (forall c c2 s, P s -> P (String c2 s) -> P (String c (String c2 s))) ->
  forall s, P s.
Proof.
  intros H0 H1 H2.
  assert (H : forall s, P s /\ (forall c, P (String c s))).
  { induction s as [|c s [IH1 IH2]].
    - split; [exact H0 | exact H1].
    - split; [apply IH2 | intros c0; apply H2; [exact IH1 | apply IH2]]. }
  intros s. apply H.
Qed.

Lemma split_nn_cons2 c c2 s :
  split_nn (String c (String c2 s)) =
  if Ascii.eqb c LF && Ascii.eqb c2 LF then "" :: split_nn s
  else unshift c (split_nn (String c2 s)).
Proof. reflexivity. Qed.

Lemma scan_cons2 c c2 s :
  scan (String c (String c2 s)) =
  if Ascii.eqb c LF && Ascii.eqb c2 LF
  then let '(ls, r) := scan s in ("" :: ls, r)
  else let '(ls, r) := scan (String c2 s) in
       match ls with
       | [] => ([], String c r)
       | l :: ls' => (String c l :: ls', r)
       end.
Proof. reflexivity. Qed.

Lemma pop_cons2 {A} (x y : A) l :
  pop (x :: y :: l) = (fst (pop (y :: l)), x :: snd (pop (y :: l))).
Proof. cbn [pop]. destruct l; [reflexivity|]. destruct (pop _); reflexivity. Qed.

(** [split] then [pop] is [scan]: the array has a last element, the text
    after the last blank line, and the rest are the complete lines. *)
Lemma pop_split_scan s :
  pop (split_nn s) = (Some (snd (scan s)), fst (scan s)).
Proof.
  induction s as [|c|c c2 s IH1 IH2] using string_ind2; try reflexivity.
  rewrite split_nn_cons2, scan_cons2.
  destruct (Ascii.eqb c LF && Ascii.eqb c2 LF).
  - destruct (split_nn s) as [|x xs] eqn:E; [discriminate|].
    rewrite pop_cons2, IH1. destruct (scan s). reflexivity.
  - destruct (split_nn (String c2 s)) as [|x xs] eqn:E; [discriminate|].
    destruct (scan (String c2 s)) as [ls r].
    destruct xs as [|x' xs].
    + injection IH2 as -> <-. reflexivity.
    + rewrite pop_cons2 in IH2. cbn [unshift]. rewrite pop_cons2.
      destruct (pop (x' :: xs)) as [o r0]. cbn [fst snd] in *.
      injection IH2 as -> <-. reflexivity.
Qed.

Lemma scan_no_line s : fst (scan s) = [] -> snd (scan s) = s.
Proof.
  induction s as [|c|c c2 s IH1 IH2] using string_ind2; try reflexivity.
  rewrite scan_cons2.
  destruct (Ascii.eqb c LF && Ascii.eqb c2 LF).
  - destruct (scan s); discriminate.
  - destruct (scan (String c2 s)) as [[|l ls] r]; [|discriminate].
    intros _. cbn [fst snd] in *. rewrite IH2; reflexivity.
Qed.

(** Scanning is incremental: the lines of [s +:+ t] are those of [s]
    followed by those found once [t] is appended to what [s] left over. *)
Lemma scan_app s t :
  scan (s +:+ t) =
  (fst (scan s) ++ fst (scan (snd (scan s) +:+ t)),
   snd (scan (snd (scan s) +:+ t))).
Proof.
  induction s as [|c|c c2 s IH1 IH2] using string_ind2.
  - cbn [scan fst snd app]. apply surjective_pairing.
  - cbn [scan fst snd app]. apply surjective_pairing.
  - change (String c (String c2 s) +:+ t) with (String c (String c2 (s +:+ t))).
    rewrite !scan_cons2.
    destruct (Ascii.eqb c LF && Ascii.eqb c2 LF) eqn:E.
    + rewrite IH1. destruct (scan s) as [ls r]. reflexivity.
    + change (String c2 (s +:+ t)) with (String c2 s +:+ t). rewrite IH2.
      pose proof (scan_no_line (String c2 s)) as Hn.
      destruct (scan (String c2 s)) as [[|l ls] r]; cbn [fst snd app] in *.
      * rewrite Hn by reflexivity.
        change (String c (String c2 s) +:+ t)
          with (String c (String c2 (s +:+ t))).
        rewrite scan_cons2, E.
        change (String c2 (s +:+ t)) with (String c2 s +:+ t).
        destruct (scan (String c2 s +:+ t)) as [[|l' ls'] r']; reflexivity.
      * reflexivity.
Qed.

Lemma or_else_some s : or_else (Some s) "" = s.
Proof. destruct s; reflexivity. Qed.

(** A line without line feeds, followed by a blank line, is found whole. *)
Lemma scan_line l t :
  no_LF l = true ->
  scan (l +:+ String LF (String LF t)) = (l :: fst (scan t), snd (scan t)).
Proof.
  induction l as [|c l IH]; intros Hl.
  - change ("" +:+ String LF (String LF t)) with (String LF (String LF t)).
    rewrite scan_cons2. cbn [Ascii.eqb LF Bool.eqb andb].
    destruct (scan t); reflexivity.
  - cbn [no_LF] in Hl. apply andb_prop in Hl as [Hc Hl].
    specialize (IH Hl).
    change (String c l +:+ String LF (String LF t))
      with (String c (l +:+ String LF (String LF t))).
    destruct (l +:+ String LF (String LF t)) as [|c2 s] eqn:E.
    + destruct l; discriminate.
    + rewrite scan_cons2.
      apply negb_true_iff in Hc. rewrite Hc. cbn [andb].
      rewrite IH. reflexivity.
Qed.

Lemma no_LF_app s t : no_LF (s +:+ t) = no_LF s && no_LF t.
Proof.
  induction s as [|c s IH]; [reflexivity|].
  change (no_LF (String c s +:+ t))
    with (negb (Ascii.eqb c LF) && no_LF (s +:+ t)).
  rewrite IH. cbn [no_LF]. apply andb_assoc.
Qed.

Lemma append_assoc3 (a b c : string) : (a +:+ b) +:+ c = a +:+ (b +:+ c).
Proof.
  induction a as [|x a IH]; [reflexivity|].
  change (String x ((a +:+ b) +:+ c) = String x (a +:+ (b +:+ c))).
  f_equal. exact IH.
Qed.

(** The lines of a sequence of records are the records, and nothing is
    left over. *)
Lemma scan_wire payloads :
  Forall (fun p => no_LF p = true) payloads ->
  scan (wire payloads) = (List.map (String.append "data: ") payloads, "").
Proof.
  induction 1 as [|p ps Hp _ IH]; [reflexivity|].
  cbn [wire List.map]. unfold record.
  rewrite <- !append_assoc3, append_assoc3.
  change (String LF (String LF "") +:+ wire ps)
    with (String LF (String LF (wire ps))).
  rewrite scan_line, IH; [reflexivity|].
  rewrite no_LF_app, Hp. reflexivity.
Qed.

Lemma slice_data p : slice 6 ("data: " +:+ p) = p.
Proof. reflexivity. Qed.

Lemma startsWith_data p : startsWith ("data: " +:+ p) "data: " = true.
Proof. unfold startsWith. cbn. repeat (destruct (ascii_dec _ _); [|contradiction]). destruct p; reflexivity. Qed.

End Splitting.

Section ReadLoop.
Import JS Wire.

Context {decoder : TextDecoder}.
Variable JSON_parse : string -> option StreamChunk.
Variable W : Type.
Variable subject_next : StreamChunk -> W -> W.
Variable callbacks : list (string -> string -> W -> W).
Variable console_error : W -> W.
Variable request : ChatRequest.

Let emit := ChatService.emit W subject_next callbacks request.
Let process_line :=
  ChatService.process_line JSON_parse W subject_next callbacks console_error
    request.
Let read_all :=
  ChatService.read_all JSON_parse W subject_next callbacks console_error
    request.

(** The text decoded from the chunks read so far. *)
Let text_of (bytes : list byte) : string := snd (td_decode td_new bytes).

(** The loop, whatever the chunks are, has processed the complete lines of
    the text received so far, in order, and keeps the remainder. *)
Lemma read_all_scan chunks w :
  read_all chunks w =
  ({| ChatService.rd_decoder := fst (td_decode td_new (List.concat chunks));
      ChatService.buffer := snd (scan (text_of (List.concat chunks))) |},
   fold_left process_line (fst (scan (text_of (List.concat chunks)))) w).
Proof.
  subst read_all text_of. unfold ChatService.read_all.
  induction chunks as [|value chunks IH] using rev_ind.
  - cbn [fold_left List.concat]. rewrite td_decode_nil. reflexivity.
  - rewrite fold_left_app, IH. cbn [fold_left]. clear IH.
    rewrite concat_app. cbn [List.concat]. rewrite app_nil_r.
    rewrite td_decode_app. cbn [fst snd].
    unfold ChatService.read_chunk.
    cbn [ChatService.rd_decoder ChatService.buffer].
    destruct (td_decode (td_decode td_new (List.concat chunks)).1 value)
      as [st text] eqn:E.
    cbn [fst snd].
    rewrite pop_split_scan, or_else_some.
    rewrite (scan_app (td_decode td_new (List.concat chunks)).2 text).
    cbn [fst snd]. rewrite fold_left_app. reflexivity.
Qed.

(** Hence only the bytes matter, not where the chunks end. *)
Lemma read_all_concat chunks chunks' w :
  List.concat chunks = List.concat chunks' ->
  read_all chunks w = read_all chunks' w.
Proof. intros E. rewrite !read_all_scan, E. reflexivity. Qed.

Lemma process_line_well_formed payload event w :
  well_formed JSON_parse payload event ->
  process_line w ("data: " +:+ payload) = emit event w.
Proof.
  intros [_ Hp]. subst process_line. unfold ChatService.process_line.
  rewrite startsWith_data, slice_data, Hp. reflexivity.
Qed.

Lemma process_line_malformed payload w :
  malformed JSON_parse payload ->
  process_line w ("data: " +:+ payload) = console_error w.
Proof.
  intros [_ Hp]. subst process_line. unfold ChatService.process_line.
  rewrite startsWith_data, slice_data, Hp. reflexivity.
Qed.

Lemma well_formed_no_LF payloads events :
  Forall2 (well_formed JSON_parse) payloads events ->
  Forall (fun p => no_LF p = true) payloads.
Proof. induction 1 as [|p e ps es [Hp _] _ IH]; constructor; assumption. Qed.

Lemma process_lines_well_formed payloads events w :
  Forall2 (well_formed JSON_parse) payloads events ->
  fold_left process_line (List.map (String.append "data: ") payloads) w =
  fold_left (fun w e => emit e w) events w.
Proof.
  intros H. revert w. induction H as [|p e ps es Hp _ IH]; intros w.
  - reflexivity.
  - cbn [List.map fold_left].
    change (String.append "data: " p) with ("data: " +:+ p).
    rewrite (process_line_well_formed _ _ _ Hp). apply IH.
Qed.

(** Well-formed records, however their bytes are cut, are handed over one
    by one, in the order in which they were written. *)
Lemma read_all_well_formed payloads events bytes chunks w :
  Forall2 (well_formed JSON_parse) payloads events ->
  carries bytes (wire payloads) ->
  List.concat chunks = bytes ->
  snd (read_all chunks w) = fold_left (fun w e => emit e w) events w.
Proof.
  intros Hwf Hb Hc. rewrite read_all_scan. cbn [snd].
  subst text_of. cbv beta. rewrite Hc, Hb.
  rewrite scan_wire by (eapply well_formed_no_LF; eassumption).
  cbn [fst]. apply process_lines_well_formed. assumption.
Qed.

(** A malformed record in front costs one [console.error] and nothing
    else. *)
Lemma read_all_malformed bad payloads events bytes chunks w :
  malformed JSON_parse bad ->
  Forall2 (well_formed JSON_parse) payloads events ->
  carries bytes (record bad +:+ wire payloads) ->
  List.concat chunks = bytes ->
  snd (read_all chunks w) =
  fold_left (fun w e => emit e w) events (console_error w).
Proof.
  intros Hbad Hwf Hb Hc. rewrite read_all_scan. cbn [snd].
  subst text_of. cbv beta. rewrite Hc, Hb.
  change (record bad +:+ wire payloads) with (wire (bad :: payloads)).
  rewrite scan_wire.
  - cbn [fst List.map fold_left].
    change (String.append "data: " bad) with ("data: " +:+ bad).
    rewrite (process_line_malformed _ _ Hbad).
    apply process_lines_well_formed. assumption.
  - constructor; [apply Hbad | eapply well_formed_no_LF; eassumption].
Qed.

End ReadLoop.

(** ** The Stream Decoder *)

Section Decoder.
Import JS Wire.

Context {decoder : TextDecoder}.
Variable JSON_parse : string -> option StreamChunk.
Variable request : ChatRequest.

Lemma signals_emit events t :
  fold_left
    (fun w e =>
       ChatService.emit (list Signal) (fun data t => t ++ [Event data]) []
         request e w) events t =
  t ++ List.map Event events.
Proof.
  revert t. induction events as [|e es IH]; intros t.
  - cbn. rewrite app_nil_r. reflexivity.
  - cbn [fold_left List.map]. rewrite IH. unfold ChatService.emit.
    cbn [fold_left].
    destruct (ChatService.is_done (type e) && _ && _);
      rewrite <- app_assoc; reflexivity.
Qed.

(** C7. Chunk-boundary invariance: the bytes of a well-formed record
    sequence, cut into chunks in any two ways, make the decoder yield the
    same signals, which are the events of the records, one by one, in the
    order of the records. *)
Theorem chunk_boundary_invariance payloads events bytes chunks chunks' :
  Forall2 (well_formed JSON_parse) payloads events ->
  carries bytes (wire payloads) ->
  List.concat chunks = bytes ->
  List.concat chunks' = bytes ->
  signals JSON_parse request chunks = signals JSON_parse request chunks' /\
  signals JSON_parse request chunks = List.map Event events.
Proof.
  intros Hwf Hb Hc Hc'. unfold signals. split.
  - f_equal. apply read_all_concat. congruence.
  - rewrite (read_all_well_formed _ _ _ _ _ _ payloads events bytes) by assumption.
    apply signals_emit.
Qed.

(** C8. Malformed-record recovery: a record on which [JSON.parse] throws,
    followed by N well-formed records, costs one [console.error]; the
    decoder then yields the N events of the records, in order, and nothing
    in place of the record it skipped. *)
Theorem malformed_record_skipped bad payloads events bytes chunks :
  malformed JSON_parse bad ->
  Forall2 (well_formed JSON_parse) payloads events ->
  carries bytes (record bad +:+ wire payloads) ->
  List.concat chunks = bytes ->
  signals JSON_parse request chunks = ParseFailure :: List.map Event events /\
  List.length (List.map Event events) = List.length payloads.
Proof.
  intros Hbad Hwf Hb Hc. split.
  - unfold signals.
    rewrite (read_all_malformed _ _ _ _ _ _ bad payloads events bytes)
      by assumption.
    apply signals_emit.
  - rewrite length_map. symmetry. eapply Forall2_length. eassumption.
Qed.

End Decoder.

Lemma chunk_boundary_invariance_witness :
  Wire.signals (decoder := Wire.latin1) Wire.sample_parse Wire.sample_request
    (Wire.cut3 9 40 Wire.sample_bytes) =
  Wire.signals (decoder := Wire.latin1) Wire.sample_parse Wire.sample_request [Wire.sample_bytes] /\
  Wire.signals (decoder := Wire.latin1) Wire.sample_parse Wire.sample_request
    (Wire.cut3 9 40 Wire.sample_bytes) =
  [Wire.Event (Turn.content_chunk "Hi");
   Wire.Event (Turn.done_chunk (Some "S9"))].
Proof.
  apply (chunk_boundary_invariance (decoder := Wire.latin1) Wire.sample_parse
           Wire.sample_request
           [Wire.json_content_hi; Wire.json_done_s9]
           [Turn.content_chunk "Hi"; Turn.done_chunk (Some "S9")]
           Wire.sample_bytes).
  - repeat constructor.
  - vm_compute. reflexivity.
  - vm_compute. reflexivity.
  - vm_compute. reflexivity.
Defined.

Lemma malformed_record_skipped_witness :
  Wire.signals (decoder := Wire.latin1) Wire.sample_parse Wire.sample_request
    (Wire.cut3 3 50 Wire.sample_bytes_bad) =
  [Wire.ParseFailure; Wire.Event (Turn.content_chunk "Hi");
   Wire.Event (Turn.done_chunk (Some "S9"))] /\
  List.length
    [Wire.Event (Turn.content_chunk "Hi");
     Wire.Event (Turn.done_chunk (Some "S9"))] = 2%nat.
Proof.
  apply (malformed_record_skipped (decoder := Wire.latin1) Wire.sample_parse
           Wire.sample_request "{oops"
           [Wire.json_content_hi; Wire.json_done_s9]
           [Turn.content_chunk "Hi"; Turn.done_chunk (Some "S9")]
           Wire.sample_bytes_bad).
  - split; reflexivity.
  - repeat constructor.
  - vm_compute. reflexivity.
  - vm_compute. reflexivity.
Defined.

(** ** The Session Identity Broker *)

Section Broker.
Import SessionStateService.

Lemma hasActiveStream_spec p s :
  hasActiveStream p s = true <-> p ∈ activeNewSessionStreams s.
Proof. unfold hasActiveStream. apply bool_decide_eq_true. Qed.

Lemma hasActiveStream_register p s :
  hasActiveStream p (registerActiveStream p s) = true.
Proof. apply hasActiveStream_spec. cbn. set_solver. Qed.

Lemma hasActiveStream_untrack p s :
  hasActiveStream p (untrack p s) = false.
Proof.
  apply not_true_is_false. rewrite hasActiveStream_spec. cbn. set_solver.
Qed.

(** What a resolution does when the pending id is registered. *)
Lemma completeNewSession_active p r m s :
  hasActiveStream p s = true ->
  completeNewSession p r m s =
  {| activeSessionId := activeSessionId s;
     sessionsRefresh := S (sessionsRefresh s);
     pendingSession := None;
     pendingToRealMap := <[p := r]> (pendingToRealMap s);
     cachedMessages :=
       if (0 <? List.length m)%nat then <[r := m]> (cachedMessages s)
       else cachedMessages s;
     activeNewSessionStreams := activeNewSessionStreams s ∖ {[p]} |}.
Proof.
  intros H. unfold completeNewSession. rewrite H. cbn [negb].
  destruct (0 <? List.length m)%nat; reflexivity.
Qed.

Lemma completeNewSession_inactive p r m s :
  hasActiveStream p s = false -> completeNewSession p r m s = s.
Proof. intros H. unfold completeNewSession. rewrite H. reflexivity. Qed.

Lemma handleNewSessionComplete_inactive p r s :
  hasActiveStream p s = false -> handleNewSessionComplete p r s = s.
Proof. intros H. unfold handleNewSessionComplete. rewrite H. reflexivity. Qed.

Lemma completeNewSession_untracks p r m s :
  hasActiveStream p (completeNewSession p r m s) = false.
Proof.
  destruct (hasActiveStream p s) eqn:H.
  - rewrite completeNewSession_active by assumption.
    apply not_true_is_false. rewrite hasActiveStream_spec. cbn. set_solver.
  - rewrite completeNewSession_inactive; assumption.
Qed.

(** After the component has resolved a pending id, the callback of the
    service finds nothing left to do. *)
Lemma SessionStateService_handle_after_complete p r r' m s :
  handleNewSessionComplete p r' (completeNewSession p r m s) =
  completeNewSession p r m s.
Proof.
  apply handleNewSessionComplete_inactive, completeNewSession_untracks.
Qed.

(** A call that does not register [p] does not put it in the registry. *)
Lemma call_keeps_unregistered p c s :
  registers p c = false ->
  hasActiveStream p s = false ->
  hasActiveStream p (call s c) = false.
Proof.
  intros Hc Hs. apply not_true_is_false. rewrite hasActiveStream_spec.
  apply not_true_iff_false in Hs. rewrite hasActiveStream_spec in Hs.
  destruct c as [sid| |d| |q r|q|sid m|sid|q|q r m|q r];
    cbn [call registers] in *; try (cbn; assumption).
  - unfold popCachedMessages. destruct (cachedMessages s !! sid); assumption.
  - apply String.eqb_neq in Hc. cbn. set_solver.
  - unfold completeNewSession.
    destruct (hasActiveStream q s); cbn [negb]; [|assumption].
    destruct (0 <? List.length m)%nat; cbn; set_solver.
  - unfold handleNewSessionComplete.
    destruct (hasActiveStream q s); cbn; set_solver.
Qed.

Lemma history_keeps_unregistered p calls :
  Forall (fun c => registers p c = false) calls ->
  hasActiveStream p (history calls) = false.
Proof.
  unfold history. induction calls as [|c calls IH] using rev_ind; intros H.
  - reflexivity.
  - rewrite fold_left_app. cbn [fold_left].
    apply Forall_app in H as [H1 H2]. inversion H2; subst.
    apply call_keeps_unregistered; auto.
Qed.

(** C5. A resolution for a pending id that was never registered is a
    no-op: whatever calls were made on the service since it was
    constructed, if none of them registered the pending id, then
    [completeNewSession], and the callback [handleNewSessionComplete] as
    well, return normally and leave the whole state as it was (mapping,
    refresh count, message cache and pending session included). *)
Theorem resolve_never_registered_noop calls pendingId realId messages :
  Forall (fun c => registers pendingId c = false) calls ->
  completeNewSession pendingId realId messages (history calls) = history calls /\
  handleNewSessionComplete pendingId realId (history calls) = history calls /\
  getRealSessionId pendingId
    (completeNewSession pendingId realId messages (history calls)) =
  getRealSessionId pendingId (history calls).
Proof.
  intros H. apply history_keeps_unregistered in H.
  rewrite completeNewSession_inactive, handleNewSessionComplete_inactive
    by assumption.
  auto.
Qed.

(** C6. Idempotence of a resolution: for a registered pending id, a second
    call, with the same arguments or with others, changes nothing; after
    one call or two the Refresh Bus has been published once more than
    before, the pending session is cleared, and the pending id is mapped to
    the real id of the first call. *)
Theorem resolve_idempotent s pendingId realId messages :
  hasActiveStream pendingId s = true ->
  let once := completeNewSession pendingId realId messages s in
  completeNewSession pendingId realId messages once = once /\
  (forall realId' messages',
     completeNewSession pendingId realId' messages' once = once) /\
  sessionsRefresh once = S (sessionsRefresh s) /\
  pendingSession once = None /\
  getRealSessionId pendingId once = Some realId.
Proof.
  intros H once.
  assert (Hq : forall r' m', completeNewSession pendingId r' m' once = once).
  { intros. apply completeNewSession_inactive.
    apply completeNewSession_untracks. }
  repeat split; auto.
  - subst once. rewrite completeNewSession_active by assumption. reflexivity.
  - subst once. rewrite completeNewSession_active by assumption. reflexivity.
  - subst once. rewrite completeNewSession_active by assumption.
    unfold getRealSessionId. cbn. apply lookup_insert_eq.
Qed.

(** C4, as the code has it. A resolution for a registered pending id clears
    the Pending Session Slot whatever the slot holds: a descriptor with
    this pending id, a descriptor with another id, or nothing. *)
Theorem resolve_clears_slot s pendingId realId messages :
  hasActiveStream pendingId s = true ->
  pendingSession (completeNewSession pendingId realId messages s) = None.
Proof.
  intros H. rewrite completeNewSession_active by assumption. reflexivity.
Qed.

End Broker.

Lemma resolve_never_registered_noop_witness :
  let h :=
    SessionStateService.history
      [SessionStateService.RegisterActiveStream "pending-2";
       SessionStateService.SetPendingSession
         (Some (Turn.descriptor "pending-2" "Hello" "2026-01-01T00:00:00.000Z"))] in
  SessionStateService.completeNewSession "pending-1" "S9" [] h = h /\
  SessionStateService.handleNewSessionComplete "pending-1" "S9" h = h /\
  SessionStateService.getRealSessionId "pending-1"
    (SessionStateService.completeNewSession "pending-1" "S9" [] h) =
  SessionStateService.getRealSessionId "pending-1" h.
Proof.
  apply (resolve_never_registered_noop
           [SessionStateService.RegisterActiveStream "pending-2";
            SessionStateService.SetPendingSession
              (Some (Turn.descriptor "pending-2" "Hello"
                       "2026-01-01T00:00:00.000Z"))]
           "pending-1" "S9" []).
  repeat constructor.
Defined.

Lemma resolve_idempotent_witness :
  let s :=
    SessionStateService.registerActiveStream "pending-1"
      SessionStateService.new in
  let once := SessionStateService.completeNewSession "pending-1" "S9" [] s in
  SessionStateService.completeNewSession "pending-1" "S9" [] once = once /\
  (forall realId' messages',
     SessionStateService.completeNewSession "pending-1" realId' messages' once
     = once) /\
  SessionStateService.sessionsRefresh once = 1%nat /\
  SessionStateService.pendingSession once = None /\
  SessionStateService.getRealSessionId "pending-1" once = Some "S9".
Proof.
  apply (resolve_idempotent
           (SessionStateService.registerActiveStream "pending-1"
              SessionStateService.new) "pending-1" "S9" []).
  apply hasActiveStream_register.
Defined.

(** The claim C4 as the specification words it fails: a slot that holds the
    descriptor of [pending-2] is emptied by the resolution of
    [pending-1]. *)
Lemma resolve_clears_foreign_slot :
  let d := Turn.descriptor "pending-2" "Hello" "2026-01-01T00:00:00.000Z" in
  let s :=
    SessionStateService.setPendingSession (Some d)
      (SessionStateService.registerActiveStream "pending-2"
         (SessionStateService.registerActiveStream "pending-1"
            SessionStateService.new)) in
  SessionStateService.hasActiveStream "pending-1" s = true /\
  SessionStateService.pendingSession s = Some d /\
  s_id d <> "pending-1" /\
  SessionStateService.pendingSession
    (SessionStateService.completeNewSession "pending-1" "S9" [] s) = None /\
  SessionStateService.pendingSession
    (SessionStateService.completeNewSession "pending-1" "S9" [] s) <> Some d.
Proof.
  cbv zeta. split; [|split; [|split; [|split]]].
  - apply hasActiveStream_spec. cbn. set_solver.
  - reflexivity.
  - discriminate.
  - rewrite completeNewSession_active; [reflexivity|].
    apply hasActiveStream_spec. cbn. set_solver.
  - rewrite completeNewSession_active; [discriminate|].
    apply hasActiveStream_spec. cbn. set_solver.
Qed.

Lemma resolve_clears_slot_witness :
  SessionStateService.pendingSession
    (SessionStateService.completeNewSession "pending-1" "S9" []
       (SessionStateService.setPendingSession
          (Some (Turn.descriptor "pending-2" "Hello"
                   "2026-01-01T00:00:00.000Z"))
          (SessionStateService.registerActiveStream "pending-1"
             SessionStateService.new))) = None.
Proof.
  apply resolve_clears_slot.
  apply hasActiveStream_spec. cbn. set_solver.
Defined.

(** ** A turn, step by step *)

Section TurnSteps.
Import ChatComponent Turn.

Lemma pending_id_truthy w : JS.truthy (Some (pending_id w)) = true.
Proof. reflexivity. Qed.

Lemma pending_id_or_else w : JS.or_else (Some (pending_id w)) "" = pending_id w.
Proof. reflexivity. Qed.

(** What a submission leaves behind, whatever the session. *)
Lemma sendMessage_submitted content w0 :
  submitted content w0 ->
  exists w1 request,
    sendMessage content w0 = (w1, Some request) /\
    subscription w1 = Some (negb (JS.truthy (sessionId (view w0)))) /\
    streamingMessage (view w1) = Some (fresh_transcript w0) /\
    session (view w1) = session (view w0) /\
    sessionId (view w1) = sessionId (view w0) /\
    console w1 = console w0.
Proof.
  intros [Hb Hs]. unfold sendMessage, fresh_transcript.
  rewrite Hb, Hs. cbn [orb].
  destruct w0 as [n iso svc v sub navs reqs cons].
  destruct v as [sid ses msgs sel orch ld sending sm sc cur des].
  cbn -[pretty]. generalize (pretty n). intros stamp.
  destruct (JS.truthy sid);
    do 2 eexists; repeat split; reflexivity.
Qed.

(** What a submission leaves behind on the new-chat route. *)
Lemma sendMessage_new_session content w0 :
  submitted content w0 ->
  JS.truthy (sessionId (view w0)) = false ->
  exists w1 request d,
    sendMessage content w0 = (w1, Some request) /\
    s_id d = pending_id w0 /\
    service w1 =
      SessionStateService.setPendingSession (Some d)
        (SessionStateService.registerActiveStream (pending_id w0)
           (service w0)) /\
    currentPendingId (view w1) = Some (pending_id w0) /\
    rq_pendingSessionId request = Some (pending_id w0) /\
    subscription w1 = Some true.
Proof.
  intros [Hb Hs] Hn. unfold sendMessage, pending_id.
  rewrite Hb, Hs. cbn [orb].
  destruct w0 as [n iso svc v sub navs reqs cons].
  destruct v as [sid ses msgs sel orch ld sending sm sc cur des].
  cbn -[pretty] in *. generalize (pretty n). intros stamp.
  rewrite Hn. cbn.
  do 3 eexists. repeat split; reflexivity.
Qed.

(** Unless a record is a done record with a session id, the service only
    hands it to the subscriber. *)
Lemma emit_quiet request data w :
  ChatService.is_done (type data) && JS.truthy (session_id data) = false ->
  emit request data w = subscriber_next data w.
Proof.
  intros H. unfold emit, ChatService.emit.
  destruct (ChatService.is_done (type data)),
    (JS.truthy (rq_pendingSessionId request)),
    (JS.truthy (session_id data)); try reflexivity; discriminate.
Qed.

Lemma or_else_truthy s : JS.truthy (Some s) = true -> JS.or_else (Some s) "" = s.
Proof. destruct s; [discriminate | reflexivity]. Qed.

(** A record that is not a done record reaches the transcript, the scroll
    flag and the console only. *)
Lemma handleStreamChunk_not_done data isNewSession w :
  ChatService.is_done (type data) = false ->
  let w' := handleStreamChunk data isNewSession w in
  service w' = service w /\
  subscription w' = subscription w /\
  currentPendingId (view w') = currentPendingId (view w) /\
  destroyed (view w') = destroyed (view w) /\
  messages (view w') = messages (view w) /\
  navigations w' = navigations w.
Proof.
  intros H. unfold handleStreamChunk. rewrite H. cbn [andb].
  destruct (streamingMessage (view w)) as [sm|]; [|cbv zeta; auto 10].
  destruct (type data); try discriminate; cbv zeta; cbn; auto 10.
Qed.

Lemma next_agent_start name b sm w :
  subscription w = Some b ->
  streamingMessage (view w) = Some sm ->
  let w' := subscriber_next (agent_start_chunk name) w in
  subscription w' = Some b /\
  streamingMessage (view w') =
    Some (set_agentResponses
            (Some (unwrap_or (m_agentResponses sm) [] ++
                   [{| ar_agentName := JS.or_else (Some name) "Agent";
                       ar_content := "" |}])) sm).
Proof.
  intros Hs Hm. unfold subscriber_next. rewrite Hs.
  unfold handleStreamChunk. cbn [type agent_start_chunk ChatService.is_done andb].
  rewrite Hm. cbn. auto.
Qed.

Lemma next_content delta b sm w :
  subscription w = Some b ->
  streamingMessage (view w) = Some sm ->
  let w' := subscriber_next (content_chunk delta) w in
  subscription w' = Some b /\
  streamingMessage (view w') =
    Some (set_content (m_content sm +:+ JS.or_else (Some delta) "")
            match m_agentResponses sm with
            | Some (r :: rs) =>
                set_agentResponses
                  (Some (append_to_last (JS.or_else (Some delta) "") (r :: rs)))
                  sm
            | _ => sm
            end).
Proof.
  intros Hs Hm. unfold subscriber_next. rewrite Hs.
  unfold handleStreamChunk. cbn [type content_chunk ChatService.is_done andb].
  rewrite Hm. cbv zeta.
  cbn [content content_chunk view on_view set_shouldScroll
       set_streamingMessage streamingMessage subscription].
  split; [exact Hs|].
  destruct (m_agentResponses sm) as [[|r rs]|]; reflexivity.
Qed.

(** A done record without a session id leaves the transcript alone. *)
Lemma next_done_plain b w :
  subscription w = Some b ->
  let w' := subscriber_next (done_chunk None) w in
  subscription w' = Some b /\
  streamingMessage (view w') = streamingMessage (view w).
Proof.
  intros Hs. unfold subscriber_next. rewrite Hs.
  unfold handleStreamChunk.
  cbn [type done_chunk session_id ChatService.is_done andb JS.truthy].
  rewrite andb_false_r.
  destruct (streamingMessage (view w)) as [sm|] eqn:Hm; [|auto].
  destruct (session (view w)) as [s|];
    [destruct (JS.startsWith (s_title s) "Document:")|]; cbn; auto.
Qed.

(** A done record with a session id, for a turn whose pending id is
    registered and whose subscription is open: the component resolves the
    pending id, and the callback of the service, which runs next, finds it
    resolved and does nothing. *)
Lemma emit_done_resolves request pendingId sid w :
  subscription w = Some true ->
  currentPendingId (view w) = Some pendingId ->
  rq_pendingSessionId request = Some pendingId ->
  JS.truthy (Some pendingId) = true ->
  JS.truthy (Some sid) = true ->
  service (emit request (done_chunk (Some sid)) w) =
  SessionStateService.completeNewSession pendingId sid
    (messages (view w) ++
     match streamingMessage (view w) with
     | Some sm => [set_isStreaming (Some false) sm]
     | None => []
     end) (service w).
Proof.
  intros Hs Hc Hr Hp Hsid. unfold emit, ChatService.emit.
  cbn [type done_chunk session_id ChatService.is_done andb].
  rewrite Hr, Hp, Hsid. cbn [andb].
  rewrite !or_else_truthy by assumption.
  unfold newSessionCompleteCallbacks. cbn [fold_left].
  unfold sessionStateCallback, subscriber_next. rewrite Hs.
  unfold handleStreamChunk.
  cbn [type done_chunk session_id ChatService.is_done andb].
  rewrite Hsid, Hc, Hp. cbn [andb]. rewrite !or_else_truthy by assumption.
  match goal with
  | |- service (on_service _ (if ?c then _ else _)) = _ => destruct c
  end; cbn [service on_service on_view navigate];
    apply SessionStateService_handle_after_complete.
Qed.

End TurnSteps.

(** ** The Chatter Aggregator *)

Section Aggregator.
Import ChatComponent Turn.

Lemma append_to_last_snoc delta rs r :
  append_to_last delta (rs ++ [r]) =
  rs ++ [{| ar_agentName := ar_agentName r;
            ar_content := ar_content r +:+ delta |}].
Proof.
  induction rs as [|x rs IH]; [reflexivity|].
  cbn [app append_to_last]. rewrite IH.
  destruct rs; reflexivity.
Qed.

(** C9. Per-agent content attribution.  After a submission, the events
    agent_start(Researcher), content(foo), agent_start(Writer),
    content(bar), done() leave a transcript whose per-agent buffers are
    Researcher:foo and Writer:bar and whose aggregate buffer is foobar.
    In general a content delta is appended to the aggregate buffer, and to
    the buffer of the agent started last when there is one, the other
    buffers staying as they are. *)
Theorem per_agent_attribution :
  (forall content w0,
     submitted content w0 ->
     exists sm,
       streamingMessage
         (view (turn content
                  [Yield (agent_start_chunk "Researcher");
                   Yield (content_chunk "foo");
                   Yield (agent_start_chunk "Writer");
                   Yield (content_chunk "bar");
                   Yield (done_chunk None)] w0)) = Some sm /\
       m_agentResponses sm =
         Some [{| ar_agentName := "Researcher"; ar_content := "foo" |};
               {| ar_agentName := "Writer"; ar_content := "bar" |}] /\
       m_content sm = "foobar") /\
  (forall delta b w sm,
     subscription w = Some b ->
     streamingMessage (view w) = Some sm ->
     exists sm',
       streamingMessage (view (subscriber_next (content_chunk delta) w))
       = Some sm' /\
       m_content sm' = m_content sm +:+ JS.or_else (Some delta) "" /\
       (forall rs r,
          m_agentResponses sm = Some (rs ++ [r]) ->
          m_agentResponses sm' =
            Some (rs ++ [{| ar_agentName := ar_agentName r;
                            ar_content :=
                              ar_content r +:+ JS.or_else (Some delta) "" |}])) /\
       (m_agentResponses sm = Some [] \/ m_agentResponses sm = None ->
        m_agentResponses sm' = m_agentResponses sm)).
Proof.
  split.
  - intros content w0 Hsub.
    destruct (sendMessage_submitted content w0 Hsub)
      as (w1 & req & Hsend & Hs & Hm & _).
    unfold turn. rewrite Hsend. unfold run. cbn [fold_left occur].
    rewrite !emit_quiet by reflexivity.
    destruct (next_agent_start "Researcher" _ _ w1 Hs Hm) as [Hs1 Hm1].
    destruct (next_content "foo" _ _ _ Hs1 Hm1) as [Hs2 Hm2].
    destruct (next_agent_start "Writer" _ _ _ Hs2 Hm2) as [Hs3 Hm3].
    destruct (next_content "bar" _ _ _ Hs3 Hm3) as [Hs4 Hm4].
    destruct (next_done_plain _ _ Hs4) as [_ Hm5].
    rewrite Hm5, Hm4. eexists. split; [reflexivity|]. split; reflexivity.
  - intros delta b w sm Hs Hm.
    destruct (next_content delta _ _ _ Hs Hm) as [_ Hm'].
    rewrite Hm'. eexists. split; [reflexivity|].
    split; [|split].
    + destruct (m_agentResponses sm) as [[|r rs]|]; reflexivity.
    + intros rs r Hr. rewrite Hr.
      destruct rs as [|x rs]; [reflexivity|].
      change ((x :: rs) ++ [r]) with (x :: (rs ++ [r])).
      cbn [set_content set_agentResponses m_agentResponses].
      change (x :: (rs ++ [r])) with ((x :: rs) ++ [r]).
      rewrite append_to_last_snoc. reflexivity.
    + intros [Hr|Hr]; rewrite Hr; cbn [set_content m_agentResponses];
        exact Hr.
Qed.

End Aggregator.

Lemma per_agent_attribution_witness :
  exists sm,
    ChatComponent.streamingMessage
      (ChatComponent.view
         (Turn.turn "Write a report"
            [Turn.Yield (Turn.agent_start_chunk "Researcher");
             Turn.Yield (Turn.content_chunk "foo");
             Turn.Yield (Turn.agent_start_chunk "Writer");
             Turn.Yield (Turn.content_chunk "bar");
             Turn.Yield (Turn.done_chunk None)]
            (Turn.start 1767225600000 "2026-01-01T00:00:00.000Z")))
    = Some sm /\
    m_agentResponses sm =
      Some [{| ar_agentName := "Researcher"; ar_content := "foo" |};
            {| ar_agentName := "Writer"; ar_content := "bar" |}] /\
    m_content sm = "foobar".
Proof.
  apply (proj1 per_agent_attribution "Write a report"
           (Turn.start 1767225600000 "2026-01-01T00:00:00.000Z")).
  split; reflexivity.
Defined.

(** ** The Turn Orchestrator *)

Section Orchestrator.
Import ChatComponent Turn.

Lemma loadSession_keeps w :
  let w' := loadSession w in
  subscription w' = subscription w /\
  currentPendingId (view w') = currentPendingId (view w) /\
  destroyed (view w') = destroyed (view w) /\
  SessionStateService.activeNewSessionStreams (service w') =
    SessionStateService.activeNewSessionStreams (service w) /\
  SessionStateService.sessionsRefresh (service w') =
    SessionStateService.sessionsRefresh (service w).
Proof.
  unfold loadSession.
  destruct (JS.truthy (sessionId (view w))); cbn [negb]; [|cbv zeta; auto 10].
  destruct (JS.startsWith _ "pending-").
  - destruct (JS.truthy (SessionStateService.getRealSessionId _ _));
      cbv zeta; cbn; auto 10.
  - unfold SessionStateService.popCachedMessages.
    destruct (SessionStateService.cachedMessages (service w) !! _)
      as [[|m ms]|]; cbv zeta; cbn; auto 10.
Qed.

Lemma onRouteParams_keeps sid w :
  let w' := onRouteParams sid w in
  subscription w' = subscription w /\
  currentPendingId (view w') = currentPendingId (view w) /\
  destroyed (view w') = destroyed (view w) /\
  SessionStateService.activeNewSessionStreams (service w') =
    SessionStateService.activeNewSessionStreams (service w) /\
  SessionStateService.sessionsRefresh (service w') =
    SessionStateService.sessionsRefresh (service w).
Proof.
  unfold onRouteParams.
  destruct (destroyed (view w)) eqn:Hd; [cbv zeta; auto 10|].
  cbv zeta.
  destruct (JS.truthy sid).
  - match goal with
    | |- context [loadSession ?x] => destruct (loadSession_keeps x) as (A & B & C & D & E)
    end.
    rewrite A, B, C, D, E.
    destruct (bool_decide (sessionId (view w) ≠ sid)); cbn; auto 10.
  - destruct (bool_decide (sessionId (view w) ≠ sid)); cbn; auto 10.
Qed.

(** While a new-session turn is in flight, nothing that happens before its
    done record ends it: not a record, not the destruction of the view. *)
Lemma quiet_in_flight request p n o w :
  quiet o = true -> in_flight p n w -> in_flight p n (occur request w o).
Proof.
  unfold in_flight.
  intros Hq (Hs & Hc & Ha & Hn).
  destruct o as [data| | | |t iso|sid]; try discriminate; cbn [occur quiet] in *.
  - apply negb_true_iff in Hq.
    rewrite emit_quiet by (rewrite Hq; reflexivity).
    unfold subscriber_next. rewrite Hs.
    destruct (handleStreamChunk_not_done data true w Hq) as (A & B & C & _).
    rewrite A, B, C. auto.
  - unfold ngOnDestroy. cbv zeta.
    cbn [subscription on_view]. rewrite Hs. cbn. auto.
  - cbn. auto.
  - destruct (onRouteParams_keeps sid w) as (A & B & _ & D & E).
    unfold SessionStateService.hasActiveStream in *.
    rewrite A, B, D, E. auto.
Qed.

Lemma run_in_flight request p n os w :
  forallb quiet os = true -> in_flight p n w -> in_flight p n (run request os w).
Proof.
  unfold run. revert w. induction os as [|o os IH]; intros w Hq Hw.
  - exact Hw.
  - cbn [forallb] in Hq. apply andb_prop in Hq as [Ho Hos].
    cbn [fold_left]. apply IH; [assumption|].
    apply quiet_in_flight; assumption.
Qed.

(** No handler of the component or of the service revives a view. *)
Lemma occur_destroyed request o w :
  destroyed (view w) = true -> destroyed (view (occur request w o)) = true.
Proof.
  intros Hd.
  destruct o as [data| | | |t iso|sid]; cbn [occur].
  - unfold emit, ChatService.emit.
    assert (Hn : destroyed (view (subscriber_next data w)) = true).
    { unfold subscriber_next. destruct (subscription w) as [b|]; [|exact Hd].
      unfold handleStreamChunk.
      destruct (ChatService.is_done (type data) && b
                && JS.truthy (session_id data)).
      - destruct (JS.truthy (currentPendingId (view w)));
          cbv zeta;
          match goal with
          | |- context [if ?c then _ else _] => destruct c
          end; cbn; exact Hd.
      - destruct (streamingMessage (view w)) as [sm|]; [|exact Hd].
        destruct (type data); cbv zeta; cbn; try exact Hd.
        destruct (session (view w)) as [s|];
          [destruct (JS.startsWith (s_title s) "Document:")|]; exact Hd. }
    destruct (ChatService.is_done (type data)
              && JS.truthy (rq_pendingSessionId request)
              && JS.truthy (session_id data)); [|exact Hn].
    cbn. exact Hn.
  - unfold subscriber_complete. destruct (subscription w); [|exact Hd].
    unfold on_stream_complete. cbv zeta.
    cbn [view on_view streamingMessage set_isSending].
    destruct (streamingMessage (view w)); cbn; exact Hd.
  - unfold subscriber_error. destruct (subscription w) as [[|]|];
      cbn; exact Hd.
  - unfold ngOnDestroy. cbv zeta. cbn [subscription on_view].
    destruct (subscription w) as [[|]|]; try reflexivity.
    unfold on_stream_complete. cbv zeta.
    cbn [view on_view streamingMessage set_isSending set_destroyed].
    destruct (streamingMessage (view w)); reflexivity.
  - exact Hd.
  - destruct (onRouteParams_keeps sid w) as (_ & _ & C & _). rewrite C.
    exact Hd.
Qed.

Lemma run_destroyed request os w :
  destroyed (view w) = true -> destroyed (view (run request os w)) = true.
Proof.
  unfold run. revert w. induction os as [|o os IH]; intros w Hd; [exact Hd|].
  cbn [fold_left]. apply IH, occur_destroyed, Hd.
Qed.

Lemma run_view_destroyed request os w :
  In ViewDestroyed os -> destroyed (view (run request os w)) = true.
Proof.
  intros Hin. apply in_split in Hin as (l1 & l2 & ->).
  unfold run. rewrite fold_left_app. cbn [fold_left occur].
  apply run_destroyed.
  unfold ngOnDestroy. cbv zeta. cbn [subscription on_view].
  match goal with
  | |- context [subscription ?x] => destruct (subscription x) as [[|]|]
  end; try reflexivity.
  unfold on_stream_complete. cbv zeta.
  cbn [view on_view streamingMessage set_isSending set_destroyed].
  match goal with
  | |- context [streamingMessage ?x] => destruct (streamingMessage x)
  end; reflexivity.
Qed.

Lemma sendMessage_in_flight content w0 w1 request d :
  service w1 =
    SessionStateService.setPendingSession (Some d)
      (SessionStateService.registerActiveStream (pending_id w0) (service w0)) ->
  currentPendingId (view w1) = Some (pending_id w0) ->
  subscription w1 = Some true ->
  sendMessage content w0 = (w1, Some request) ->
  in_flight (pending_id w0) (SessionStateService.sessionsRefresh (service w0)) w1.
Proof.
  intros Hsvc Hc Hs _. unfold in_flight. rewrite Hsvc, Hc, Hs.
  repeat split. apply hasActiveStream_spec. cbn. set_solver.
Qed.

(** The done record of a new-session turn in flight resolves it, once. *)
Lemma done_resolves request p n sid w :
  in_flight p n w ->
  rq_pendingSessionId request = Some p ->
  JS.truthy (Some p) = true ->
  JS.truthy (Some sid) = true ->
  let w' := emit request (done_chunk (Some sid)) w in
  SessionStateService.pendingSession (service w') = None /\
  SessionStateService.getRealSessionId p (service w') = Some sid /\
  SessionStateService.sessionsRefresh (service w') = S n /\
  SessionStateService.hasActiveStream p (service w') = false.
Proof.
  intros (Hs & Hc & Ha & Hn) Hr Hp Hsid. cbv zeta.
  rewrite (emit_done_resolves request p sid w) by assumption.
  split; [|split; [|split]].
  - rewrite completeNewSession_active by assumption. reflexivity.
  - rewrite completeNewSession_active by assumption.
    unfold SessionStateService.getRealSessionId. cbn. apply lookup_insert_eq.
  - rewrite completeNewSession_active by assumption. cbn. congruence.
  - apply completeNewSession_untracks.
Qed.

(** C1. End-to-end resolution of a new session.  A turn submitted on the
    new-chat route registers the pending id P1 and sets the Pending
    Session Slot to a descriptor with id P1.  After the stream has yielded
    the content event Hi and the done event with session id S9, the slot
    is cleared, the lookup of P1 gives S9, and the Refresh Bus has been
    published exactly once more than before the submission. *)
Theorem new_session_resolution content w0 :
  submitted content w0 ->
  JS.truthy (sessionId (view w0)) = false ->
  exists w1 request d,
    sendMessage content w0 = (w1, Some request) /\
    SessionStateService.hasActiveStream (pending_id w0) (service w1) = true /\
    SessionStateService.pendingSession (service w1) = Some d /\
    s_id d = pending_id w0 /\
    let w2 :=
      run request
        [Yield (content_chunk "Hi"); Yield (done_chunk (Some "S9"))] w1 in
    SessionStateService.pendingSession (service w2) = None /\
    SessionStateService.getRealSessionId (pending_id w0) (service w2)
      = Some "S9" /\
    SessionStateService.sessionsRefresh (service w2) =
      S (SessionStateService.sessionsRefresh (service w0)).
Proof.
  intros Hsub Hnew.
  destruct (sendMessage_new_session content w0 Hsub Hnew)
    as (w1 & request & d & Hsend & Hd & Hsvc & Hc & Hr & Hs).
  pose proof (sendMessage_in_flight _ _ _ _ _ Hsvc Hc Hs Hsend) as Hfl.
  exists w1, request, d.
  split; [exact Hsend|]. split; [apply Hfl|].
  split; [rewrite Hsvc; reflexivity|]. split; [exact Hd|].
  cbv zeta.
  change (run request [Yield (content_chunk "Hi"); Yield (done_chunk (Some "S9"))] w1)
    with (emit request (done_chunk (Some "S9"))
            (run request [Yield (content_chunk "Hi")] w1)).
  assert (Hfl' : in_flight (pending_id w0)
                   (SessionStateService.sessionsRefresh (service w0))
                   (run request [Yield (content_chunk "Hi")] w1))
    by (apply run_in_flight; [reflexivity | exact Hfl]).
  destruct (done_resolves request _ _ "S9" _ Hfl' Hr
              (pending_id_truthy w0) eq_refl) as (A & B & C & _).
  auto.
Qed.

(** C2. Teardown survival.  After a submission on the new-chat route, let
    anything happen before the done record that does not end the stream:
    records that are not done records, clock ticks, route changes, and the
    destruction of the view.  The done record with a session id still
    resolves the turn: the pending id is taken off the registry and mapped
    to the real id, the Pending Session Slot is cleared, and the Refresh
    Bus is published, once; and the view is indeed destroyed by then. *)
Theorem teardown_survival content w0 pre sid :
  submitted content w0 ->
  JS.truthy (sessionId (view w0)) = false ->
  forallb quiet pre = true ->
  In ViewDestroyed pre ->
  JS.truthy (Some sid) = true ->
  let w2 := turn content (pre ++ [Yield (done_chunk (Some sid))]) w0 in
  destroyed (view w2) = true /\
  SessionStateService.hasActiveStream (pending_id w0) (service w2) = false /\
  SessionStateService.getRealSessionId (pending_id w0) (service w2)
    = Some sid /\
  SessionStateService.pendingSession (service w2) = None /\
  SessionStateService.sessionsRefresh (service w2) =
    S (SessionStateService.sessionsRefresh (service w0)).
Proof.
  intros Hsub Hnew Hq Hin Hsid.
  destruct (sendMessage_new_session content w0 Hsub Hnew)
    as (w1 & request & d & Hsend & Hd & Hsvc & Hc & Hr & Hs).
  pose proof (sendMessage_in_flight _ _ _ _ _ Hsvc Hc Hs Hsend) as Hfl.
  cbv zeta. unfold turn. rewrite Hsend.
  split.
  - apply run_view_destroyed. apply in_or_app. left. exact Hin.
  - unfold run. rewrite fold_left_app. cbn [fold_left occur].
    fold (run request pre w1).
    pose proof (run_in_flight request _ _ pre w1 Hq Hfl) as Hfl'.
    destruct (done_resolves request _ _ sid _ Hfl' Hr
                (pending_id_truthy w0) Hsid) as (A & B & C & D).
    auto.
Qed.

End Orchestrator.

Lemma new_session_resolution_witness :
  exists w1 request d,
    ChatComponent.sendMessage "Hello"
      (Turn.start 1767225600000 "2026-01-01T00:00:00.000Z")
    = (w1, Some request) /\
    SessionStateService.hasActiveStream
      (Turn.pending_id (Turn.start 1767225600000 "2026-01-01T00:00:00.000Z"))
      (ChatComponent.service w1) = true /\
    SessionStateService.pendingSession (ChatComponent.service w1) = Some d /\
    s_id d =
      Turn.pending_id (Turn.start 1767225600000 "2026-01-01T00:00:00.000Z") /\
    let w2 :=
      Turn.run request
        [Turn.Yield (Turn.content_chunk "Hi");
         Turn.Yield (Turn.done_chunk (Some "S9"))] w1 in
    SessionStateService.pendingSession (ChatComponent.service w2) = None /\
    SessionStateService.getRealSessionId
      (Turn.pending_id (Turn.start 1767225600000 "2026-01-01T00:00:00.000Z"))
      (ChatComponent.service w2) = Some "S9" /\
    SessionStateService.sessionsRefresh (ChatComponent.service w2) = 1%nat.
Proof.
  apply (new_session_resolution "Hello"
           (Turn.start 1767225600000 "2026-01-01T00:00:00.000Z")).
  - split; reflexivity.
  - reflexivity.
Defined.

Lemma teardown_survival_witness :
  let w0 := Turn.start 1767225600000 "2026-01-01T00:00:00.000Z" in
  let w2 :=
    Turn.turn "Hello"
      ([Turn.Yield (Turn.content_chunk "Hi"); Turn.ViewDestroyed] ++
       [Turn.Yield (Turn.done_chunk (Some "S9"))]) w0 in
  ChatComponent.destroyed (ChatComponent.view w2) = true /\
  SessionStateService.hasActiveStream (Turn.pending_id w0)
    (ChatComponent.service w2) = false /\
  SessionStateService.getRealSessionId (Turn.pending_id w0)
    (ChatComponent.service w2) = Some "S9" /\
  SessionStateService.pendingSession (ChatComponent.service w2) = None /\
  SessionStateService.sessionsRefresh (ChatComponent.service w2) = 1%nat.
Proof.
  apply (teardown_survival "Hello"
           (Turn.start 1767225600000 "2026-01-01T00:00:00.000Z")
           [Turn.Yield (Turn.content_chunk "Hi"); Turn.ViewDestroyed] "S9").
  - split; reflexivity.
  - reflexivity.
  - reflexivity.
  - right. left. reflexivity.
  - reflexivity.
Defined.

(** ** Error events and the redirect from a pending route *)

Section ErrorAndRedirect.
Import ChatComponent Turn.

(** C3, as the code has it. An error event is written to the console and
    ends nothing: the transcript is left exactly as it was, the stream
    stays subscribed, and the event adds no message, no entry to the
    Message Cache and no pending-to-real mapping, and publishes nothing on
    the Refresh Bus.  There is no failed state: when the stream ends, the
    transcript is appended to the messages with [isStreaming] set to
    false, the same message that the turn would have produced without the
    error event. *)
Theorem error_event_logged_only request text w :
  let w' := emit request (error_chunk text) w in
  streamingMessage (view w') = streamingMessage (view w) /\
  messages (view w') = messages (view w) /\
  subscription w' = subscription w /\
  SessionStateService.cachedMessages (service w') =
    SessionStateService.cachedMessages (service w) /\
  SessionStateService.pendingToRealMap (service w') =
    SessionStateService.pendingToRealMap (service w) /\
  SessionStateService.sessionsRefresh (service w') =
    SessionStateService.sessionsRefresh (service w) /\
  (forall b sm,
     subscription w = Some b ->
     streamingMessage (view w) = Some sm ->
     console w' = console w ++ [StreamErrorLog (Some text)] /\
     messages (view (subscriber_complete w')) =
       messages (view w) ++ [set_isStreaming (Some false) sm] /\
     messages (view (subscriber_complete w')) =
       messages (view (subscriber_complete w))).
Proof.
  cbv zeta. rewrite emit_quiet by reflexivity.
  unfold subscriber_next.
  destruct (subscription w) as [b|] eqn:Hs.
  - unfold handleStreamChunk.
    cbn [type error_chunk ChatService.is_done andb].
    destruct (streamingMessage (view w)) as [sm|] eqn:Hm.
    + cbv zeta. cbn [view on_view service console_error set_shouldScroll
                     streamingMessage messages subscription content].
      rewrite Hm, Hs. do 6 (split; [reflexivity|]).
      intros b' sm' _ Hsm'. injection Hsm' as <-.
      split; [reflexivity|].
      unfold subscriber_complete.
      cbn [subscription on_view console_error]. rewrite Hs.
      unfold on_stream_complete. cbv zeta.
      cbn [view on_view console_error set_isSending set_shouldScroll
           streamingMessage messages set_subscription set_messages
           set_streamingMessage].
      rewrite Hm.
      cbn [view on_view console_error set_isSending set_shouldScroll
           streamingMessage messages set_subscription set_messages
           set_streamingMessage].
      split; reflexivity.
    + do 6 (split; [auto|]). intros b' sm' _ Hsm'. discriminate.
  - do 6 (split; [auto|]). intros b' sm' Hb. discriminate.
Qed.

(** C10. The pending-to-real mapping is used once by the redirect.  When
    the view is on a pending-id route and the lookup of the pending id
    gives a real id, [loadSession] deletes the entry and navigates to the
    real id.  The lookup of this pending id gives nothing from then on,
    the other entries are as before, and a later visit of the same pending
    route finds no mapping and changes nothing. *)
Theorem pending_mapping_single_use w pendingId realId :
  sessionId (view w) = Some pendingId ->
  JS.startsWith pendingId "pending-" = true ->
  SessionStateService.getRealSessionId pendingId (service w) = Some realId ->
  JS.truthy (Some realId) = true ->
  let w' := loadSession w in
  navigations w' = navigations w ++ [realId] /\
  SessionStateService.getRealSessionId pendingId (service w') = None /\
  (forall q, q <> pendingId ->
     SessionStateService.getRealSessionId q (service w') =
     SessionStateService.getRealSessionId q (service w)) /\
  sessionId (view w') = Some pendingId /\
  loadSession w' = w'.
Proof.
  intros Hsid Hp Hr Ht. cbv zeta.
  assert (Htr : JS.truthy (Some pendingId) = true)
    by (destruct pendingId; [discriminate | reflexivity]).
  assert (Hl : loadSession w =
               navigate realId
                 (on_service
                    (SessionStateService.clearPendingMapping pendingId) w)).
  { unfold loadSession. rewrite Hsid, Htr. cbn [negb].
    rewrite (or_else_truthy _ Htr), Hp, Hr, Ht.
    rewrite (or_else_truthy _ Ht). reflexivity. }
  rewrite Hl.
  split; [reflexivity|]. split; [|split; [|split]].
  - unfold SessionStateService.getRealSessionId. cbn. apply lookup_delete_eq.
  - intros q Hq. unfold SessionStateService.getRealSessionId. cbn.
    apply lookup_delete_ne. congruence.
  - exact Hsid.
  - unfold loadSession at 1.
    cbn [view navigate on_service service]. rewrite Hsid, Htr. cbn [negb].
    rewrite (or_else_truthy _ Htr), Hp.
    unfold SessionStateService.getRealSessionId. cbn.
    rewrite lookup_delete_eq. reflexivity.
Qed.

End ErrorAndRedirect.

(** The claim C3 as the specification words it fails.  On the new-chat
    route, a turn whose stream yields a content event and the error event
    boom, and then ends: the Pending Session Slot still holds the
    descriptor of this turn, and the messages of the view are those of the
    same turn without the error event, the assistant message being
    finalized with [isStreaming] false.  Nor is the turn over at the error
    event: a content event that follows it is still appended. *)
Lemma error_event_not_terminal :
  let w0 := Turn.start 1767225600000 "2026-01-01T00:00:00.000Z" in
  let failed :=
    Turn.turn "Hello"
      [Turn.Yield (Turn.content_chunk "par");
       Turn.Yield (Turn.error_chunk "boom"); Turn.StreamEnds] w0 in
  let succeeded :=
    Turn.turn "Hello"
      [Turn.Yield (Turn.content_chunk "par"); Turn.StreamEnds] w0 in
  let continued :=
    Turn.turn "Hello"
      [Turn.Yield (Turn.content_chunk "par");
       Turn.Yield (Turn.error_chunk "boom");
       Turn.Yield (Turn.content_chunk "tial")] w0 in
  SessionStateService.pendingSession (ChatComponent.service failed) =
    Some (Turn.descriptor (Turn.pending_id w0) "Hello"
            "2026-01-01T00:00:00.000Z") /\
  ChatComponent.messages (ChatComponent.view failed) =
    ChatComponent.messages (ChatComponent.view succeeded) /\
  List.map (fun m => (m_role m, m_content m, m_isStreaming m))
    (ChatComponent.messages (ChatComponent.view failed)) =
    [(user, "Hello", None); (assistant, "par", Some false)] /\
  option_map m_content
    (ChatComponent.streamingMessage (ChatComponent.view continued)) =
    Some "partial".
Proof.
  cbv zeta. split; [|split; [|split]]; vm_compute; reflexivity.
Qed.

Lemma error_event_logged_only_witness :
  let w :=
    fst (ChatComponent.sendMessage "Hello"
           (Turn.start 1767225600000 "2026-01-01T00:00:00.000Z")) in
  let w' := Turn.emit Wire.sample_request (Turn.error_chunk "boom") w in
  ChatComponent.console w' =
    ChatComponent.console w ++ [ChatComponent.StreamErrorLog (Some "boom")] /\
  ChatComponent.messages (ChatComponent.view (Turn.subscriber_complete w')) =
    ChatComponent.messages (ChatComponent.view w) ++
    [ChatComponent.set_isStreaming (Some false) (Turn.fresh_transcript w)] /\
  ChatComponent.messages (ChatComponent.view (Turn.subscriber_complete w')) =
    ChatComponent.messages (ChatComponent.view (Turn.subscriber_complete w)).
Proof.
  cbv zeta.
  refine (proj2 (proj2 (proj2 (proj2 (proj2 (proj2
            (error_event_logged_only Wire.sample_request "boom"
               (fst (ChatComponent.sendMessage "Hello"
                       (Turn.start 1767225600000
                          "2026-01-01T00:00:00.000Z")))))))))
            true _ _ _).
  - vm_compute. reflexivity.
  - vm_compute. reflexivity.
Defined.

Lemma pending_mapping_single_use_witness :
  let w :=
    ChatComponent.on_service
      (SessionStateService.mapPendingToReal "pending-1" "S9")
      (ChatComponent.on_view (ChatComponent.set_sessionId (Some "pending-1"))
         (Turn.start 1767225600000 "2026-01-01T00:00:00.000Z")) in
  let w' := ChatComponent.loadSession w in
  ChatComponent.navigations w' = ChatComponent.navigations w ++ ["S9"] /\
  SessionStateService.getRealSessionId "pending-1" (ChatComponent.service w')
    = None /\
  (forall q, q <> "pending-1" ->
     SessionStateService.getRealSessionId q (ChatComponent.service w') =
     SessionStateService.getRealSessionId q (ChatComponent.service w)) /\
  ChatComponent.sessionId (ChatComponent.view w') = Some "pending-1" /\
  ChatComponent.loadSession w' = w'.
Proof.
  cbv zeta.
  apply (pending_mapping_single_use _ "pending-1" "S9").
  - reflexivity.
  - reflexivity.
  - apply lookup_insert_eq.
  - reflexivity.
Defined.

(** ** From the bytes to the turn *)

Section FromBytes.
Import ChatComponent Turn Wire.

Context {decoder : TextDecoder}.
Variable JSON_parse : string -> option StreamChunk.

Lemma run_yields request events w :
  fold_left
    (fun w e =>
       ChatService.emit World subscriber_next newSessionCompleteCallbacks
         request e w) events w =
  run request (List.map Yield events) w.
Proof.
  unfold run. revert w.
  induction events as [|e es IH]; intros w; [reflexivity|].
  cbn [fold_left List.map occur]. apply IH.
Qed.

(** A response whose body carries well-formed records and then closes is,
    for the application, the events of the records followed by the end of
    the stream, however the body was cut into chunks. *)
Lemma streamChat_well_formed request payloads events bytes chunks w :
  Forall2 (well_formed JSON_parse) payloads events ->
  carries bytes (wire payloads) ->
  List.concat chunks = bytes ->
  streamChat JSON_parse request (Body chunks false) w =
  run request (List.map Yield events ++ [StreamEnds]) w.
Proof.
  intros Hwf Hb Hc. unfold streamChat, ChatService.streamChat.
  rewrite (read_all_well_formed _ _ _ _ _ _ payloads events bytes)
    by assumption.
  rewrite run_yields. unfold run. rewrite fold_left_app. reflexivity.
Qed.

End FromBytes.

(** The first scenario run from the bytes: a submission on the new-chat
    route, then a body of two records read in three chunks. *)
Example new_session_from_bytes :
  let w0 := Turn.start 1767225600000 "2026-01-01T00:00:00.000Z" in
  match ChatComponent.sendMessage "Hello" w0 with
  | (w1, Some request) =>
      let w2 :=
        Turn.streamChat (decoder := Wire.latin1) Wire.sample_parse request
          (Body (Wire.cut3 9 40 Wire.sample_bytes) false) w1 in
      SessionStateService.getRealSessionId "pending-1767225600000"
        (ChatComponent.service w2) = Some "S9" /\
      SessionStateService.pendingSession (ChatComponent.service w2) = None /\
      SessionStateService.sessionsRefresh (ChatComponent.service w2) = 1%nat /\
      SessionStateService.popCachedMessages "S9" (ChatComponent.service w2)
        <> (None, ChatComponent.service w2) /\
      ChatComponent.navigations w2 = ["S9"] /\
      List.map (fun m => (m_role m, m_content m, m_isStreaming m))
        (ChatComponent.messages (ChatComponent.view w2)) =
        [(user, "Hello", None); (assistant, "Hi", Some false)]
  | _ => False
  end.
Proof.
  vm_compute. repeat split; try reflexivity. discriminate.
Qed.

(** * Further properties of the code *)

(** ** The session service *)

Section ServiceFacts.
Import SessionStateService.

(** X1. The message cache hands a list over once: what [cacheMessages]
    stored under an id is returned by the first [popCachedMessages] for
    this id, which removes the entry and no other; the second returns
    nothing and changes nothing. *)
Theorem cache_hands_over_once sessionId messages s :
  let stored := cacheMessages sessionId messages s in
  let first := popCachedMessages sessionId stored in
  let second := popCachedMessages sessionId (snd first) in
  fst first = Some messages /\
  fst second = None /\
  snd second = snd first /\
  cachedMessages (snd first) = delete sessionId (cachedMessages s) /\
  (forall other, other <> sessionId ->
     cachedMessages (snd first) !! other = cachedMessages s !! other).
Proof.
  cbv zeta.
  assert (H1 : popCachedMessages sessionId (cacheMessages sessionId messages s)
               = (Some messages,
                  {| activeSessionId := activeSessionId s;
                     sessionsRefresh := sessionsRefresh s;
                     pendingSession := pendingSession s;
                     pendingToRealMap := pendingToRealMap s;
                     cachedMessages := delete sessionId (cachedMessages s);
                     activeNewSessionStreams := activeNewSessionStreams s |})).
  { unfold popCachedMessages. cbn [cachedMessages cacheMessages].
    rewrite lookup_insert_eq, delete_insert_eq. reflexivity. }
  rewrite H1. cbn [fst snd].
  unfold popCachedMessages. cbn [cachedMessages].
  rewrite lookup_delete_eq. cbn [fst snd cachedMessages].
  split; [reflexivity|]. split; [reflexivity|]. split; [reflexivity|].
  split; [reflexivity|].
  intros other Hne. apply lookup_delete_ne. congruence.
Qed.

(** X2. The two resolution paths, in either order: whichever of
    [completeNewSession] and the callback [handleNewSessionComplete] runs
    first for a registered pending id resolves it, and the other one then
    changes nothing.  The Refresh Bus is published once in both orders and
    the mapping holds the real id of the first; when the callback is
    first, the messages that [completeNewSession] brings are not cached. *)
Theorem resolution_paths_either_order s p r r' m :
  hasActiveStream p s = true ->
  let by_component := completeNewSession p r m s in
  let by_callback := handleNewSessionComplete p r' s in
  handleNewSessionComplete p r' by_component = by_component /\
  completeNewSession p r m by_callback = by_callback /\
  sessionsRefresh by_component = S (sessionsRefresh s) /\
  sessionsRefresh by_callback = S (sessionsRefresh s) /\
  getRealSessionId p by_component = Some r /\
  getRealSessionId p by_callback = Some r' /\
  cachedMessages by_callback = cachedMessages s.
Proof.
  intros H. cbv zeta.
  assert (Hcb : handleNewSessionComplete p r' s =
                {| activeSessionId := activeSessionId s;
                   sessionsRefresh := S (sessionsRefresh s);
                   pendingSession := None;
                   pendingToRealMap := <[p := r']> (pendingToRealMap s);
                   cachedMessages := cachedMessages s;
                   activeNewSessionStreams :=
                     activeNewSessionStreams s ∖ {[p]} |}).
  { unfold handleNewSessionComplete. rewrite H. reflexivity. }
  split; [|split; [|split; [|split; [|split; [|split]]]]].
  - apply handleNewSessionComplete_inactive, completeNewSession_untracks.
  - apply completeNewSession_inactive. rewrite Hcb.
    apply not_true_is_false. rewrite hasActiveStream_spec. cbn. set_solver.
  - rewrite completeNewSession_active by assumption. reflexivity.
  - rewrite Hcb. reflexivity.
  - rewrite completeNewSession_active by assumption.
    unfold getRealSessionId. cbn. apply lookup_insert_eq.
  - rewrite Hcb. unfold getRealSessionId. cbn. apply lookup_insert_eq.
  - rewrite Hcb. reflexivity.
Qed.

(** X3. A resolution concerns one pending id: for every other id, whether
    it is registered and what it is mapped to are as before, and the only
    entry of the message cache that can change is the one of the real
    id. *)
Theorem resolution_leaves_other_ids s p r m q :
  q <> p ->
  let s' := completeNewSession p r m s in
  hasActiveStream q s' = hasActiveStream q s /\
  getRealSessionId q s' = getRealSessionId q s /\
  (forall k, k <> r -> cachedMessages s' !! k = cachedMessages s !! k).
Proof.
  intros Hq. cbv zeta.
  destruct (hasActiveStream p s) eqn:H.
  - rewrite completeNewSession_active by assumption.
    split; [|split].
    + unfold hasActiveStream. cbn. apply bool_decide_ext. set_solver.
    + unfold getRealSessionId. cbn. apply lookup_insert_ne. congruence.
    + intros k Hk. cbn [cachedMessages].
      destruct (0 <? List.length m)%nat; [|reflexivity].
      apply lookup_insert_ne. congruence.
  - rewrite completeNewSession_inactive by assumption. auto.
Qed.

Lemma call_keeps_registered p c s :
  Registry.resolves p c = false ->
  hasActiveStream p s = true ->
  hasActiveStream p (call s c) = true.
Proof.
  intros Hc Hs. rewrite hasActiveStream_spec in *.
  destruct c as [sid| |d| |q r|q|sid m|sid|q|q r m|q r];
    cbn [call Registry.resolves] in *; try (cbn; assumption).
  - unfold popCachedMessages. destruct (cachedMessages s !! sid); assumption.
  - cbn. set_solver.
  - apply String.eqb_neq in Hc. unfold completeNewSession.
    destruct (hasActiveStream q s); cbn [negb]; [|assumption].
    destruct (0 <? List.length m)%nat; cbn; set_solver.
  - apply String.eqb_neq in Hc. unfold handleNewSessionComplete.
    destruct (hasActiveStream q s); cbn; set_solver.
Qed.

(** X4. Only a resolution takes a pending id off the registry: once
    [registerActiveStream] has been called for it, it stays registered
    through every later call that is not a resolution of this id;
    clearing the pending session or a mapping, and resolving another id,
    do not unregister it. *)
Theorem registered_until_resolved before after p :
  Forall (fun c => Registry.resolves p c = false) after ->
  hasActiveStream p
    (history (before ++ [RegisterActiveStream p] ++ after)) = true.
Proof.
  intros H. unfold history. rewrite !fold_left_app. cbn [fold_left call].
  generalize (hasActiveStream_register p (fold_left call before new)).
  generalize (registerActiveStream p (fold_left call before new)).
  induction after as [|c cs IH]; intros s Hs; [exact Hs|].
  inversion H; subst. cbn [fold_left]. apply IH; [assumption|].
  apply call_keeps_registered; assumption.
Qed.

End ServiceFacts.

Lemma resolution_paths_either_order_witness :
  let s :=
    SessionStateService.registerActiveStream "pending-1"
      SessionStateService.new in
  SessionStateService.sessionsRefresh
    (SessionStateService.handleNewSessionComplete "pending-1" "S9" s)
  = 1%nat.
Proof.
  cbv zeta.
  exact (proj1 (proj2 (proj2 (proj2
           (resolution_paths_either_order
              (SessionStateService.registerActiveStream "pending-1"
                 SessionStateService.new) "pending-1" "S8" "S9" []
              (hasActiveStream_register "pending-1"
                 SessionStateService.new)))))).
Defined.

Lemma resolution_leaves_other_ids_witness :
  SessionStateService.getRealSessionId "pending-2"
    (SessionStateService.completeNewSession "pending-1" "S9" []
       (SessionStateService.registerActiveStream "pending-1"
          SessionStateService.new))
  = SessionStateService.getRealSessionId "pending-2"
      (SessionStateService.registerActiveStream "pending-1"
         SessionStateService.new).
Proof.
  apply (resolution_leaves_other_ids
           (SessionStateService.registerActiveStream "pending-1"
              SessionStateService.new) "pending-1" "S9" [] "pending-2").
  discriminate.
Defined.

Lemma registered_until_resolved_witness :
  SessionStateService.hasActiveStream "pending-1"
    (SessionStateService.history
       ([SessionStateService.RefreshSessions] ++
        [SessionStateService.RegisterActiveStream "pending-1"] ++
        [SessionStateService.ClearPendingSession;
         SessionStateService.ClearPendingMapping "pending-1";
         SessionStateService.CompleteNewSession "pending-2" "S9" []]))
  = true.
Proof.
  apply (registered_until_resolved
           [SessionStateService.RefreshSessions]
           [SessionStateService.ClearPendingSession;
            SessionStateService.ClearPendingMapping "pending-1";
            SessionStateService.CompleteNewSession "pending-2" "S9" []]
           "pending-1").
  repeat constructor.
Defined.

(** ** The decoder on any stream *)

Section DecoderFacts.
Import JS Wire Frames.

Context {decoder : TextDecoder}.
Variable JSON_parse : string -> option StreamChunk.
Variable request : ChatRequest.

Lemma scan_frames lines :
  Forall (fun l => no_LF l = true) lines ->
  scan (frames lines) = (lines, "").
Proof.
  induction 1 as [|l ls Hl _ IH]; [reflexivity|].
  cbn [frames]. rewrite scan_line, IH by assumption. reflexivity.
Qed.

Lemma scan_no_blank_line s :
  no_blank_line s = true -> scan s = ([], s).
Proof.
  induction s as [|c|c c2 s IH1 IH2] using string_ind2; try reflexivity.
  intros H.
  change (no_blank_line (String c (String c2 s)))
    with (negb (Ascii.eqb c LF && Ascii.eqb c2 LF)
          && no_blank_line (String c2 s)) in H.
  apply andb_prop in H as [Hc Hs]. apply negb_true_iff in Hc.
  rewrite scan_cons2, Hc, (IH2 Hs). reflexivity.
Qed.

Lemma scan_frames_tail lines tail :
  Forall (fun l => no_LF l = true) lines ->
  no_blank_line tail = true ->
  scan (frames lines +:+ tail) = (lines, tail).
Proof.
  intros Hl Ht. rewrite scan_app, scan_frames by assumption.
  cbn [fst snd]. change ("" +:+ tail) with tail.
  rewrite scan_no_blank_line by assumption. cbn [fst snd].
  rewrite app_nil_r. reflexivity.
Qed.

Lemma process_lines_classify lines t :
  fold_left
    (ChatService.process_line JSON_parse (list Signal)
       (fun data t => t ++ [Event data]) [] (fun t => t ++ [ParseFailure])
       request) lines t =
  t ++ flat_map (classify JSON_parse) lines.
Proof.
  revert t. induction lines as [|l ls IH]; intros t.
  - cbn. rewrite app_nil_r. reflexivity.
  - cbn [fold_left flat_map]. rewrite IH, app_assoc. f_equal.
    unfold ChatService.process_line, classify.
    destruct (startsWith l "data: "); [|rewrite app_nil_r; reflexivity].
    destruct (JSON_parse (slice 6 l)) as [data|]; [|reflexivity].
    unfold ChatService.emit. cbn [fold_left].
    destruct (ChatService.is_done _ && _ && _); reflexivity.
Qed.

(** X5. What the decoder yields for any stream of lines.  A text made of
    lines closed by blank lines, followed by an end that no blank line
    closes, gives, however its bytes are cut into chunks: for each line in
    order, an event when the line starts with [data: ] and the rest
    parses, one [console.error] when it starts with [data: ] and the rest
    does not parse, and nothing at all when it does not start with
    [data: ]; the unterminated end gives nothing, even if it is a complete
    record but for its blank line. *)
Theorem decoder_line_by_line lines tail bytes chunks :
  Forall (fun l => no_LF l = true) lines ->
  no_blank_line tail = true ->
  carries bytes (frames lines +:+ tail) ->
  List.concat chunks = bytes ->
  signals JSON_parse request chunks = flat_map (classify JSON_parse) lines.
Proof.
  intros Hl Ht Hb Hc. unfold signals.
  rewrite read_all_scan. cbn [snd]. rewrite Hc, Hb.
  rewrite scan_frames_tail by assumption. cbn [fst].
  apply (process_lines_classify lines []).
Qed.

(** X6. For any bytes whatever, well formed or not, the signals of the
    decoder depend on the bytes only and not on the chunks they arrive in;
    in particular empty chunks change nothing. *)
Theorem decoder_any_bytes_invariance chunks chunks' :
  List.concat chunks = List.concat chunks' ->
  signals JSON_parse request chunks = signals JSON_parse request chunks' /\
  signals JSON_parse request ([] :: chunks) = signals JSON_parse request chunks /\
  signals JSON_parse request (chunks ++ [[]]) = signals JSON_parse request chunks.
Proof.
  intros H. unfold signals. split; [|split]; f_equal; apply read_all_concat.
  - exact H.
  - reflexivity.
  - rewrite concat_app. cbn. rewrite app_nil_r. reflexivity.
Qed.

End DecoderFacts.

Lemma decoder_line_by_line_witness :
  Wire.signals (decoder := Wire.latin1) Wire.sample_parse Wire.sample_request
    (Wire.cut3 5 30 Frames.sample_bytes) =
  [Wire.Event (Turn.content_chunk "Hi"); Wire.ParseFailure].
Proof.
  apply (decoder_line_by_line (decoder := Wire.latin1) Wire.sample_parse
           Wire.sample_request Frames.sample_lines Frames.sample_tail
           Frames.sample_bytes).
  - repeat constructor.
  - reflexivity.
  - vm_compute. reflexivity.
  - vm_compute. reflexivity.
Defined.

Lemma decoder_any_bytes_invariance_witness :
  Wire.signals (decoder := Wire.latin1) Wire.sample_parse Wire.sample_request
    (Wire.cut3 7 2 Frames.sample_bytes) =
  Wire.signals (decoder := Wire.latin1) Wire.sample_parse Wire.sample_request
    [Frames.sample_bytes].
Proof.
  apply (decoder_any_bytes_invariance (decoder := Wire.latin1)
           Wire.sample_parse Wire.sample_request
           (Wire.cut3 7 2 Frames.sample_bytes) [Frames.sample_bytes]).
  vm_compute. reflexivity.
Defined.

(** ** More about a turn *)

Section TurnFacts.
Import ChatComponent Turn Transcript.

(** All that a submission does to the view and to what it calls. *)
Lemma sendMessage_effect content w0 :
  submitted content w0 ->
  exists w1 request,
    sendMessage content w0 = (w1, Some request) /\
    isSending (view w1) = true /\
    messages (view w1) = messages (view w0) ++ [user_message content w0] /\
    streamingMessage (view w1) = Some (fresh_transcript w0) /\
    sessionId (view w1) = sessionId (view w0) /\
    destroyed (view w1) = destroyed (view w0) /\
    subscription w1 = Some (negb (JS.truthy (sessionId (view w0)))) /\
    navigations w1 = navigations w0 /\
    requests w1 = requests w0 /\
    now w1 = now w0 /\
    rq_message request = content /\
    rq_sessionId request = sessionId (view w0) /\
    (JS.truthy (sessionId (view w0)) = true ->
     service w1 = service w0 /\
     currentPendingId (view w1) = currentPendingId (view w0) /\
     rq_pendingSessionId request = currentPendingId (view w0)) /\
    (JS.truthy (sessionId (view w0)) = false ->
     service w1 =
       SessionStateService.setPendingSession
         (Some {| s_id := pending_id w0;
                  s_title := title_of content;
                  s_orchestrationType := orchestrationType (view w0);
                  s_selectedAgents := selectedAgentIds (view w0);
                  s_createdAt := now_iso w0;
                  s_lastMessageAt := now_iso w0;
                  s_messageCount := 1 |})
         (SessionStateService.registerActiveStream (pending_id w0)
            (service w0)) /\
     currentPendingId (view w1) = Some (pending_id w0) /\
     rq_pendingSessionId request = Some (pending_id w0)).
Proof.
  intros [Hb Hs].
  unfold sendMessage, fresh_transcript, user_message, pending_id, title_of.
  rewrite Hb, Hs. cbn [orb].
  destruct w0 as [n iso svc v sub navs reqs cons].
  destruct v as [sid ses msgs sel orch ld sending sm sc cur des].
  cbn -[pretty Nat.ltb String.substring].
  destruct (JS.truthy sid); cbn -[pretty Nat.ltb String.substring];
    generalize (pretty n); intros stamp;
    do 2 eexists;
    do 12 (split; [reflexivity|]);
    (split; intros H; [try discriminate|try discriminate]);
    (split; [reflexivity|split; reflexivity]).
Qed.

(** Records that are not done records leave the service, the messages on
    display and the subscription as they are. *)
Lemma run_records_keep request events w :
  Forall (fun c => ChatService.is_done (type c) = false) events ->
  let w' := run request (List.map Yield events) w in
  service w' = service w /\
  subscription w' = subscription w /\
  currentPendingId (view w') = currentPendingId (view w) /\
  destroyed (view w') = destroyed (view w) /\
  messages (view w') = messages (view w) /\
  navigations w' = navigations w.
Proof.
  intros H. cbv zeta. unfold run. revert w.
  induction H as [|c cs Hc _ IH]; intros w; [auto 10|].
  cbn [List.map fold_left occur].
  destruct (IH (emit request c w)) as (A & B & C & D & E & F).
  rewrite A, B, C, D, E, F.
  rewrite emit_quiet by (rewrite Hc; reflexivity).
  unfold subscriber_next. destruct (subscription w) as [b|] eqn:Hs; [|auto 10].
  destruct (handleStreamChunk_not_done c b w Hc) as (A' & B' & C' & D' & E' & F').
  rewrite A', B', C', D', E', F'. auto 10.
Qed.

(** X7. A turn for a new session whose stream fails, at once or after
    records that are not done records: the transcript is dropped, whatever
    it had received, so that the messages on display are those from before
    the turn and the user message; the Pending Session Slot is cleared and
    sending is over; but the pending id stays registered, no mapping is
    recorded and the Refresh Bus is not published. *)
Theorem stream_failure_drops_turn content w0 events :
  submitted content w0 ->
  JS.truthy (sessionId (view w0)) = false ->
  Forall (fun c => ChatService.is_done (type c) = false) events ->
  let w := turn content (List.map Yield events ++ [StreamFails]) w0 in
  streamingMessage (view w) = None /\
  messages (view w) = messages (view w0) ++ [user_message content w0] /\
  isSending (view w) = false /\
  subscription w = None /\
  SessionStateService.pendingSession (service w) = None /\
  SessionStateService.hasActiveStream (pending_id w0) (service w) = true /\
  SessionStateService.pendingToRealMap (service w) =
    SessionStateService.pendingToRealMap (service w0) /\
  SessionStateService.sessionsRefresh (service w) =
    SessionStateService.sessionsRefresh (service w0).
Proof.
  intros Hsub Hnew Hev. cbv zeta.
  destruct (sendMessage_effect content w0 Hsub)
    as (w1 & request & Hsend & _ & Hm & _ & _ & _ & Hs & _ & _ & _ & _ & _
        & _ & Hn).
  destruct (Hn Hnew) as (Hsvc & _ & _). rewrite Hnew in Hs. cbn [negb] in Hs.
  unfold turn. rewrite Hsend.
  unfold run. rewrite fold_left_app. cbn [fold_left occur].
  fold (run request (List.map Yield events) w1).
  destruct (run_records_keep request events w1 Hev) as (A & B & _ & _ & E & _).
  unfold subscriber_error. rewrite B, Hs.
  unfold on_stream_error.
  cbn [view on_view on_service service set_subscription subscription
       set_streamingMessage set_isSending console_error streamingMessage
       messages isSending console].
  rewrite A, E, Hm, Hsvc.
  do 5 (split; [reflexivity|]).
  split; [|split; reflexivity].
  apply hasActiveStream_spec. cbn. set_solver.
Qed.

(** X8. While a turn is being sent, further submissions are ignored: after
    a submission that went through, [sendMessage] returns at once for any
    text, leaving everything as it is and sending no request, until the
    stream ends or fails; then a text that is not blank goes through
    again. *)
Theorem submission_blocked_while_sending content w0 :
  submitted content w0 ->
  exists w1 request,
    sendMessage content w0 = (w1, Some request) /\
    (forall content', sendMessage content' w1 = (w1, None)) /\
    (forall content',
       JS.blank content' = false ->
       submitted content' (run request [StreamEnds] w1) /\
       submitted content' (run request [StreamFails] w1)).
Proof.
  intros Hsub.
  destruct (sendMessage_effect content w0 Hsub)
    as (w1 & request & Hsend & Hsending & _ & _ & _ & _ & Hs & _).
  exists w1, request. split; [exact Hsend|]. split.
  - intros content'. unfold sendMessage. rewrite Hsending, orb_true_r.
    reflexivity.
  - intros content' Hb. unfold run. cbn [fold_left occur].
    unfold submitted, subscriber_complete, subscriber_error. rewrite Hs.
    split; (split; [exact Hb|]).
    + unfold on_stream_complete. cbv zeta.
      cbn [view on_view set_isSending streamingMessage].
      destruct (streamingMessage (view w1)); reflexivity.
    + unfold on_stream_error. cbv zeta.
      destruct (negb (JS.truthy (sessionId (view w0)))); reflexivity.
Qed.

Lemma length_substring_le n s : (String.length (String.substring 0 n s) <= n)%nat.
Proof.
  revert s. induction n as [|n IH]; intros [|c s]; cbn; try lia.
  specialize (IH s). lia.
Qed.

Lemma length_append_sum (a b : string) :
  String.length (a +:+ b) = (String.length a + String.length b)%nat.
Proof.
  induction a as [|c a IH]; [reflexivity|].
  change (S (String.length (a +:+ b)) = S (String.length a + String.length b)).
  f_equal. exact IH.
Qed.

(** X9. The title of the optimistic session never has more than 33
    characters: it is the text itself when the text has at most 30, and
    otherwise its first 30 characters followed by three dots. *)
Theorem optimistic_title_bounded content w0 :
  submitted content w0 ->
  JS.truthy (sessionId (view w0)) = false ->
  exists d,
    SessionStateService.pendingSession
      (service (fst (sendMessage content w0))) = Some d /\
    s_id d = pending_id w0 /\
    (String.length (s_title d) <= 33)%nat /\
    ((String.length content <= 30)%nat -> s_title d = content) /\
    ((30 < String.length content)%nat ->
     s_title d = String.substring 0 30 content +:+ "...").
Proof.
  intros Hsub Hnew.
  destruct (sendMessage_effect content w0 Hsub)
    as (w1 & request & Hsend & _ & _ & _ & _ & _ & _ & _ & _ & _ & _ & _
        & _ & Hn).
  destruct (Hn Hnew) as (Hsvc & _ & _).
  rewrite Hsend. cbn [fst]. rewrite Hsvc.
  eexists. split; [reflexivity|]. split; [reflexivity|].
  cbn [s_title]. unfold title_of.
  destruct (30 <? String.length content)%nat eqn:E.
  - apply Nat.ltb_lt in E. split; [|split; [lia|reflexivity]].
    rewrite length_append_sum.
    pose proof (length_substring_le 30 content). cbn [String.length]. lia.
  - apply Nat.ltb_ge in E. split; [lia|]. split; [reflexivity|lia].
Qed.

(** X10. A turn in an existing session registers no pending id and leaves
    the Pending Session Slot alone; its request carries the session id.
    Its stream is tied to the view: when the view is destroyed, the
    transcript is made a message at once, with what it has received until
    then, and the records that the stream yields later are not seen: they
    change nothing at all. *)
Theorem existing_session_turn_ends_with_view content w0 events :
  submitted content w0 ->
  JS.truthy (sessionId (view w0)) = true ->
  currentPendingId (view w0) = None ->
  exists w1 request,
    sendMessage content w0 = (w1, Some request) /\
    service w1 = service w0 /\
    rq_sessionId request = sessionId (view w0) /\
    rq_pendingSessionId request = None /\
    let w2 := run request [ViewDestroyed] w1 in
    streamingMessage (view w2) = None /\
    messages (view w2) =
      messages (view w0) ++
      [user_message content w0;
       set_isStreaming (Some false) (fresh_transcript w0)] /\
    isSending (view w2) = false /\
    run request (List.map Yield events) w2 = w2.
Proof.
  intros Hsub Hex Hcur.
  destruct (sendMessage_effect content w0 Hsub)
    as (w1 & request & Hsend & _ & Hm & Hsm & _ & _ & Hs & _ & _ & _ & _ & Hrs
        & He & _).
  destruct (He Hex) as (Hsvc & _ & Hrp). rewrite Hcur in Hrp.
  rewrite Hex in Hs. cbn [negb] in Hs.
  exists w1, request. do 4 (split; [assumption|]).
  cbv zeta.
  assert (Hw2 : run request [ViewDestroyed] w1 =
                set_subscription None
                  (on_view (set_streamingMessage None)
                     (on_view
                        (set_messages
                           (messages (view w1) ++
                            [set_isStreaming (Some false)
                               (fresh_transcript w0)]))
                        (on_view (set_isSending false)
                           (on_view (set_destroyed true) w1))))).
  { unfold run. cbn [fold_left occur].
    unfold ngOnDestroy. cbv zeta. cbn [subscription on_view]. rewrite Hs.
    unfold on_stream_complete. cbv zeta.
    cbn [view on_view set_isSending set_destroyed streamingMessage messages].
    rewrite Hsm. reflexivity. }
  rewrite Hw2.
  cbn [view on_view set_isSending set_destroyed streamingMessage messages
       set_subscription set_messages set_streamingMessage isSending].
  rewrite Hm, <- app_assoc.
  do 3 (split; [reflexivity|]).
  match goal with |- run _ _ ?x = _ => remember x as w eqn:E end.
  assert (Hw : subscription w = None) by (rewrite E; reflexivity).
  clear E. unfold run.
  induction events as [|c cs IH]; [reflexivity|].
  cbn [List.map fold_left occur].
  assert (Hc : emit request c w = w).
  { unfold emit, ChatService.emit. rewrite Hrp. cbn [JS.truthy].
    rewrite andb_false_r. cbn [andb].
    unfold subscriber_next. rewrite Hw. reflexivity. }
  rewrite Hc. exact IH.
Qed.

End TurnFacts.

(** ** The transcript over a whole stream *)

Section TranscriptFacts.
Import ChatComponent Turn Transcript.

Lemma append_empty_r (a : string) : a +:+ "" = a.
Proof.
  induction a as [|c a IH]; [reflexivity|].
  change (String c (a +:+ "") = String c a). f_equal. exact IH.
Qed.

Lemma join_app a b : join (a ++ b) = join a +:+ join b.
Proof.
  induction a as [|x a IH]; [reflexivity|].
  cbn [app join fold_right]. fold (join (a ++ b)). fold (join a).
  rewrite IH. symmetry. apply append_assoc3.
Qed.

Lemma joined_append_to_last d r rs :
  joined (append_to_last d (r :: rs)) = joined (r :: rs) +:+ d.
Proof.
  destruct (exists_last (l := r :: rs)) as (init & z & E); [discriminate|].
  rewrite E, append_to_last_snoc. unfold joined.
  rewrite !map_app, !join_app. cbn [List.map join fold_right ar_content].
  rewrite !append_empty_r. symmetry. apply append_assoc3.
Qed.

(** The callbacks of the service do not touch the view. *)
Lemma emit_view request c w :
  view (emit request c w) = view (subscriber_next c w) /\
  subscription (emit request c w) = subscription (subscriber_next c w) /\
  now (emit request c w) = now (subscriber_next c w).
Proof.
  unfold emit, ChatService.emit.
  destruct (ChatService.is_done (type c) && _ && _); auto.
Qed.

(** A done record that resolves the turn does not touch the transcript. *)
Lemma handleStreamChunk_resolving c b w :
  ChatService.is_done (type c) && b && JS.truthy (session_id c) = true ->
  streamingMessage (view (handleStreamChunk c b w)) = streamingMessage (view w) /\
  subscription (handleStreamChunk c b w) = subscription w /\
  now (handleStreamChunk c b w) = now w.
Proof.
  intros H. unfold handleStreamChunk. rewrite H. cbv zeta.
  destruct (JS.truthy (currentPendingId (view w)));
    match goal with
    | |- context [if ?x then navigate _ _ else _] => destruct x
    end; cbn; auto.
Qed.

(** One record, whatever it is, and the transcript. *)
Lemma next_transcript c b sm w :
  subscription w = Some b ->
  streamingMessage (view w) = Some sm ->
  exists sm',
    streamingMessage (view (subscriber_next c w)) = Some sm' /\
    subscription (subscriber_next c w) = Some b /\
    now (subscriber_next c w) = now w /\
    m_content sm' = m_content sm +:+ delta c /\
    unwrap_or (m_chatterEvents sm') [] =
      unwrap_or (m_chatterEvents sm) [] ++
      (if is_chatter c then [chatter_entry (now w) c] else []) /\
    List.map ar_agentName (buffers sm') =
      List.map ar_agentName (buffers sm) ++
      (if is_agent_start c then [started_name c] else []) /\
    joined (buffers sm') =
      joined (buffers sm) +:+
      match buffers sm with [] => "" | _ :: _ => delta c end.
Proof.
  intros Hs Hm. unfold subscriber_next. rewrite Hs.
  destruct (ChatService.is_done (type c) && b && JS.truthy (session_id c))
    eqn:Hd.
  - destruct (handleStreamChunk_resolving c b w Hd) as (A & B & C).
    rewrite A, B, C, Hm, Hs.
    apply andb_prop in Hd as [Hd _]. apply andb_prop in Hd as [Hd _].
    unfold delta, is_chatter, is_agent_start.
    destruct (type c); try discriminate.
    exists sm. rewrite !append_empty_r, !app_nil_r.
    destruct (buffers sm); rewrite ?append_empty_r; auto 10.
  - unfold handleStreamChunk, delta, is_chatter, is_agent_start, buffers.
    rewrite Hd.
    destruct (type c) eqn:Ht; rewrite Hm; cbv zeta.
    + (* content *)
      eexists. split; [reflexivity|]. split; [exact Hs|]. split; [reflexivity|].
      cbn [m_content set_content m_chatterEvents m_agentResponses].
      rewrite !app_nil_r.
      destruct (m_agentResponses sm) as [[|r rs]|] eqn:Hr;
        cbn [m_content set_content set_agentResponses m_chatterEvents
             m_agentResponses unwrap_or];
        rewrite ?Hr; cbn [unwrap_or]; repeat split; try reflexivity.
      * destruct (exists_last (l := r :: rs)) as (init & z & E);
          [discriminate|].
        rewrite E, append_to_last_snoc, !map_app. reflexivity.
      * apply joined_append_to_last.
    + (* agent_start *)
      eexists. split; [reflexivity|]. split; [exact Hs|]. split; [reflexivity|].
      cbn [m_content set_agentResponses m_chatterEvents m_agentResponses
           unwrap_or].
      rewrite !append_empty_r, !app_nil_r.
      split; [reflexivity|]. split; [reflexivity|]. split.
      * rewrite map_app. reflexivity.
      * unfold joined. rewrite map_app, join_app.
        cbn [List.map join fold_right ar_content].
        destruct (unwrap_or (m_agentResponses sm) []);
          rewrite ?append_empty_r; reflexivity.
    + (* agent_end *)
      exists sm. rewrite !append_empty_r, !app_nil_r.
      destruct (unwrap_or (m_agentResponses sm) []);
        rewrite ?append_empty_r; cbn; auto 10.
    + (* error *)
      exists sm. rewrite !append_empty_r, !app_nil_r.
      destruct (unwrap_or (m_agentResponses sm) []);
        rewrite ?append_empty_r; cbn; auto 10.
    + (* done without a session id, or in an existing session *)
      exists sm. rewrite !append_empty_r, !app_nil_r.
      destruct (session (view w)) as [s|];
        [destruct (JS.startsWith (s_title s) "Document:")|];
        destruct (unwrap_or (m_agentResponses sm) []);
        rewrite ?append_empty_r; cbn; auto 10.
    + (* chatter *)
      eexists. split; [reflexivity|]. split; [exact Hs|]. split; [reflexivity|].
      cbn [m_content set_chatterEvents m_chatterEvents m_agentResponses
           unwrap_or].
      rewrite !append_empty_r, !app_nil_r.
      destruct (unwrap_or (m_agentResponses sm) []);
        rewrite ?append_empty_r; repeat split; reflexivity.
Qed.

(** A whole stream and the transcript. *)
Lemma run_transcript request events b sm w :
  subscription w = Some b ->
  streamingMessage (view w) = Some sm ->
  exists sm',
    streamingMessage (view (run request (List.map Yield events) w)) = Some sm' /\
    m_content sm' = m_content sm +:+ join (List.map delta events) /\
    unwrap_or (m_chatterEvents sm') [] =
      unwrap_or (m_chatterEvents sm) [] ++
      List.map (chatter_entry (now w)) (List.filter is_chatter events) /\
    List.map ar_agentName (buffers sm') =
      List.map ar_agentName (buffers sm) ++
      List.map started_name (List.filter is_agent_start events) /\
    (buffers sm <> [] ->
     joined (buffers sm') =
       joined (buffers sm) +:+ join (List.map delta events)).
Proof.
  unfold run. revert sm w.
  induction events as [|c cs IH]; intros sm w Hs Hm.
  - exists sm. cbn. rewrite !append_empty_r, !app_nil_r. auto.
  - cbn [List.map fold_left occur].
    destruct (emit_view request c w) as (Ev & Es & En).
    destruct (next_transcript c b sm w Hs Hm)
      as (sm1 & H1 & H2 & H3 & H4 & H5 & H6 & H7).
    rewrite <- Ev in H1. rewrite <- Es in H2. rewrite <- En in H3.
    destruct (IH sm1 (emit request c w) H2 H1)
      as (sm' & G1 & G2 & G3 & G4 & G5).
    exists sm'. split; [exact G1|]. split; [|split; [|split]].
    + rewrite G2, H4. cbn [join fold_right]. fold (join (List.map delta cs)).
      apply append_assoc3.
    + rewrite G3, H5, H3, <- app_assoc. f_equal.
      cbn [List.filter]. destruct (is_chatter c); reflexivity.
    + rewrite G4, H6, <- app_assoc. f_equal.
      cbn [List.filter]. destruct (is_agent_start c); reflexivity.
    + intros Hne.
      assert (Hne1 : buffers sm1 <> []).
      { intros E. rewrite E in H6. cbn [List.map] in H6.
        destruct (buffers sm); [contradiction|].
        destruct (is_agent_start c); discriminate. }
      rewrite (G5 Hne1), H7. cbn [join fold_right].
      fold (join (List.map delta cs)).
      destruct (buffers sm); [contradiction|]. apply append_assoc3.
Qed.

(** X11. The aggregate buffer is the concatenation of the content deltas:
    after any records at all, of any kinds and in any order, the content
    of the transcript is what it was, followed by the texts of the content
    records in the order of their arrival; no other record adds to it and
    no record removes from it. *)
Theorem aggregate_is_concatenation request events b sm w :
  subscription w = Some b ->
  streamingMessage (view w) = Some sm ->
  exists sm',
    streamingMessage (view (run request (List.map Yield events) w)) = Some sm' /\
    m_content sm' = m_content sm +:+ join (List.map delta events).
Proof.
  intros Hs Hm.
  destruct (run_transcript request events b sm w Hs Hm) as (sm' & A & B & _).
  exists sm'. auto.
Qed.

(** X12. The chatter list only grows, in the order of arrival: after any
    records, it is what it was, followed by one entry for each chatter
    record, in order, none left out for being equal to another. *)
Theorem chatter_in_arrival_order request events b sm w :
  subscription w = Some b ->
  streamingMessage (view w) = Some sm ->
  exists sm',
    streamingMessage (view (run request (List.map Yield events) w)) = Some sm' /\
    unwrap_or (m_chatterEvents sm') [] =
      unwrap_or (m_chatterEvents sm) [] ++
      List.map (chatter_entry (now w)) (List.filter is_chatter events).
Proof.
  intros Hs Hm.
  destruct (run_transcript request events b sm w Hs Hm)
    as (sm' & A & _ & B & _).
  exists sm'. auto.
Qed.

(** X13. One buffer for each agent_start record: after any records, the
    names of the per-agent buffers are those from before, followed by the
    names of the agent_start records in order, an agent that starts twice
    having two buffers. *)
Theorem buffers_in_start_order request events b sm w :
  subscription w = Some b ->
  streamingMessage (view w) = Some sm ->
  exists sm',
    streamingMessage (view (run request (List.map Yield events) w)) = Some sm' /\
    List.map ar_agentName (buffers sm') =
      List.map ar_agentName (buffers sm) ++
      List.map started_name (List.filter is_agent_start events).
Proof.
  intros Hs Hm.
  destruct (run_transcript request events b sm w Hs Hm)
    as (sm' & A & _ & _ & B & _).
  exists sm'. auto.
Qed.

(** X14. Once an agent has started, no content is lost between the
    buffers: the per-agent buffers put end to end grow by exactly the
    deltas that arrive, as the aggregate buffer does. *)
Theorem buffers_track_aggregate request events b sm w :
  subscription w = Some b ->
  streamingMessage (view w) = Some sm ->
  buffers sm <> [] ->
  exists sm',
    streamingMessage (view (run request (List.map Yield events) w)) = Some sm' /\
    joined (buffers sm') = joined (buffers sm) +:+ join (List.map delta events) /\
    m_content sm' = m_content sm +:+ join (List.map delta events).
Proof.
  intros Hs Hm Hne.
  destruct (run_transcript request events b sm w Hs Hm)
    as (sm' & A & B & _ & _ & C).
  exists sm'. auto.
Qed.

End TranscriptFacts.

(** ** After the resolution: the redirect and the hand-over of messages *)

Section AfterResolution.
Import ChatComponent Turn Transcript.

Lemma on_service_fixed f w : f (service w) = service w -> on_service f w = w.
Proof. intros H. destruct w. unfold on_service. cbn in *. rewrite H. reflexivity. Qed.

(** The messages that the done record hands to the service. *)
Let to_cache (w : World) : list DisplayMessage :=
  messages (view w) ++
  match streamingMessage (view w) with
  | Some sm => [set_isStreaming (Some false) sm]
  | None => []
  end.

(** The whole effect of the done record of a new-session turn. *)
Lemma emit_done_world request p sid w :
  subscription w = Some true ->
  currentPendingId (view w) = Some p ->
  rq_pendingSessionId request = Some p ->
  JS.truthy (Some p) = true ->
  JS.truthy (Some sid) = true ->
  emit request (done_chunk (Some sid)) w =
  let w1 :=
    on_view (set_currentPendingId None)
      (on_service
         (SessionStateService.completeNewSession p sid (to_cache w)) w) in
  if negb (JS.truthy (sessionId (view w)))
     || JS.startsWith (JS.or_else (sessionId (view w)) "") "pending-"
  then navigate sid (on_view (set_sessionId (Some sid)) w1)
  else w1.
Proof.
  intros Hs Hc Hr Hp Hsid. subst to_cache. cbv zeta beta.
  unfold emit, ChatService.emit.
  cbn [type done_chunk session_id ChatService.is_done andb].
  rewrite Hr, Hp, Hsid. cbn [andb].
  rewrite !or_else_truthy by assumption.
  unfold newSessionCompleteCallbacks. cbn [fold_left].
  unfold sessionStateCallback, subscriber_next. rewrite Hs.
  unfold handleStreamChunk.
  cbn [type done_chunk session_id ChatService.is_done andb].
  rewrite Hsid, Hc, Hp. cbn [andb]. rewrite !or_else_truthy by assumption.
  cbv zeta. cbn [view on_view on_service set_currentPendingId sessionId].
  apply on_service_fixed.
  destruct (negb (JS.truthy (sessionId (view w))) || _);
    cbn [service on_service on_view navigate];
    apply SessionStateService_handle_after_complete.
Qed.

(** X15. A view that comes to the pending-id route after the resolution is
    sent on.  When the done record of a new-session turn has been handled,
    any live view (the old one, or the new one that the router created)
    that receives the pending id as its route parameter navigates to the
    real id and removes the mapping, whatever it was showing before. *)
Theorem late_visitor_is_redirected request p sid w v :
  subscription w = Some true ->
  currentPendingId (view w) = Some p ->
  rq_pendingSessionId request = Some p ->
  JS.startsWith p "pending-" = true ->
  SessionStateService.hasActiveStream p (service w) = true ->
  JS.truthy (Some sid) = true ->
  destroyed v = false ->
  let resolved := emit request (done_chunk (Some sid)) w in
  let arrived := onRouteParams (Some p) (on_view (fun _ => v) resolved) in
  navigations arrived = navigations resolved ++ [sid] /\
  SessionStateService.getRealSessionId p (service resolved) = Some sid /\
  SessionStateService.getRealSessionId p (service arrived) = None /\
  sessionId (view arrived) = Some p.
Proof.
  intros Hs Hc Hr Hpre Ha Hsid Hv. cbv zeta.
  assert (Hp : JS.truthy (Some p) = true)
    by (destruct p; [discriminate | reflexivity]).
  rewrite (emit_done_world request p sid w) by assumption. cbv zeta.
  match goal with
  | |- context [onRouteParams _ (on_view _ ?r)] => set (resolved := r)
  end.
  assert (Hsvc : service resolved =
                 SessionStateService.completeNewSession p sid (to_cache w)
                   (service w)).
  { subst resolved. destruct (negb _ || _); reflexivity. }
  assert (Hmap : SessionStateService.getRealSessionId p (service resolved)
                 = Some sid).
  { rewrite Hsvc, completeNewSession_active by assumption.
    unfold SessionStateService.getRealSessionId. cbn. apply lookup_insert_eq. }
  unfold onRouteParams. cbn [view on_view destroyed]. rewrite Hv.
  cbv zeta.
  match goal with
  | |- context [on_view (set_sessionId (Some p)) ?y] =>
      set (x := on_view (set_sessionId (Some p)) y)
  end.
  assert (Hx : sessionId (view x) = Some p /\
               service x = service resolved /\
               navigations x = navigations resolved).
  { subst x. destruct (bool_decide _); cbn; auto. }
  destruct Hx as (Hx1 & Hx2 & Hx3). rewrite Hp.
  assert (Hl : loadSession x =
               navigate sid
                 (on_service
                    (SessionStateService.clearPendingMapping p) x)).
  { unfold loadSession. rewrite Hx1, Hp. cbn [negb].
    rewrite (or_else_truthy _ Hp), Hpre, Hx2, Hmap, Hsid.
    rewrite (or_else_truthy _ Hsid). reflexivity. }
  rewrite Hl. cbn [navigations navigate on_service service view].
  rewrite Hx3. split; [reflexivity|]. split; [exact Hmap|]. split.
  - unfold SessionStateService.getRealSessionId. cbn. apply lookup_delete_eq.
  - exact Hx1.
Qed.

(** X16. The messages of the turn survive the navigation.  When the done
    record of a new-session turn has been handled, a live view that
    receives the real id as its route parameter shows at once the messages
    that were on display together with the transcript, finalized; it asks
    the backend for the session only, not for its messages; and the cache
    entry is used up. *)
Theorem messages_survive_navigation request p sid w sm v :
  subscription w = Some true ->
  currentPendingId (view w) = Some p ->
  rq_pendingSessionId request = Some p ->
  JS.truthy (Some p) = true ->
  SessionStateService.hasActiveStream p (service w) = true ->
  JS.truthy (Some sid) = true ->
  JS.startsWith sid "pending-" = false ->
  streamingMessage (view w) = Some sm ->
  destroyed v = false ->
  let resolved := emit request (done_chunk (Some sid)) w in
  let arrived := onRouteParams (Some sid) (on_view (fun _ => v) resolved) in
  messages (view arrived) =
    messages (view w) ++ [set_isStreaming (Some false) sm] /\
  isLoading (view arrived) = false /\
  requests arrived = requests resolved ++ [GetSession sid] /\
  SessionStateService.cachedMessages (service arrived) !! sid = None.
Proof.
  intros Hs Hc Hr Hp Ha Hsid Hreal Hsm Hv. cbv zeta.
  rewrite (emit_done_world request p sid w) by assumption. cbv zeta.
  match goal with
  | |- context [onRouteParams _ (on_view _ ?r)] => set (resolved := r)
  end.
  assert (Hcache : to_cache w =
                   messages (view w) ++ [set_isStreaming (Some false) sm])
    by (subst to_cache; cbv beta; rewrite Hsm; reflexivity).
  assert (Hsvc : service resolved =
                 SessionStateService.completeNewSession p sid (to_cache w)
                   (service w)).
  { subst resolved. destruct (negb _ || _); reflexivity. }
  assert (Hlook : SessionStateService.cachedMessages (service resolved) !! sid
                  = Some (messages (view w)
                          ++ [set_isStreaming (Some false) sm])).
  { rewrite Hsvc, completeNewSession_active by assumption.
    rewrite Hcache. cbn [SessionStateService.cachedMessages].
    rewrite length_app. cbn [List.length].
    replace (0 <? List.length (messages (view w)) + 1)%nat with true
      by (symmetry; apply Nat.ltb_lt; lia).
    apply lookup_insert_eq. }
  unfold onRouteParams. cbn [view on_view destroyed]. rewrite Hv.
  cbv zeta.
  match goal with
  | |- context [on_view (set_sessionId (Some sid)) ?y] =>
      set (x := on_view (set_sessionId (Some sid)) y)
  end.
  assert (Hx : sessionId (view x) = Some sid /\
               service x = service resolved /\
               requests x = requests resolved).
  { subst x. destruct (bool_decide _); cbn; auto. }
  destruct Hx as (Hx1 & Hx2 & Hx3). clearbody x. rewrite Hsid.
  unfold loadSession. rewrite Hx1, Hsid. cbn [negb].
  rewrite (or_else_truthy _ Hsid), Hreal.
  unfold SessionStateService.popCachedMessages. rewrite Hx2, Hlook.
  destruct (messages (view w) ++ [set_isStreaming (Some false) sm])
    as [|m ms] eqn:E.
  { destruct (messages (view w)); discriminate. }
  cbn. rewrite Hx3. repeat split. apply lookup_delete_eq.
Qed.

End AfterResolution.

(** ** A done record without a session id *)

Section DoneWithoutId.
Import ChatComponent Turn Transcript.

Lemma next_done_plain_keeps w :
  let w' := subscriber_next (done_chunk None) w in
  subscription w' = subscription w /\
  navigations w' = navigations w /\
  SessionStateService.pendingSession (service w') =
    SessionStateService.pendingSession (service w) /\
  SessionStateService.activeNewSessionStreams (service w') =
    SessionStateService.activeNewSessionStreams (service w) /\
  SessionStateService.pendingToRealMap (service w') =
    SessionStateService.pendingToRealMap (service w).
Proof.
  cbv zeta. unfold subscriber_next.
  destruct (subscription w) as [b|] eqn:Hs; [|auto 10].
  unfold handleStreamChunk.
  cbn [type done_chunk session_id ChatService.is_done andb JS.truthy].
  rewrite andb_false_r.
  destruct (streamingMessage (view w)) as [sm|]; [|auto 10].
  destruct (session (view w)) as [s|];
    [destruct (JS.startsWith (s_title s) "Document:")|]; cbn; auto 10.
Qed.

(** X17. A new-session turn whose done record carries no session id is not
    resolved: after records that are not done records, such a done record
    and the end of the stream, the turn is over for the view (sending has
    stopped, the transcript is a message, the stream is unsubscribed), yet
    the Pending Session Slot still holds the descriptor of the turn, the
    pending id is still registered, no mapping was recorded, and the view
    has not navigated. *)
Theorem done_without_id_resolves_nothing content w0 events :
  submitted content w0 ->
  JS.truthy (sessionId (view w0)) = false ->
  Forall (fun c => ChatService.is_done (type c) = false) events ->
  let w :=
    turn content
      (List.map Yield events ++ [Yield (done_chunk None); StreamEnds]) w0 in
  (exists d,
     SessionStateService.pendingSession (service w) = Some d /\
     s_id d = pending_id w0) /\
  SessionStateService.hasActiveStream (pending_id w0) (service w) = true /\
  SessionStateService.pendingToRealMap (service w) =
    SessionStateService.pendingToRealMap (service w0) /\
  navigations w = navigations w0 /\
  isSending (view w) = false /\
  streamingMessage (view w) = None /\
  subscription w = None.
Proof.
  intros Hsub Hnew Hev. cbv zeta.
  destruct (sendMessage_effect content w0 Hsub)
    as (w1 & request & Hsend & _ & _ & _ & _ & _ & Hs & Hnav & _ & _ & _ & _
        & _ & Hn).
  destruct (Hn Hnew) as (Hsvc & _ & _). rewrite Hnew in Hs. cbn [negb] in Hs.
  unfold turn. rewrite Hsend.
  unfold run. rewrite fold_left_app. cbn [fold_left occur].
  fold (run request (List.map Yield events) w1).
  destruct (run_records_keep request events w1 Hev) as (A & B & _ & _ & _ & F).
  set (w2 := run request (List.map Yield events) w1) in *. clearbody w2.
  rewrite emit_quiet by reflexivity.
  destruct (next_done_plain_keeps w2) as (P1 & P2 & P3 & P4 & P5).
  set (w3 := subscriber_next (done_chunk None) w2) in *. clearbody w3.
  unfold subscriber_complete. rewrite P1, B, Hs.
  unfold on_stream_complete. cbv zeta.
  cbn [view on_view set_isSending streamingMessage].
  assert (Hfinal :
    forall x,
      service x = service w3 -> navigations x = navigations w3 ->
      isSending (view x) = false -> streamingMessage (view x) = None ->
      (exists d, SessionStateService.pendingSession (service x) = Some d /\
                 s_id d = pending_id w0) /\
      SessionStateService.hasActiveStream (pending_id w0) (service x) = true /\
      SessionStateService.pendingToRealMap (service x) =
        SessionStateService.pendingToRealMap (service w0) /\
      navigations x = navigations w0 /\ isSending (view x) = false /\
      streamingMessage (view x) = None).
  { intros x Hx1 Hx2 Hx3 Hx4.
    split; [|split; [|split; [|split; [|split]]]]; try assumption.
    - rewrite Hx1, P3, A, Hsvc. eexists. split; reflexivity.
    - unfold SessionStateService.hasActiveStream. rewrite Hx1, P4, A, Hsvc.
      apply bool_decide_eq_true. cbn. set_solver.
    - rewrite Hx1, P5, A, Hsvc. reflexivity.
    - rewrite Hx2, P2, F, Hnav. reflexivity. }
  destruct (streamingMessage (view w3)) as [sm|] eqn:E;
    cbn [subscription set_subscription];
    (edestruct Hfinal as (Q1 & Q2 & Q3 & Q4 & Q5 & Q6);
     [| | | |repeat split; eassumption]);
    first [reflexivity | exact E].
Qed.

End DoneWithoutId.

(** ** The selection of agents *)

Section SelectionFacts.
Import AgentSelection.

Lemma includes_app ids ids' x :
  includes (ids ++ ids') x = includes ids x || includes ids' x.
Proof. unfold includes. apply existsb_app. Qed.

Lemma includes_filter_other ids q x :
  x <> q ->
  includes (List.filter (fun id => negb (String.eqb id q)) ids) x =
  includes ids x.
Proof.
  intros Hx. unfold includes. induction ids as [|i ids IH]; [reflexivity|].
  cbn [List.filter existsb].
  destruct (String.eqb i q) eqn:E; cbn [negb existsb].
  - apply String.eqb_eq in E. subst i.
    replace (String.eqb x q) with false
      by (symmetry; apply String.eqb_neq; exact Hx).
    exact IH.
  - rewrite IH. reflexivity.
Qed.

Lemma includes_filter_self ids q :
  includes (List.filter (fun id => negb (String.eqb id q)) ids) q = false.
Proof.
  unfold includes. induction ids as [|i ids IH]; [reflexivity|].
  cbn [List.filter]. destruct (String.eqb i q) eqn:E; cbn [negb existsb].
  - exact IH.
  - rewrite String.eqb_sym, E, IH. reflexivity.
Qed.

Lemma filter_absent ids q :
  includes ids q = false ->
  List.filter (fun id => negb (String.eqb id q)) ids = ids.
Proof.
  unfold includes. induction ids as [|i ids IH]; [reflexivity|].
  cbn [existsb List.filter]. intros H. apply orb_false_elim in H as [H1 H2].
  rewrite String.eqb_sym, H1. cbn [negb]. f_equal. apply IH, H2.
Qed.

Lemma includes_single q x : includes [q] x = String.eqb x q.
Proof. unfold includes. cbn. apply orb_false_r. Qed.

(** X18. The orchestrator cannot be deselected: when the agent found under
    an id is an orchestrator and this id is selected, it is still selected
    after any sequence of toggles, of this id or of others. *)
Theorem orchestrator_stays_selected agents oid toggles selected :
  is_orchestrator_id agents oid = true ->
  includes selected oid = true ->
  includes
    (fold_left (fun ids q => toggleAgent agents q ids) toggles selected) oid
  = true.
Proof.
  unfold is_orchestrator_id. intros Ho.
  revert selected. induction toggles as [|q qs IH]; intros selected Hs.
  - exact Hs.
  - cbn [fold_left]. apply IH. unfold toggleAgent. cbv zeta.
    destruct (String.eqb q oid) eqn:E.
    + apply String.eqb_eq in E. subst q. rewrite Ho. exact Hs.
    + apply String.eqb_neq in E.
      destruct (match by_id agents q with
                | Some a => flag (a_is_orchestrator a)
                | None => false
                end); [exact Hs|].
      destruct (includes selected q).
      * rewrite includes_filter_other by congruence. exact Hs.
      * rewrite includes_app, Hs. reflexivity.
Qed.

(** X19. A toggle of an agent that is not an orchestrator flips whether
    its id is selected and nothing else; two toggles in a row give back a
    selection with the same ids, and the same list when the id was not
    selected to begin with. *)
Theorem toggle_flips_one_id agents q selected :
  is_orchestrator_id agents q = false ->
  let once := toggleAgent agents q selected in
  let twice := toggleAgent agents q once in
  includes once q = negb (includes selected q) /\
  (forall x, x <> q -> includes once x = includes selected x) /\
  (forall x, includes twice x = includes selected x) /\
  (includes selected q = false -> twice = selected).
Proof.
  unfold is_orchestrator_id. intros Ho. cbv zeta.
  assert (Hone : toggleAgent agents q selected =
                 if includes selected q
                 then List.filter (fun id => negb (String.eqb id q)) selected
                 else selected ++ [q]).
  { unfold toggleAgent. cbv zeta. rewrite Ho. reflexivity. }
  assert (Hq : includes (toggleAgent agents q selected) q
               = negb (includes selected q)).
  { rewrite Hone. destruct (includes selected q) eqn:E; cbn [negb].
    - apply includes_filter_self.
    - rewrite includes_app, E, includes_single, String.eqb_refl. reflexivity. }
  assert (Hx : forall x, x <> q ->
               includes (toggleAgent agents q selected) x = includes selected x).
  { intros x Hne. rewrite Hone. destruct (includes selected q).
    - apply includes_filter_other, Hne.
    - rewrite includes_app, includes_single.
      replace (String.eqb x q) with false
        by (symmetry; apply String.eqb_neq; exact Hne).
      apply orb_false_r. }
  assert (Htwo : toggleAgent agents q (toggleAgent agents q selected) =
                 if includes (toggleAgent agents q selected) q
                 then List.filter (fun id => negb (String.eqb id q))
                        (toggleAgent agents q selected)
                 else toggleAgent agents q selected ++ [q]).
  { unfold toggleAgent at 1. cbv zeta. rewrite Ho. reflexivity. }
  split; [exact Hq|]. split; [exact Hx|]. split.
  - intros x. rewrite Htwo, Hq.
    destruct (String.eqb x q) eqn:E.
    + apply String.eqb_eq in E. subst x.
      destruct (includes selected q) eqn:Es; cbn [negb].
      * rewrite includes_app, includes_single, String.eqb_refl.
        apply orb_true_r.
      * apply includes_filter_self.
    + apply String.eqb_neq in E.
      destruct (includes selected q); cbn [negb].
      * rewrite includes_app, includes_single, (Hx x E).
        replace (String.eqb x q) with false
          by (symmetry; apply String.eqb_neq; exact E).
        apply orb_false_r.
      * rewrite includes_filter_other by exact E. apply Hx, E.
  - intros Hs. rewrite Htwo, Hq, Hs. cbn [negb]. rewrite Hone, Hs.
    rewrite List.filter_app. cbn [List.filter]. rewrite String.eqb_refl.
    cbn [negb]. rewrite app_nil_r. apply filter_absent, Hs.
Qed.

(** X20. [ensureOrchestratorSelected] adds the id of the first orchestrator
    when it has one and it is not selected, in front, and does nothing
    else: afterwards this id is selected, every id that was selected still
    is, and a second call changes nothing. *)
Theorem orchestrator_ensured agents selected :
  let ensured := ensureOrchestratorSelected agents selected in
  ensureOrchestratorSelected agents ensured = ensured /\
  (forall x, includes selected x = true -> includes ensured x = true) /\
  (forall o id,
     orchestrator agents = Some o -> a_id o = Some id ->
     JS.truthy (Some id) = true ->
     includes ensured id = true) /\
  (orchestrator agents = None -> ensured = selected).
Proof.
  cbv zeta.
  destruct (orchestrator agents) as [o|] eqn:Ho.
  2:{ unfold ensureOrchestratorSelected. rewrite Ho.
      split; [reflexivity|]. split; [auto|]. split; [discriminate|auto]. }
  destruct (JS.truthy (a_id o)) eqn:Ht.
  2:{ unfold ensureOrchestratorSelected. rewrite Ho, Ht. cbn [andb].
      split; [reflexivity|]. split; [auto|]. split; [|discriminate].
      intros o' id E Hid Hid'. injection E as <-. rewrite Hid in Ht.
      congruence. }
  set (oid := JS.or_else (a_id o) "").
  assert (Hoid : forall id, a_id o = Some id -> id = oid).
  { intros id Hid. subst oid. rewrite Hid. symmetry.
    apply or_else_truthy. rewrite <- Hid. exact Ht. }
  destruct (includes selected oid) eqn:Hi.
  - assert (E : ensureOrchestratorSelected agents selected = selected).
    { unfold ensureOrchestratorSelected. rewrite Ho, Ht. fold oid.
      rewrite Hi. reflexivity. }
    rewrite !E. split; [reflexivity|]. split; [auto|]. split; [|discriminate].
    intros o' id Eo Hid _. injection Eo as <-.
    rewrite (Hoid id Hid). exact Hi.
  - assert (E : ensureOrchestratorSelected agents selected = oid :: selected).
    { unfold ensureOrchestratorSelected. rewrite Ho, Ht. fold oid.
      rewrite Hi. reflexivity. }
    assert (Hin : includes (oid :: selected) oid = true).
    { unfold includes. cbn [existsb]. rewrite String.eqb_refl. reflexivity. }
    rewrite !E. split; [|split; [|split; [|discriminate]]].
    + unfold ensureOrchestratorSelected. rewrite Ho, Ht. fold oid.
      rewrite Hin. reflexivity.
    + intros x Hx. unfold includes in *. cbn [existsb]. rewrite Hx.
      apply orb_true_r.
    + intros o' id Eo Hid _. injection Eo as <-.
      rewrite (Hoid id Hid). exact Hin.
Qed.

End SelectionFacts.

(** ** From the input field to the turn *)

Section InputFacts.
Import ChatInput.

Lemma trim_right_cons c s :
  JS.is_space c = false -> trim_right (String c s) = String c (trim_right s).
Proof. intros H. cbn [trim_right]. rewrite H. destruct (trim_right s); reflexivity. Qed.

Lemma trim_right_idempotent s : trim_right (trim_right s) = trim_right s.
Proof.
  induction s as [|c s IH]; [reflexivity|].
  cbn [trim_right]. destruct (trim_right s) as [|c' t] eqn:E.
  - destruct (JS.is_space c) eqn:Hc; [reflexivity|].
    cbn [trim_right]. rewrite Hc. reflexivity.
  - try rewrite E in IH.
    change (trim_right (String c (String c' t)))
      with (match trim_right (String c' t) with
            | EmptyString => if JS.is_space c then EmptyString else String c ""
            | u => String c u
            end).
    rewrite IH. reflexivity.
Qed.

Lemma trim_left_starts s :
  trim_left s = "" /\ JS.blank s = true \/
  exists c r, trim_left s = String c r /\ JS.is_space c = false
              /\ JS.blank s = false.
Proof.
  induction s as [|c s IH]; [left; auto|].
  cbn [trim_left JS.blank]. destruct (JS.is_space c) eqn:Hc; cbn [andb].
  - exact IH.
  - right. exists c, s. auto.
Qed.

(** Nothing is left after [trim] exactly for the texts that [sendMessage]
    of the chat view takes for blank. *)
Lemma trim_empty_iff_blank s : trim s = "" <-> JS.blank s = true.
Proof.
  unfold trim. destruct (trim_left_starts s) as [[E B]|(c & r & E & Hc & B)].
  - rewrite E, B. split; reflexivity.
  - rewrite E, B, trim_right_cons by assumption. split; discriminate.
Qed.

Lemma trim_idempotent s : trim (trim s) = trim s.
Proof.
  unfold trim at 2 3.
  destruct (trim_left_starts s) as [[E B]|(c & r & E & Hc & B)].
  - rewrite E. reflexivity.
  - rewrite E, trim_right_cons by assumption. unfold trim.
    cbn [trim_left]. rewrite Hc.
    rewrite <- (trim_right_cons c r Hc). apply trim_right_idempotent.
Qed.

(** X21. What the input field emits, the chat view accepts.  With the
    field disabled while the view is sending, as the template binds it, a
    message is emitted exactly when the text is not blank and the view is
    not sending; the text emitted is the text without the white space at
    its ends, it is not blank, and [sendMessage] of the view goes through
    with it and puts it in the request as it is.  Otherwise nothing is
    emitted and the field keeps its text. *)
Theorem input_feeds_turn text w :
  let field :=
    {| disabled := ChatComponent.isSending (ChatComponent.view w);
       message := text |} in
  match sendMessage field with
  | (Some content, field') =>
      content = trim text /\
      trim content = content /\
      JS.blank content = false /\
      message field' = "" /\
      exists w1 request,
        ChatComponent.sendMessage content w = (w1, Some request) /\
        rq_message request = content
  | (None, field') =>
      field' = field /\
      (JS.blank text = true \/
       ChatComponent.isSending (ChatComponent.view w) = true)
  end.
Proof.
  cbv zeta. unfold sendMessage. cbn [message disabled].
  destruct (JS.truthy (Some (trim text))) eqn:Ht.
  - assert (Hb : JS.blank (trim text) = false).
    { destruct (JS.blank (trim text)) eqn:B; [|reflexivity].
      apply trim_empty_iff_blank in B. rewrite trim_idempotent in B.
      rewrite B in Ht. discriminate. }
    destruct (ChatComponent.isSending (ChatComponent.view w)) eqn:Hs;
      cbn [andb negb].
    + split; [reflexivity|]. right. reflexivity.
    + split; [reflexivity|]. split; [apply trim_idempotent|].
      split; [exact Hb|]. split; [reflexivity|].
      destruct (sendMessage_effect (trim text) w (conj Hb Hs))
        as (w1 & request & Hsend & _ & _ & _ & _ & _ & _ & _ & _ & _ & Hm & _).
      exists w1, request. auto.
  - cbn [andb]. split; [reflexivity|]. left.
    apply trim_empty_iff_blank. destruct (trim text); [reflexivity|discriminate].
Qed.

End InputFacts.

(** ** The activity feed *)

Section ActivityFacts.
Import MessageView.

Lemma lower_char_plain c :
  Ascii.eqb c underscore = false ->
  negb (Ascii.eqb (lower_char c) underscore) && negb (is_AZ (lower_char c))
  = true.
Proof.
  destruct c as [b0 b1 b2 b3 b4 b5 b6 b7].
  destruct b0, b1, b2, b3, b4, b5, b6, b7; vm_compute; intros H;
    first [reflexivity | discriminate].
Qed.

Lemma lower_char_idempotent c : lower_char (lower_char c) = lower_char c.
Proof.
  destruct c as [b0 b1 b2 b3 b4 b5 b6 b7].
  destruct b0, b1, b2, b3, b4, b5, b6, b7; vm_compute; reflexivity.
Qed.

Lemma plain_char_fixed c :
  negb (Ascii.eqb c underscore) && negb (is_AZ c) = true ->
  (if Ascii.eqb c underscore then space else c) = c /\ is_AZ c = false.
Proof.
  intros H. apply andb_prop in H as [H1 H2].
  apply negb_true_iff in H1, H2. rewrite H1. auto.
Qed.

Lemma no_underscore_spaces s : no_underscore (spaces_for_underscores s) = true.
Proof.
  induction s as [|c s IH]; [reflexivity|].
  cbn [spaces_for_underscores no_underscore]. rewrite IH.
  destruct (Ascii.eqb c underscore) eqn:E; [reflexivity|].
  rewrite E. reflexivity.
Qed.

Lemma split_camel_cons2 c c2 s :
  split_camel (String c (String c2 s)) =
  if is_az c && is_AZ c2
  then String c (String space (String c2 (split_camel s)))
  else String c (split_camel (String c2 s)).
Proof. reflexivity. Qed.

Lemma no_underscore_camel s :
  no_underscore s = true -> no_underscore (split_camel s) = true.
Proof.
  induction s as [|c|c c2 s IH1 IH2] using string_ind2; try (intros; assumption).
  intros H. rewrite split_camel_cons2.
  change (no_underscore (String c (String c2 s)))
    with (negb (Ascii.eqb c underscore)
          && (negb (Ascii.eqb c2 underscore) && no_underscore s)) in H.
  apply andb_prop in H as [Hc H]. pose proof H as H'.
  apply andb_prop in H as [Hc2 Hs].
  destruct (is_az c && is_AZ c2).
  - cbn [no_underscore]. rewrite Hc, Hc2, (IH1 Hs). reflexivity.
  - cbn [no_underscore]. rewrite Hc. apply IH2. exact H'.
Qed.

Lemma plain_lower s : no_underscore s = true -> plain (toLowerCase s) = true.
Proof.
  induction s as [|c s IH]; [reflexivity|].
  cbn [no_underscore toLowerCase plain]. intros H.
  apply andb_prop in H as [Hc Hs]. apply negb_true_iff in Hc.
  rewrite (lower_char_plain c Hc), (IH Hs). reflexivity.
Qed.

Lemma plain_spaces_fixed s : plain s = true -> spaces_for_underscores s = s.
Proof.
  induction s as [|c s IH]; [reflexivity|].
  cbn [plain spaces_for_underscores]. intros H.
  apply andb_prop in H as [Hc Hs].
  destruct (plain_char_fixed c Hc) as [E _]. rewrite E, (IH Hs). reflexivity.
Qed.

Lemma plain_camel_fixed s : plain s = true -> split_camel s = s.
Proof.
  induction s as [|c|c c2 s IH1 IH2] using string_ind2; try reflexivity.
  intros H. rewrite split_camel_cons2.
  change (plain (String c (String c2 s)))
    with (negb (Ascii.eqb c underscore) && negb (is_AZ c)
          && plain (String c2 s)) in H.
  apply andb_prop in H as [Hc Hs]. pose proof Hs as Hs'.
  cbn [plain] in Hs. apply andb_prop in Hs as [Hc2 _].
  destruct (plain_char_fixed c2 Hc2) as [_ E2]. rewrite E2, andb_false_r.
  rewrite (IH2 Hs'). reflexivity.
Qed.

Lemma toLowerCase_idempotent s : toLowerCase (toLowerCase s) = toLowerCase s.
Proof.
  induction s as [|c s IH]; [reflexivity|].
  cbn [toLowerCase]. rewrite lower_char_idempotent, IH. reflexivity.
Qed.

(** X22. A tool name is shown without underscores and without capital
    letters, and showing is idempotent: the name made readable is left as
    it is when made readable again. *)
Theorem humanized_names_are_plain toolName :
  plain (humanizeToolName toolName) = true /\
  humanizeToolName (humanizeToolName toolName) = humanizeToolName toolName.
Proof.
  assert (Hp : plain (humanizeToolName toolName) = true).
  { unfold humanizeToolName. apply plain_lower, no_underscore_camel,
      no_underscore_spaces. }
  split; [exact Hp|].
  unfold humanizeToolName at 1.
  rewrite (plain_spaces_fixed _ Hp), (plain_camel_fixed _ Hp).
  unfold humanizeToolName. apply toLowerCase_idempotent.
Qed.

(** X23. The activity feed never shows an empty line: for every chatter
    entry, whatever its kind and whether or not it has a friendly message,
    a tool name or a content, the message of the feed is not the empty
    text; and when the entry has a friendly message that is not empty, the
    feed shows it as it is. *)
Theorem activity_message_never_empty event :
  getActivityMessage event <> "" /\
  (forall friendly,
     ce_friendlyMessage event = Some friendly -> friendly <> "" ->
     getActivityMessage event = friendly).
Proof.
  split.
  - unfold getActivityMessage.
    destruct (ce_friendlyMessage event) as [[|c f]|]; cbn [JS.truthy JS.or_else];
      try discriminate;
      destruct (ce_type event); try discriminate;
      try (destruct (ce_toolName event) as [[|c' t]|]; cbn; discriminate);
      destruct (ce_content event); cbn; discriminate.
  - intros friendly H Hne. unfold getActivityMessage. rewrite H.
    destruct friendly; [contradiction|reflexivity].
Qed.

End ActivityFacts.

(** ** Uploads *)

Section UploadFacts.
Import Upload.

Lemma split_dot_no_dot s : no_dot s = true -> split_dot s = [s].
Proof.
  induction s as [|c s IH]; [reflexivity|].
  cbn [no_dot split_dot]. intros H. apply andb_prop in H as [Hc Hs].
  apply negb_true_iff in Hc. rewrite Hc, (IH Hs). reflexivity.
Qed.

Lemma split_dot_last base ext :
  no_dot ext = true ->
  exists x front,
    split_dot (base +:+ String dot ext) = (x :: front) ++ [ext].
Proof.
  intros He. induction base as [|c base (x & front & IH)].
  - exists "", [].
    change (split_dot ("" +:+ String dot ext)) with ("" :: split_dot ext).
    rewrite split_dot_no_dot by assumption. reflexivity.
  - change (String c base +:+ String dot ext)
      with (String c (base +:+ String dot ext)).
    cbn [split_dot]. rewrite IH.
    destruct (Ascii.eqb c dot).
    + exists "", (x :: front). reflexivity.
    + exists (String c x), front. reflexivity.
Qed.

Lemma pop_snoc {A} (l : list A) (z : A) : JS.pop (l ++ [z]) = (Some z, l).
Proof.
  induction l as [|y l IH]; [reflexivity|].
  cbn [app]. destruct (l ++ [z]) as [|y' l'] eqn:E.
  - destruct l; discriminate.
  - rewrite pop_cons2, IH. reflexivity.
Qed.

Lemma or_else_lower s :
  JS.or_else (Some (MessageView.toLowerCase s)) "" = MessageView.toLowerCase s.
Proof. destruct s; reflexivity. Qed.

(** X24. The file type is read off the end of the name, whatever the
    case: the extension of a name is the text after its last dot, in lower
    case; a name that ends with a dot has the empty extension; and a name
    without any dot is its own extension. *)
Theorem extension_after_last_dot :
  (forall base ext,
     no_dot ext = true ->
     extension (base +:+ String dot ext) = MessageView.toLowerCase ext) /\
  (forall name,
     no_dot name = true -> extension name = MessageView.toLowerCase name).
Proof.
  split.
  - intros base ext He. unfold extension.
    destruct (split_dot_last base ext He) as (x & front & E).
    rewrite E, pop_snoc. cbn [fst option_map]. apply or_else_lower.
  - intros name Hn. unfold extension.
    rewrite split_dot_no_dot by assumption. cbn [JS.pop fst option_map].
    apply or_else_lower.
Qed.

(** X25. What an upload may start.  A file starts a request exactly when
    it has at most 10 MiB and its extension is one of txt, md, pdf, json
    and csv; a file that is refused starts nothing, gets an error message
    and leaves the file being uploaded as it is.  A file that is accepted
    starts exactly one request and clears the error: on the new-chat route
    or on a pending-id route the creation of a session whose title starts
    with [Document:], and otherwise the upload into the session of the
    route.  A document is never uploaded into a pending id. *)
Theorem upload_requests file sessionId orchestrationType selected u :
  let accepted :=
    (f_size file <=? maxSize)%Z
    && AgentSelection.includes allowedTypes (extension (f_name file)) in
  let result :=
    handleFileUpload file sessionId orchestrationType selected u in
  (accepted = false ->
   snd result = [] /\
   uploadingFile (fst result) = uploadingFile u /\
   exists message, uploadError (fst result) = Some message) /\
  (accepted = true ->
   uploadError (fst result) = None /\
   uploadingFile (fst result) = Some (f_name file) /\
   exists call,
     snd result = [call] /\
     match call with
     | CreateSession title _ _ =>
         JS.startsWith title "Document:" = true /\
         (sessionId = None \/ sessionId = Some "" \/
          exists p, sessionId = Some p /\ JS.startsWith p "pending-" = true)
     | UploadDocument name sid =>
         name = f_name file /\ sessionId = Some sid /\ sid <> "" /\
         JS.startsWith sid "pending-" = false
     end).
Proof.
  cbv zeta. unfold handleFileUpload.
  rewrite Z.leb_antisym.
  destruct (maxSize <? f_size file)%Z; cbn [negb andb fst snd].
  - split; [|discriminate]. intros _. cbn. eauto.
  - destruct (AgentSelection.includes allowedTypes (extension (f_name file)));
      cbn [negb].
    2:{ split; [|discriminate]. intros _. cbn. eauto. }
    split; [discriminate|]. intros _.
    destruct sessionId as [[|c sid]|]; cbn [JS.truthy negb orb JS.or_else].
    + cbn. split; [reflexivity|]. split; [reflexivity|].
      eexists. split; [reflexivity|]. cbn. auto.
    + destruct (JS.startsWith (String c sid) "pending-") eqn:E;
        cbn [fst snd uploadError uploadingFile].
      * split; [reflexivity|]. split; [reflexivity|].
        eexists. split; [reflexivity|]. cbn.
        split; [reflexivity|]. right. right. eauto.
      * split; [reflexivity|]. split; [reflexivity|].
        eexists. split; [reflexivity|]. cbn [JS.or_else].
        split; [reflexivity|]. split; [reflexivity|].
        split; [discriminate|exact E].
    + cbn. split; [reflexivity|]. split; [reflexivity|].
      eexists. split; [reflexivity|]. cbn. auto.
Qed.

End UploadFacts.

(** ** The further properties at work *)

Lemma cache_hands_over_once_witness :
  fst (SessionStateService.popCachedMessages "S9"
         (SessionStateService.cacheMessages "S9" []
            SessionStateService.new)) = Some [].
Proof.
  exact (proj1 (cache_hands_over_once "S9" [] SessionStateService.new)).
Defined.

Lemma stream_failure_drops_turn_witness :
  ChatComponent.streamingMessage
    (ChatComponent.view
       (Turn.turn "Hello"
          (List.map Turn.Yield [Turn.content_chunk "par"]
           ++ [Turn.StreamFails])
          (Turn.start 1767225600000 "2026-01-01T00:00:00.000Z"))) = None.
Proof.
  refine (proj1 (stream_failure_drops_turn "Hello"
                   (Turn.start 1767225600000 "2026-01-01T00:00:00.000Z")
                   [Turn.content_chunk "par"] _ _ _)).
  - split; reflexivity.
  - reflexivity.
  - repeat constructor.
Defined.

Lemma submission_blocked_while_sending_witness :
  exists w1 request,
    ChatComponent.sendMessage "Hello"
      (Turn.start 1767225600000 "2026-01-01T00:00:00.000Z")
    = (w1, Some request) /\
    (forall content', ChatComponent.sendMessage content' w1 = (w1, None)) /\
    (forall content',
       JS.blank content' = false ->
       Turn.submitted content' (Turn.run request [Turn.StreamEnds] w1) /\
       Turn.submitted content' (Turn.run request [Turn.StreamFails] w1)).
Proof.
  apply (submission_blocked_while_sending "Hello"
           (Turn.start 1767225600000 "2026-01-01T00:00:00.000Z")).
  split; reflexivity.
Defined.

Lemma optimistic_title_bounded_witness :
  exists d,
    SessionStateService.pendingSession
      (ChatComponent.service
         (fst (ChatComponent.sendMessage
                 "Please summarise the quarterly report in detail"
                 (Turn.start 1767225600000 "2026-01-01T00:00:00.000Z"))))
    = Some d /\
    s_id d =
      Turn.pending_id (Turn.start 1767225600000 "2026-01-01T00:00:00.000Z") /\
    (String.length (s_title d) <= 33)%nat /\
    ((String.length "Please summarise the quarterly report in detail" <= 30)%nat
     -> s_title d = "Please summarise the quarterly report in detail") /\
    ((30 < String.length "Please summarise the quarterly report in detail")%nat
     -> s_title d =
        String.substring 0 30
          "Please summarise the quarterly report in detail" +:+ "...").
Proof.
  apply (optimistic_title_bounded
           "Please summarise the quarterly report in detail"
           (Turn.start 1767225600000 "2026-01-01T00:00:00.000Z")).
  - split; reflexivity.
  - reflexivity.
Defined.

Lemma existing_session_turn_ends_with_view_witness :
  exists w1 request,
    ChatComponent.sendMessage "Hello" Transcript.sample_existing
    = (w1, Some request) /\
    ChatComponent.service w1 = ChatComponent.service Transcript.sample_existing /\
    rq_sessionId request =
      ChatComponent.sessionId (ChatComponent.view Transcript.sample_existing) /\
    rq_pendingSessionId request = None /\
    let w2 := Turn.run request [Turn.ViewDestroyed] w1 in
    ChatComponent.streamingMessage (ChatComponent.view w2) = None /\
    ChatComponent.messages (ChatComponent.view w2) =
      ChatComponent.messages (ChatComponent.view Transcript.sample_existing) ++
      [Transcript.user_message "Hello" Transcript.sample_existing;
       ChatComponent.set_isStreaming (Some false)
         (Turn.fresh_transcript Transcript.sample_existing)] /\
    ChatComponent.isSending (ChatComponent.view w2) = false /\
    Turn.run request
      (List.map Turn.Yield
         [Turn.content_chunk "late"; Turn.done_chunk (Some "S1")]) w2 = w2.
Proof.
  apply (existing_session_turn_ends_with_view "Hello"
           Transcript.sample_existing
           [Turn.content_chunk "late"; Turn.done_chunk (Some "S1")]).
  - split; reflexivity.
  - reflexivity.
  - reflexivity.
Defined.

Lemma aggregate_is_concatenation_witness :
  exists sm',
    ChatComponent.streamingMessage
      (ChatComponent.view
         (Turn.run Transcript.sample_turn_request
            (List.map Turn.Yield Transcript.sample_records)
            Transcript.sample_world)) = Some sm' /\
    m_content sm' =
      m_content
        (Turn.fresh_transcript
           (Turn.start 1767225600000 "2026-01-01T00:00:00.000Z"))
      +:+ Transcript.join (List.map Transcript.delta Transcript.sample_records).
Proof.
  apply (aggregate_is_concatenation Transcript.sample_turn_request
           Transcript.sample_records true
           (Turn.fresh_transcript
              (Turn.start 1767225600000 "2026-01-01T00:00:00.000Z"))
           Transcript.sample_world).
  - vm_compute. reflexivity.
  - vm_compute. reflexivity.
Defined.

Lemma chatter_in_arrival_order_witness :
  exists sm',
    ChatComponent.streamingMessage
      (ChatComponent.view
         (Turn.run Transcript.sample_turn_request
            (List.map Turn.Yield Transcript.sample_records)
            Transcript.sample_world)) = Some sm' /\
    ChatComponent.unwrap_or (m_chatterEvents sm') [] =
      ChatComponent.unwrap_or
        (m_chatterEvents
           (Turn.fresh_transcript
              (Turn.start 1767225600000 "2026-01-01T00:00:00.000Z"))) [] ++
      List.map (Transcript.chatter_entry (ChatComponent.now Transcript.sample_world))
        (List.filter Transcript.is_chatter Transcript.sample_records).
Proof.
  apply (chatter_in_arrival_order Transcript.sample_turn_request
           Transcript.sample_records true
           (Turn.fresh_transcript
              (Turn.start 1767225600000 "2026-01-01T00:00:00.000Z"))
           Transcript.sample_world).
  - vm_compute. reflexivity.
  - vm_compute. reflexivity.
Defined.

Lemma buffers_in_start_order_witness :
  exists sm',
    ChatComponent.streamingMessage
      (ChatComponent.view
         (Turn.run Transcript.sample_turn_request
            (List.map Turn.Yield Transcript.sample_records)
            Transcript.sample_world)) = Some sm' /\
    List.map ar_agentName (Transcript.buffers sm') =
      List.map ar_agentName
        (Transcript.buffers
           (Turn.fresh_transcript
              (Turn.start 1767225600000 "2026-01-01T00:00:00.000Z"))) ++
      List.map Transcript.started_name
        (List.filter Transcript.is_agent_start Transcript.sample_records).
Proof.
  apply (buffers_in_start_order Transcript.sample_turn_request
           Transcript.sample_records true
           (Turn.fresh_transcript
              (Turn.start 1767225600000 "2026-01-01T00:00:00.000Z"))
           Transcript.sample_world).
  - vm_compute. reflexivity.
  - vm_compute. reflexivity.
Defined.

Lemma buffers_track_aggregate_witness :
  exists sm',
    ChatComponent.streamingMessage
      (ChatComponent.view
         (Turn.run Transcript.sample_turn_request
            (List.map Turn.Yield
               [Turn.content_chunk "foo"; Turn.agent_start_chunk "Writer";
                Turn.content_chunk "bar"])
            Transcript.sample_started)) = Some sm' /\
    Transcript.joined (Transcript.buffers sm') =
      Transcript.joined (Transcript.buffers Transcript.sample_started_transcript)
      +:+ Transcript.join
            (List.map Transcript.delta
               [Turn.content_chunk "foo"; Turn.agent_start_chunk "Writer";
                Turn.content_chunk "bar"]) /\
    m_content sm' =
      m_content Transcript.sample_started_transcript
      +:+ Transcript.join
            (List.map Transcript.delta
               [Turn.content_chunk "foo"; Turn.agent_start_chunk "Writer";
                Turn.content_chunk "bar"]).
Proof.
  apply (buffers_track_aggregate Transcript.sample_turn_request
           [Turn.content_chunk "foo"; Turn.agent_start_chunk "Writer";
            Turn.content_chunk "bar"] true
           Transcript.sample_started_transcript Transcript.sample_started).
  - vm_compute. reflexivity.
  - vm_compute. reflexivity.
  - vm_compute. discriminate.
Defined.

Lemma late_visitor_is_redirected_witness :
  let resolved :=
    Turn.emit Transcript.sample_turn_request (Turn.done_chunk (Some "S9"))
      Transcript.sample_world in
  let arrived :=
    ChatComponent.onRouteParams (Some "pending-1767225600000")
      (ChatComponent.on_view (fun _ => Turn.new_view) resolved) in
  ChatComponent.navigations arrived =
    ChatComponent.navigations resolved ++ ["S9"] /\
  SessionStateService.getRealSessionId "pending-1767225600000"
    (ChatComponent.service resolved) = Some "S9" /\
  SessionStateService.getRealSessionId "pending-1767225600000"
    (ChatComponent.service arrived) = None /\
  ChatComponent.sessionId (ChatComponent.view arrived) =
    Some "pending-1767225600000".
Proof.
  apply (late_visitor_is_redirected Transcript.sample_turn_request
           "pending-1767225600000" "S9" Transcript.sample_world
           Turn.new_view).
  - vm_compute. reflexivity.
  - vm_compute. reflexivity.
  - vm_compute. reflexivity.
  - reflexivity.
  - vm_compute. reflexivity.
  - reflexivity.
  - reflexivity.
Defined.

Lemma messages_survive_navigation_witness :
  let resolved :=
    Turn.emit Transcript.sample_turn_request (Turn.done_chunk (Some "S9"))
      Transcript.sample_started in
  let arrived :=
    ChatComponent.onRouteParams (Some "S9")
      (ChatComponent.on_view (fun _ => Turn.new_view) resolved) in
  ChatComponent.messages (ChatComponent.view arrived) =
    ChatComponent.messages (ChatComponent.view Transcript.sample_started) ++
    [ChatComponent.set_isStreaming (Some false)
       Transcript.sample_started_transcript] /\
  ChatComponent.isLoading (ChatComponent.view arrived) = false /\
  ChatComponent.requests arrived =
    ChatComponent.requests resolved ++ [ChatComponent.GetSession "S9"] /\
  SessionStateService.cachedMessages (ChatComponent.service arrived) !! "S9"
    = None.
Proof.
  apply (messages_survive_navigation Transcript.sample_turn_request
           "pending-1767225600000" "S9" Transcript.sample_started
           Transcript.sample_started_transcript Turn.new_view).
  - vm_compute. reflexivity.
  - vm_compute. reflexivity.
  - vm_compute. reflexivity.
  - reflexivity.
  - vm_compute. reflexivity.
  - reflexivity.
  - reflexivity.
  - vm_compute. reflexivity.
  - reflexivity.
Defined.

Lemma done_without_id_resolves_nothing_witness :
  SessionStateService.hasActiveStream
    (Turn.pending_id (Turn.start 1767225600000 "2026-01-01T00:00:00.000Z"))
    (ChatComponent.service
       (Turn.turn "Hello"
          (List.map Turn.Yield [Turn.content_chunk "Hi"] ++
           [Turn.Yield (Turn.done_chunk None); Turn.StreamEnds])
          (Turn.start 1767225600000 "2026-01-01T00:00:00.000Z"))) = true.
Proof.
  refine (proj1 (proj2 (done_without_id_resolves_nothing "Hello"
                   (Turn.start 1767225600000 "2026-01-01T00:00:00.000Z")
                   [Turn.content_chunk "Hi"] _ _ _))).
  - split; reflexivity.
  - reflexivity.
  - repeat constructor.
Defined.

Lemma orchestrator_stays_selected_witness :
  AgentSelection.includes
    (fold_left
       (fun ids q => AgentSelection.toggleAgent AgentSelection.sample_agents q ids)
       ["writer"; "orch"; "writer"; "researcher"] ["orch"]) "orch" = true.
Proof.
  apply (orchestrator_stays_selected AgentSelection.sample_agents "orch"
           ["writer"; "orch"; "writer"; "researcher"] ["orch"]).
  - reflexivity.
  - reflexivity.
Defined.

Lemma toggle_flips_one_id_witness :
  AgentSelection.includes
    (AgentSelection.toggleAgent AgentSelection.sample_agents "writer" ["orch"])
    "writer"
  = negb (AgentSelection.includes ["orch"] "writer").
Proof.
  refine (proj1 (toggle_flips_one_id AgentSelection.sample_agents "writer"
                   ["orch"] _)).
  reflexivity.
Defined.

Lemma orchestrator_ensured_witness :
  AgentSelection.includes
    (AgentSelection.ensureOrchestratorSelected AgentSelection.sample_agents
       ["writer"]) "orch" = true.
Proof.
  refine (proj1 (proj2 (proj2
            (orchestrator_ensured AgentSelection.sample_agents ["writer"])))
            {| AgentSelection.a_id := Some "orch";
               AgentSelection.a_name := "Orchestrator";
               AgentSelection.a_is_orchestrator := Some true |}
            "orch" _ _ _);
    reflexivity.
Defined.

Lemma activity_message_never_empty_witness :
  MessageView.getActivityMessage
    (Transcript.chatter_entry 0 Transcript.sample_chatter) <> "".
Proof.
  exact (proj1 (activity_message_never_empty
                  (Transcript.chatter_entry 0 Transcript.sample_chatter))).
Defined.

Lemma extension_after_last_dot_witness :
  Upload.extension ("archive.tar" +:+ String Upload.dot "PDF")
  = MessageView.toLowerCase "PDF".
Proof.
  refine (proj1 extension_after_last_dot "archive.tar" "PDF" _).
  reflexivity.
Defined.

Lemma upload_requests_witness :
  let result :=
    Upload.handleFileUpload
      {| Upload.f_name := "notes.MD"; Upload.f_size := 2048 |}
      (Some "pending-1767225600000") "sequential" ["orch"]
      {| Upload.uploadingFile := None; Upload.uploadError := None |} in
  Upload.uploadError (fst result) = None /\
  Upload.uploadingFile (fst result) = Some "notes.MD" /\
  exists call,
    snd result = [call] /\
    match call with
    | Upload.CreateSession title _ _ =>
        JS.startsWith title "Document:" = true /\
        (Some "pending-1767225600000" = None \/
         Some "pending-1767225600000" = Some "" \/
         exists p, Some "pending-1767225600000" = Some p /\
                   JS.startsWith p "pending-" = true)
    | Upload.UploadDocument name sid =>
        name = "notes.MD" /\ Some "pending-1767225600000" = Some sid /\
        sid <> "" /\ JS.startsWith sid "pending-" = false
    end.
Proof.
  refine (proj2 (upload_requests
                   {| Upload.f_name := "notes.MD"; Upload.f_size := 2048 |}
                   (Some "pending-1767225600000") "sequential" ["orch"]
                   {| Upload.uploadingFile := None;
                      Upload.uploadError := None |}) _).
  reflexivity.
Defined.
